(** * NSIS target of electron-builder: model and verified properties

    Shallow embedding of
    [packages/app-builder-lib/src/targets/nsis/NsisTarget.ts] and of the
    [installApplicationFiles] macro of the installer template, followed by
    the properties proved about them. *)

From Stdlib Require Import String Ascii List ZArith NArith Lia Bool.
From Stdlib.Strings Require Import Byte.
From Stdlib Require DecimalString.
Import ListNotations.

Local Open Scope list_scope.
Local Open Scope string_scope.

(* ===================================================================== *)
(** * JavaScript values used by the target *)
(* ===================================================================== *)

Module Js.

(** An optional boolean property ([boolean | undefined]). *)
Definition obool := option bool.

(** [x === true] *)
Definition is_true (x : obool) : bool :=
  match x with Some true => true | _ => false end.

(** [x === false] *)
Definition is_false (x : obool) : bool :=
  match x with Some false => true | _ => false end.

(** [x !== false] *)
Definition not_false (x : obool) : bool := negb (is_false x).

(** Truthiness of an optional boolean: [if (x)]. *)
Definition truthy (x : obool) : bool := is_true x.

(** Truthiness of an optional string: [null], [undefined] and the empty
    string are falsy. *)
Definition truthy_str (x : option string) : bool :=
  match x with Some (String _ _) => true | _ => false end.

(** [a || b] on optional strings. *)
Definition or_str (a b : option string) : option string :=
  if truthy_str a then a else b.

(** [String.prototype.startsWith], as a prefix test. *)
Fixpoint startsWith (p s : string) : bool :=
  match p with
  | EmptyString => true
  | String a p' =>
      match s with
      | EmptyString => false
      | String b s' => Ascii.eqb a b && startsWith p' s'
      end
  end.

(** [String.prototype.includes]. *)
Fixpoint includes (s needle : string) : bool :=
  startsWith needle s
  || match s with
     | EmptyString => false
     | String _ s' => includes s' needle
     end.

(** [String.prototype.endsWith]. *)
Fixpoint endsWith (s suffix : string) : bool :=
  String.eqb s suffix
  || match s with
     | EmptyString => false
     | String _ s' => endsWith s' suffix
     end.

(** Upper-casing of the ASCII letters; the strings it is applied to here
    are hexadecimal digits. *)
Definition upper_ascii (c : ascii) : ascii :=
  let n := N_of_ascii c in
  if ((97 <=? n) && (n <=? 122))%N then ascii_of_N (n - 32) else c.

Fixpoint toUpperCase (s : string) : string :=
  match s with
  | EmptyString => EmptyString
  | String c s' => String (upper_ascii c) (toUpperCase s')
  end.

End Js.

(* ===================================================================== *)
(** * Node's [Buffer]: the base64 and hex encodings *)
(* ===================================================================== *)

Module Buffer.

(** A buffer is a list of bytes. *)
Definition t := list byte.

(** Low eight bits of a number, as a byte. *)
Definition byte_of_N (n : N) : byte :=
  match Byte.of_N (n mod 256) with
  | Some b => b
  | None => x00
  end.

Definition base64_alphabet : list ascii :=
  list_ascii_of_string
    "ABCDEFGHIJKLMNOPQRSTUVWXYZabcdefghijklmnopqrstuvwxyz0123456789+/".

(** Character of a sextet. *)
Definition b64char (n : N) : ascii :=
  nth (N.to_nat n) base64_alphabet "="%char.

(** Value of a base64 character; the URL-safe [-] and [_] are accepted
    by the decoder as well. *)
Definition unbase64 (c : ascii) : option N :=
  let n := N_of_ascii c in
  if ((65 <=? n) && (n <=? 90))%N then Some (n - 65)%N
  else if ((97 <=? n) && (n <=? 122))%N then Some (n - 71)%N
  else if ((48 <=? n) && (n <=? 57))%N then Some (n + 4)%N
  else if ((n =? 43) || (n =? 45))%N then Some 62%N
  else if ((n =? 47) || (n =? 95))%N then Some 63%N
  else None.

Definition cons4 (a b c d : ascii) (s : string) : string :=
  String a (String b (String c (String d s))).

(** [buf.toString("base64")] *)
Fixpoint toString_base64 (bs : t) : string :=
  match bs with
  | [] => EmptyString
  | [a] =>
      let n := (Byte.to_N a * 65536)%N in
      cons4 (b64char (n / 262144)) (b64char ((n / 4096) mod 64))
            "=" "=" EmptyString
  | [a; b] =>
      let n := (Byte.to_N a * 65536 + Byte.to_N b * 256)%N in
      cons4 (b64char (n / 262144)) (b64char ((n / 4096) mod 64))
            (b64char ((n / 64) mod 64)) "=" EmptyString
  | a :: b :: c :: rest =>
      let n := (Byte.to_N a * 65536 + Byte.to_N b * 256 + Byte.to_N c)%N in
      cons4 (b64char (n / 262144)) (b64char ((n / 4096) mod 64))
            (b64char ((n / 64) mod 64)) (b64char (n mod 64))
            (toString_base64 rest)
  end.

(** The sextets of a base64 string: characters outside the alphabet are
    skipped and the first padding character ends the data. *)
Fixpoint sextets (s : string) : list N :=
  match s with
  | EmptyString => []
  | String c s' =>
      if Ascii.eqb c "=" then []
      else match unbase64 c with
           | Some v => v :: sextets s'
           | None => sextets s'
           end
  end.

(** Bytes of a list of sextets: three bytes for every four sextets, and
    one or two bytes for a final group of two or three. *)
Fixpoint bytes_of_sextets (ss : list N) : t :=
  match ss with
  | a :: b :: c :: d :: rest =>
      let m := (a * 262144 + b * 4096 + c * 64 + d)%N in
      byte_of_N (m / 65536) :: byte_of_N (m / 256) :: byte_of_N m
      :: bytes_of_sextets rest
  | [a; b; c] =>
      let m := (a * 262144 + b * 4096 + c * 64)%N in
      [byte_of_N (m / 65536); byte_of_N (m / 256)]
  | [a; b] =>
      let m := (a * 262144 + b * 4096)%N in
      [byte_of_N (m / 65536)]
  | _ => []
  end.

(** [Buffer.from(s, "base64")] *)
Definition from_base64 (s : string) : t := bytes_of_sextets (sextets s).

Definition hex_alphabet : list ascii :=
  list_ascii_of_string "0123456789abcdef".

Definition hexchar (n : N) : ascii :=
  nth (N.to_nat n) hex_alphabet "0"%char.

(** Value of a hexadecimal digit of either case. *)
Definition unhex (c : ascii) : option N :=
  let n := N_of_ascii c in
  if ((48 <=? n) && (n <=? 57))%N then Some (n - 48)%N
  else if ((97 <=? n) && (n <=? 102))%N then Some (n - 87)%N
  else if ((65 <=? n) && (n <=? 70))%N then Some (n - 55)%N
  else None.

(** [buf.toString("hex")]: two lower-case digits per byte. *)
Fixpoint toString_hex (bs : t) : string :=
  match bs with
  | [] => EmptyString
  | a :: rest =>
      String (hexchar (Byte.to_N a / 16))
        (String (hexchar (Byte.to_N a mod 16)) (toString_hex rest))
  end.

(** [Buffer.from(s, "hex")]: decoding stops at the first pair that is not
    two hexadecimal digits; a trailing single digit is dropped. *)
Fixpoint from_hex (s : string) : t :=
  match s with
  | String h (String l s') =>
      match unhex h, unhex l with
      | Some x, Some y => byte_of_N (x * 16 + y) :: from_hex s'
      | _, _ => []
      end
  | _ => []
  end.

End Buffer.

(** The value of the [APP_*_HASH] define computed from the package file's
    sha512 ([NsisTarget.buildInstaller]):
    [Buffer.from(fileInfo.sha512, "base64").toString("hex").toUpperCase()]. *)
Definition defineHash (sha512 : string) : string :=
  Js.toUpperCase (Buffer.toString_hex (Buffer.from_base64 sha512)).

(* ===================================================================== *)
(** * Strings, paths and numbers *)
(* ===================================================================== *)

Module Str.

(** The double quote, as a string. *)
Definition dquote : string := String "034"%char EmptyString.

(** [s.replace(/c/g, by)] for a one-character pattern. *)
Fixpoint replaceAll (c : ascii) (by_ : string) (s : string) : string :=
  match s with
  | EmptyString => EmptyString
  | String a s' =>
      if Ascii.eqb a c then by_ ++ replaceAll c by_ s'
      else String a (replaceAll c by_ s')
  end.

(** Decimal text of an integer, as [Number.prototype.toString] gives it
    for integers. *)
Definition ofZ (z : Z) : string :=
  DecimalString.NilZero.string_of_int (Z.to_int z).

(** Text after the last [/] of a path. *)
Fixpoint lastSegment (acc : string) (s : string) : string :=
  match s with
  | EmptyString => acc
  | String c s' =>
      if Ascii.eqb c "/" then lastSegment EmptyString s'
      else lastSegment (acc ++ String c EmptyString) s'
  end.

(** [s] without its last [n] characters. *)
Definition dropRight (n : nat) (s : string) : string :=
  substring 0 (String.length s - n) s.

(** [path.basename(p, ext)]: the last segment, without [ext] when it ends
    with it and is not [ext] itself. *)
Definition basename (p ext : string) : string :=
  let b := lastSegment EmptyString p in
  if Js.endsWith b ext && negb (String.eqb b ext)
  then dropRight (String.length ext) b
  else b.

(** [path.join(dir, name)] for a directory and a file name that need no
    normalisation. *)
Definition join (dir name : string) : string := dir ++ "/" ++ name.

End Str.

(** JavaScript numbers that hold sizes are modelled by integers; the
    divisions by 1024 met below are exact on doubles for sizes below
    2^53. *)

(** [Math.ceil(n / 1024)] *)
Definition ceilDiv1024 (n : Z) : Z := (n + 1023) / 1024.

(** [Math.round(n / 1024)]: halves are rounded up. *)
Definition roundDiv1024 (n : Z) : Z := (n + 512) / 1024.

(* ===================================================================== *)
(** * Architectures and the tables handed to the compiler *)
(* ===================================================================== *)

Inductive Arch := ia32 | x64 | armv7l | arm64 | universal.

Definition Arch_eqb (a b : Arch) : bool :=
  match a, b with
  | ia32, ia32 | x64, x64 | armv7l, armv7l | arm64, arm64
  | universal, universal => true
  | _, _ => false
  end.

(** [Arch[arch]] *)
Definition Arch_name (a : Arch) : string :=
  match a with
  | ia32 => "ia32" | x64 => "x64" | armv7l => "armv7l"
  | arm64 => "arm64" | universal => "universal"
  end.

(** A [Map<Arch, string>]: entries in insertion order, keys unique. *)
Definition ArchMap := list (Arch * string).

Module ArchMap.

(** [map.set(arch, dir)]: an existing key keeps its position. *)
Fixpoint set (a : Arch) (dir : string) (m : ArchMap) : ArchMap :=
  match m with
  | [] => [(a, dir)]
  | (b, d) :: m' =>
      if Arch_eqb a b then (b, dir) :: m' else (b, d) :: set a dir m'
  end.

Definition keys (m : ArchMap) : list Arch := map fst m.

Definition size (m : ArchMap) : nat := length m.

(** [new Map().set(arch, dir)] *)
Definition singleton (a : Arch) (dir : string) : ArchMap := set a dir [].

End ArchMap.

(** The value of a define: [null] (a flag without value), a string or a
    number. *)
Inductive DefineValue :=
| Flag
| Str (s : string)
| Num (z : Z).

(** The object [defines]: properties in insertion order. *)
Definition Defines := list (string * DefineValue).

Module Defines.

(** [defines[k] = v] *)
Fixpoint set (k : string) (v : DefineValue) (d : Defines) : Defines :=
  match d with
  | [] => [(k, v)]
  | (k', v') :: d' =>
      if String.eqb k k' then (k', v) :: d' else (k', v') :: set k v d'
  end.

Fixpoint get (k : string) (d : Defines) : option DefineValue :=
  match d with
  | [] => None
  | (k', v) :: d' => if String.eqb k k' then Some v else get k d'
  end.

(** [k in defines] *)
Definition has (k : string) (d : Defines) : bool :=
  match get k d with Some _ => true | None => false end.

(** [delete defines[k]] *)
Fixpoint delete (k : string) (d : Defines) : Defines :=
  match d with
  | [] => []
  | (k', v) :: d' =>
      if String.eqb k k' then d' else (k', v) :: delete k d'
  end.

(** [Object.keys(defines)] *)
Definition keys (d : Defines) : list string := map fst d.

End Defines.

(** The value of a command: a scalar or a list of strings. *)
Inductive CommandValue :=
| Scalar (s : string)
| Many (l : list string).

(** The object [commands]. *)
Definition Commands := list (string * CommandValue).

Module Commands.

Fixpoint set (k : string) (v : CommandValue) (c : Commands) : Commands :=
  match c with
  | [] => [(k, v)]
  | (k', v') :: c' =>
      if String.eqb k k' then (k', v) :: c' else (k', v') :: set k v c'
  end.

Fixpoint get (k : string) (c : Commands) : option CommandValue :=
  match c with
  | [] => None
  | (k', v) :: c' => if String.eqb k k' then Some v else get k c'
  end.

End Commands.

(* ===================================================================== *)
(** * Configuration *)
(* ===================================================================== *)

(** [unpackDirName?: string | boolean] *)
Inductive UnpackDirName :=
| UdnUnset
| UdnBool (b : bool)
| UdnStr (s : string).

(** The properties of [NsisOptions] (and [PortableOptions]) that the target
    reads. *)
Record NsisOptions := {
  oneClick : Js.obool;
  perMachine : Js.obool;
  selectPerMachineByDefault : Js.obool;
  allowElevation : Js.obool;
  allowToAddShortcut : Js.obool;
  allowToChangeInstallationDirectory : Js.obool;
  removeDefaultUninstallWelcomePage : Js.obool;
  runAfterFinish : Js.obool;
  deleteAppDataOnUninstall : Js.obool;
  displayLanguageSelector : Js.obool;
  packElevateHelper : Js.obool;
  buildUniversalInstaller : Js.obool;
  differentialPackage : Js.obool;
  useZip : Js.obool;
  unicode : Js.obool;
  warningsAsErrors : Js.obool;
  debugLogging : Js.obool;          (* customNsisBinary?.debugLogging *)
  guid : option string;
  language : option string;
  uninstallDisplayName : option string;
  uninstallUrlHelp : option string;
  uninstallUrlInfoAbout : option string;
  uninstallUrlUpdateInfo : option string;
  uninstallUrlReadme : option string;
  installerIcon : option string;
  uninstallerIcon : option string;
  installerHeader : option string;
  installerHeaderIcon : option string;
  installerSidebar : option string;
  uninstallerSidebar : option string;
  script : option string;
  (* portable *)
  requestExecutionLevel : option string;
  unpackDirName : UnpackDirName;
  splashImage : option string
}.

(** [packager.appInfo] *)
Record AppInfo := {
  app_id : string;
  app_name : string;
  productName : string;
  productFilename : string;
  description : string;
  version : string;
  buildVersion : string;
  copyright : string;
  companyName : option string;
  shortVersion : option string;
  shortVersionWindows : string;
  versionInWeirdWindowsForm : string;
  updaterCacheDirName : string
}.

Inductive DesktopShortcutCreationPolicy := FRESH_INSTALL | ALWAYS | NEVER.

(** The result of [getEffectiveOptions]. *)
Record FinalCommonWindowsInstallerOptions := {
  menuCategory : option string;
  shortcutName : string;
  isCreateDesktopShortcut : DesktopShortcutCreationPolicy;
  isCreateStartMenuShortcut : bool
}.

(** [PackageFileInfo], with the unpacked size that [packArch] reports. *)
Record PackageFileInfo := {
  pf_path : string;
  pf_sha512 : string;
  pf_unpackedSize : Z
}.

(** [UpdateInfo], as far as the target touches it. *)
Record UpdateInfo := {
  ui_packages : list (string * PackageFileInfo);
  isAdminRightsRequired : Js.obool
}.

(* ===================================================================== *)
(** * Listing of an archive: [/(\d+)\s+\d+\s+\d+\s+files/] *)
(* ===================================================================== *)

Module Listing.

Definition isDigit (c : ascii) : bool :=
  let n := N_of_ascii c in ((48 <=? n) && (n <=? 57))%N.

(** [\s] on the characters of a listing. *)
Definition isSpace (c : ascii) : bool :=
  let n := N_of_ascii c in
  (((9 <=? n) && (n <=? 13)) || (n =? 32) || (n =? 160))%N.

(** The longest prefix of digits and what follows it. *)
Fixpoint spanDigits (s : string) : string * string :=
  match s with
  | String c s' =>
      if isDigit c
      then let (d, r) := spanDigits s' in (String c d, r)
      else (EmptyString, s)
  | EmptyString => (EmptyString, EmptyString)
  end.

Fixpoint dropSpaces (s : string) : string :=
  match s with
  | String c s' => if isSpace c then dropSpaces s' else s
  | EmptyString => EmptyString
  end.

(** [\d+]: the digits matched and the rest. A shorter run of digits is
    followed by a digit, which none of [\s] and [f] matches, so only the
    longest run can lead to a match. *)
Definition digits1 (s : string) : option (string * string) :=
  match spanDigits s with
  | (EmptyString, _) => None
  | (d, r) => Some (d, r)
  end.

(** [\s+], the longest run for the same reason. *)
Definition spaces1 (s : string) : option string :=
  match s with
  | String c s' => if isSpace c then Some (dropSpaces s') else None
  | EmptyString => None
  end.

(** A match of the pattern at the start of [s]: its first group. *)
Definition matchHere (s : string) : option string :=
  match digits1 s with
  | None => None
  | Some (g1, r1) =>
  match spaces1 r1 with
  | None => None
  | Some r2 =>
  match digits1 r2 with
  | None => None
  | Some (_, r3) =>
  match spaces1 r3 with
  | None => None
  | Some r4 =>
  match digits1 r4 with
  | None => None
  | Some (_, r5) =>
  match spaces1 r5 with
  | None => None
  | Some r6 => if Js.startsWith "files" r6 then Some g1 else None
  end end end end end end.

(** [regex.exec(s)]: the first group of the leftmost match. *)
Fixpoint exec (s : string) : option string :=
  match matchHere s with
  | Some g => Some g
  | None =>
      match s with
      | String _ s' => exec s'
      | EmptyString => None
      end
  end.

(** [parseInt(digits, 10)] on a run of digits. *)
Definition parseInt (digits : string) : Z :=
  fold_left (fun acc c => (acc * 10 + (Z.of_N (N_of_ascii c) - 48))%Z)
            (list_ascii_of_string digits) 0%Z.

Definition trimStart (s : string) : string := dropSpaces s.

Definition rev (s : string) : string :=
  string_of_list_ascii (List.rev (list_ascii_of_string s)).

(** [s.trim()] *)
Definition trim (s : string) : string := rev (dropSpaces (rev (trimStart s))).

(** The size that a listing reports, when it can be read from it. *)
Definition reportedSize (archiveInfo : string) : option Z :=
  option_map parseInt (exec archiveInfo).

End Listing.

(* ===================================================================== *)
(** * The target, its collaborators and the state of a build *)
(* ===================================================================== *)

(** The target object: its name, its resolved options and output
    directory, and the [isWebInstaller] getter that the web target
    overrides. *)
Record Target := {
  name : string;
  options : NsisOptions;
  outDir : string;
  isWebInstaller : bool
}.

(** Outcome of [fs.open(outFile, "r+", ...)]. *)
Inductive OpenResult :=
| OpenEBUSY
| OpenError (code : string)
| Opened.

(** The packager and the collaborators reached from the target, each by
    the result it gives. *)
Record Packager := {
  appInfo : AppInfo;
  projectDir : string;
  buildResourcesDir : string;
  homepage : option string;
  legalTrademarks : option string;
  compression : string;
  (* UUID.v5(appInfo.id, ELECTRON_BUILDER_NS_UUID) *)
  uuidV5 : string;
  getWindowsInstallationDirName : bool -> string;
  getWindowsInstallationAppPackageName : string;
  expandArtifactNamePattern : option Arch -> string;
  (* artifactPatternConfig(options, installerFilenamePattern()).pattern *)
  artifactPattern : string;
  getResource : option string -> string -> option string;
  getIconPath : option string;
  (* getEffectiveOptions(options, packager): its result or the message of
     the error it throws *)
  getEffectiveOptions : string + FinalCommonWindowsInstallerOptions;
  expandMacro : string -> string;
  ksuid : string;
  pathResolve : string -> string -> string;
  (* packageHelper.packArch(arch, target); None when it rejects *)
  packArch : Arch -> option PackageFileInfo;
  (* output of [7za l file]; None when the process fails *)
  exec7zaList : string -> option string;
  (* packagerOptions.effectiveOptionComputed and what it resolves to *)
  effectiveOptionComputed : option bool;
  nsisTemplatesDir : string;
  readFile : string -> string;
  sharedHeader : string;
  computeFinalScript : string -> bool -> ArchMap -> string;
  isWin : bool;
  isMacOsCatalina : bool;
  (* exit of the compiler on these arguments: true for success *)
  makensis : list string -> bool;
  sign : string -> bool;
  execWine : string -> bool;
  uninstallerReaderExec : string -> string -> bool;
  vmExec : string -> bool;
  (* the check of [exists(uninstallerPath)] after so many waits *)
  vmUninstallerExists : nat -> bool;
  (* the n-th [fs.open] of the build *)
  openOutFile : nat -> OpenResult;
  createNsisWebDifferentialUpdateInfo :
    string -> list (string * PackageFileInfo) -> option UpdateInfo;
  createBlockmap : string -> option UpdateInfo
}.

Inductive Error :=
| InvalidConfigurationError (message : string)
| ExecError (what : string)
| FsError (code : string) (path : string).

(** What the outside world sees of a build. *)
Inductive Event :=
| ArtifactBuildStarted (file : string) (arch : option Arch)
| ArtifactBuildCompleted (file : string) (arch : option Arch)
    (updateInfo : option UpdateInfo)
| PackArch (arch : Arch)
| Exec7za (file : string)
| LogWarn (message : string)
| LogInfo (message : string)
| FsOpen (file : string)
| SetTimeout (ms : Z)
| SpawnMakensis (args : list string) (script : string)
| ExecWine (file : string)
| UninstallerReaderExec (installer uninstaller : string)
| VmExec (file : string)
| Sign (file : string)
| Unlink (file : string)
| TargetFinishBuild
| PackageHelperFinishBuild.

(** What the task that [buildInstaller] adds to the build queue captures. *)
Record Task := {
  t_defines : Defines;
  t_commands : Commands;
  t_definesUninstaller : Defines;
  t_commandsUninstaller : Commands;
  t_installerPath : string;
  t_archs : ArchMap;
  t_primaryArch : option Arch;
  t_packageFiles : list (string * PackageFileInfo);
  t_oneClick : bool;
  t_isPerMachine : bool
}.

(** The objects of the running [buildInstaller] call, the target's mutable
    fields and the outside world. *)
Record State := mkState {
  defines : Defines;
  commands : Commands;
  definesUninstaller : Defines;
  commandsUninstaller : Commands;
  estimatedSize : Z;
  packageFiles : list (string * PackageFileInfo);
  archs : ArchMap;
  buildQueue : list Task;
  files : list string;
  opens : nat;
  trace : list Event
}.

(** Which of the two tables of defines, and of commands, a function was
    handed. *)
Inductive DefinesRef := TheDefines | TheDefinesUninstaller.
Inductive CommandsRef := TheCommands | TheCommandsUninstaller.

(* ===================================================================== *)
(** * Computations: state, exceptions and suspension *)
(* ===================================================================== *)

(** A computation returns, throws, or is still suspended when the patience
    of the observer runs out. *)
Inductive Res (A : Type) :=
| Ok (a : A)
| Throw (e : Error)
| Pending.

Arguments Ok {A} a.
Arguments Throw {A} e.
Arguments Pending {A}.

Definition M (A : Type) := State -> Res A * State.

Definition ret {A} (a : A) : M A := fun s => (Ok a, s).

Definition bind {A B} (m : M A) (f : A -> M B) : M B :=
  fun s =>
    match m s with
    | (Ok a, s') => f a s'
    | (Throw e, s') => (Throw e, s')
    | (Pending, s') => (Pending, s')
    end.

Definition throw {A} (e : Error) : M A := fun s => (Throw e, s).

Definition pending {A} : M A := fun s => (Pending, s).

Definition gets {A} (f : State -> A) : M A := fun s => (Ok (f s), s).

Definition modify (f : State -> State) : M unit := fun s => (Ok tt, f s).

Declare Scope m_scope.
Delimit Scope m_scope with m.
Notation "x <- m ;; k" := (bind m (fun x => k))
  (at level 61, m at next level, right associativity) : m_scope.
Notation "m ;; k" := (bind m (fun _ => k))
  (at level 61, right associativity) : m_scope.
Local Open Scope m_scope.

(** [if (b) { m }] *)
Definition when (b : bool) (m : M unit) : M unit :=
  if b then m else ret tt.

(** [use(value, task)] *)
Definition use {A} (value : option A) (task : A -> M unit) : M unit :=
  match value with
  | Some v => task v
  | None => ret tt
  end.

(** [for (const x of xs) { await body(x) }] *)
Fixpoint forEach {A} (xs : list A) (body : A -> M unit) : M unit :=
  match xs with
  | [] => ret tt
  | x :: xs' => body x ;; forEach xs' body
  end.

(** [try { m } catch (error) { handler(error) }] *)
Definition tryCatch {A} (m : M A) (handler : Error -> M A) : M A :=
  fun s =>
    match m s with
    | (Throw e, s') => handler e s'
    | r => r
    end.

(** [try { m } finally { fin }] *)
Definition tryFinally {A} (m : M A) (fin : M unit) : M A :=
  fun s =>
    match m s with
    | (Pending, s') => (Pending, s')
    | (r, s') =>
        match fin s' with
        | (Ok _, s'') => (r, s'')
        | (Throw e, s'') => (Throw e, s'')
        | (Pending, s'') => (Pending, s'')
        end
    end.

(** [Promise.all([m1, m2])]: both are started, whatever becomes of the
    other; the result is the first that is not a success. *)
Definition both (m1 m2 : M unit) : M unit :=
  fun s =>
    match m1 s with
    | (r1, s') =>
        match m2 s' with
        | (r2, s'') =>
            (match r1 with Ok _ => r2 | _ => r1 end, s'')
        end
    end.

Definition set_defines (d : Defines) (s : State) : State :=
  mkState d (commands s) (definesUninstaller s) (commandsUninstaller s)
    (estimatedSize s) (packageFiles s) (archs s) (buildQueue s) (files s)
    (opens s) (trace s).

Definition set_commands (c : Commands) (s : State) : State :=
  mkState (defines s) c (definesUninstaller s) (commandsUninstaller s)
    (estimatedSize s) (packageFiles s) (archs s) (buildQueue s) (files s)
    (opens s) (trace s).

Definition set_definesUninstaller (d : Defines) (s : State) : State :=
  mkState (defines s) (commands s) d (commandsUninstaller s)
    (estimatedSize s) (packageFiles s) (archs s) (buildQueue s) (files s)
    (opens s) (trace s).

Definition set_commandsUninstaller (c : Commands) (s : State) : State :=
  mkState (defines s) (commands s) (definesUninstaller s) c
    (estimatedSize s) (packageFiles s) (archs s) (buildQueue s) (files s)
    (opens s) (trace s).

Definition set_estimatedSize (z : Z) (s : State) : State :=
  mkState (defines s) (commands s) (definesUninstaller s)
    (commandsUninstaller s) z (packageFiles s) (archs s) (buildQueue s)
    (files s) (opens s) (trace s).

Definition set_packageFiles (l : list (string * PackageFileInfo))
    (s : State) : State :=
  mkState (defines s) (commands s) (definesUninstaller s)
    (commandsUninstaller s) (estimatedSize s) l (archs s) (buildQueue s)
    (files s) (opens s) (trace s).

Definition set_archs (m : ArchMap) (s : State) : State :=
  mkState (defines s) (commands s) (definesUninstaller s)
    (commandsUninstaller s) (estimatedSize s) (packageFiles s) m
    (buildQueue s) (files s) (opens s) (trace s).

Definition set_buildQueue (q : list Task) (s : State) : State :=
  mkState (defines s) (commands s) (definesUninstaller s)
    (commandsUninstaller s) (estimatedSize s) (packageFiles s) (archs s) q
    (files s) (opens s) (trace s).

Definition set_files (l : list string) (s : State) : State :=
  mkState (defines s) (commands s) (definesUninstaller s)
    (commandsUninstaller s) (estimatedSize s) (packageFiles s) (archs s)
    (buildQueue s) l (opens s) (trace s).

Definition set_opens (n : nat) (s : State) : State :=
  mkState (defines s) (commands s) (definesUninstaller s)
    (commandsUninstaller s) (estimatedSize s) (packageFiles s) (archs s)
    (buildQueue s) (files s) n (trace s).

Definition set_trace (t : list Event) (s : State) : State :=
  mkState (defines s) (commands s) (definesUninstaller s)
    (commandsUninstaller s) (estimatedSize s) (packageFiles s) (archs s)
    (buildQueue s) (files s) (opens s) t.

Definition definesOf (r : DefinesRef) (s : State) : Defines :=
  match r with
  | TheDefines => defines s
  | TheDefinesUninstaller => definesUninstaller s
  end.

Definition commandsOf (r : CommandsRef) (s : State) : Commands :=
  match r with
  | TheCommands => commands s
  | TheCommandsUninstaller => commandsUninstaller s
  end.

(** [defines[k] = v] on the table that [r] names. *)
Definition setDefine (r : DefinesRef) (k : string) (v : DefineValue)
    : M unit :=
  modify (fun s =>
    match r with
    | TheDefines => set_defines (Defines.set k v (defines s)) s
    | TheDefinesUninstaller =>
        set_definesUninstaller (Defines.set k v (definesUninstaller s)) s
    end).

(** [delete defines[k]] *)
Definition deleteDefine (r : DefinesRef) (k : string) : M unit :=
  modify (fun s =>
    match r with
    | TheDefines => set_defines (Defines.delete k (defines s)) s
    | TheDefinesUninstaller =>
        set_definesUninstaller (Defines.delete k (definesUninstaller s)) s
    end).

Definition getDefine (r : DefinesRef) (k : string)
    : M (option DefineValue) :=
  gets (fun s => Defines.get k (definesOf r s)).

Definition setCommand (r : CommandsRef) (k : string) (v : CommandValue)
    : M unit :=
  modify (fun s =>
    match r with
    | TheCommands => set_commands (Commands.set k v (commands s)) s
    | TheCommandsUninstaller =>
        set_commandsUninstaller (Commands.set k v (commandsUninstaller s)) s
    end).

(** An effect on the outside world is recorded in the trace. *)
Definition emit (e : Event) : M unit :=
  modify (fun s => set_trace (trace s ++ [e])%list s).

Definition fileExists (p : string) (s : State) : bool :=
  existsb (String.eqb p) (files s).

(** The file [p] is written. *)
Definition writeFile (p : string) : M unit :=
  modify (fun s => if fileExists p s then s else set_files (files s ++ [p])%list s).

(** [unlink(p)] *)
Definition unlink (p : string) : M unit :=
  emit (Unlink p) ;;
  present <- gets (fileExists p) ;;
  if present
  then modify (fun s =>
         set_files (filter (fun q => negb (String.eqb p q)) (files s)) s)
  else throw (FsError "ENOENT" p).

(* ===================================================================== *)
(** * [NsisTarget] *)
(* ===================================================================== *)

Section NsisTarget.

Variable target : Target.
Variable packager : Packager.

(** How many back-off delays of [ensureNotBusy] the observer waits for
    before a computation counts as [Pending]. *)
Variable patience : nat.

Let opts := options target.
Let info := appInfo packager.

(** [get isPortable()] *)
Definition isPortable : bool := String.eqb (name target) "portable".

(** [get shouldBuildUniversalInstaller()] *)
Definition shouldBuildUniversalInstaller : bool :=
  let buildSeparateInstallers := Js.is_false (buildUniversalInstaller opts) in
  negb buildSeparateInstallers.

(** [get isBuildDifferentialAware()] *)
Definition isBuildDifferentialAware : bool :=
  negb isPortable && Js.not_false (differentialPackage opts).

(** [get isUnicodeEnabled()] *)
Definition isUnicodeEnabled : bool := Js.not_false (unicode opts).

Definition USE_NSIS_BUILT_IN_COMPRESSOR : bool := false.

(** Constants of [builder-util-runtime]. *)
Definition CURRENT_APP_INSTALLER_FILE_NAME : string := "installer.exe".

Definition CURRENT_APP_PACKAGE_FILE_NAME : string := "package.7z".

(** [a || b] where [b] is a string. *)
Definition orElse (a : option string) (b : string) : string :=
  match Js.or_str a (Some b) with Some v => v | None => b end.

(** [computeVersionKey(short)] *)
Definition computeVersionKey (short : bool) : list string :=
  let localeId := orElse (language opts) "1033" in
  let key (k v : string) :=
    "/LANG=" ++ localeId ++ " " ++ k ++ " " ++ Str.dquote ++ v ++ Str.dquote in
  let shortV :=
    match shortVersion info with Some v => v | None => "null" end in
  ([ key "ProductName" (productName info);
     key "ProductVersion" (if short then shortV else version info);
     key "LegalCopyright" (copyright info);
     key "FileDescription" (description info);
     key "FileVersion" (if short then shortV else buildVersion info) ]
   ++ match legalTrademarks packager with
      | Some it => [key "LegalTrademarks" it]
      | None => []
      end
   ++ match companyName info with
      | Some it => [key "CompanyName" it]
      | None => []
      end)%list.

(** [configureDefinesForAllTypeOfInstaller(defines)] *)
Definition configureDefinesForAllTypeOfInstaller (defs : DefinesRef)
    : M unit :=
  use (companyName info) (fun companyName =>
    setDefine defs "COMPANY_NAME" (Str companyName)) ;;
  appFilename <- getDefine defs "APP_FILENAME" ;;
  when (match appFilename with
        | Some (Str f) => negb (String.eqb f (productFilename info))
        | _ => true
        end)
    (setDefine defs "APP_PRODUCT_FILENAME" (Str (productFilename info))) ;;
  (if isWebInstaller target
   then setDefine defs "APP_PACKAGE_STORE_FILE"
          (Str (updaterCacheDirName info ++ "\"
                ++ CURRENT_APP_PACKAGE_FILE_NAME))
   else setDefine defs "APP_INSTALLER_STORE_FILE"
          (Str (updaterCacheDirName info ++ "\"
                ++ CURRENT_APP_INSTALLER_FILE_NAME))) ;;
  appBuildDir <- getDefine defs "APP_BUILD_DIR" ;;
  when (negb (isWebInstaller target)
        && match appBuildDir with Some (Str _ | Num _) => false | _ => true end)
    (when (Js.truthy (useZip opts))
       (setDefine defs "ZIP_COMPRESSION" Flag) ;;
     setDefine defs "COMPRESSION_METHOD"
       (Str (if Js.truthy (useZip opts) then "zip" else "7z"))).

(** The tasks that [configureDefines] hands to its [asyncTaskManager],
    in the order in which they are added: the header task or tasks of the
    mode, then the task of the uninstaller icon. Each writes its defines
    once its resource lookup has resolved, that is after the synchronous
    part of [configureDefines]. *)
Definition asyncTasks (oneClick : bool) (defs : DefinesRef)
    : list (M unit) :=
  ((if oneClick then
     [ use (getResource packager (installerHeaderIcon opts)
              "installerHeaderIcon.ico")
         (fun installerHeaderIcon =>
            setDefine defs "HEADER_ICO" (Str installerHeaderIcon)) ]
   else
     [ use (getResource packager (installerHeader opts)
              "installerHeader.bmp")
         (fun installerHeader =>
            setDefine defs "MUI_HEADERIMAGE" Flag ;;
            setDefine defs "MUI_HEADERIMAGE_RIGHT" Flag ;;
            setDefine defs "MUI_HEADERIMAGE_BITMAP" (Str installerHeader));
       (let bitmap :=
          orElse (getResource packager (installerSidebar opts)
                    "installerSidebar.bmp")
                 "${NSISDIR}\Contrib\Graphics\Wizard\nsis3-metro.bmp" in
        setDefine defs "MUI_WELCOMEFINISHPAGE_BITMAP" (Str bitmap) ;;
        setDefine defs "MUI_UNWELCOMEFINISHPAGE_BITMAP"
          (Str (orElse (getResource packager (uninstallerSidebar opts)
                          "uninstallerSidebar.bmp")
                       bitmap))) ])
  ++ [ use (getResource packager (uninstallerIcon opts)
              "uninstallerIcon.ico")
         (fun uninstallerIcon =>
            (* we don't need to copy MUI_UNICON (defaults to app icon),
               so, we have 2 defines *)
            setDefine defs "UNINSTALLER_ICON" (Str uninstallerIcon) ;;
            setDefine defs "MUI_UNICON" (Str uninstallerIcon)) ])%list.

(** [configureDefines(oneClick, defines)] *)
Definition configureDefines (oneClick : bool) (defs : DefinesRef)
    : M unit :=
  (if oneClick then
     setDefine defs "ONE_CLICK" Flag ;;
     when (Js.not_false (runAfterFinish opts))
       (setDefine defs "RUN_AFTER_FINISH" Flag)
   else
     when (Js.is_false (runAfterFinish opts))
       (setDefine defs "HIDE_RUN_AFTER_FINISH" Flag) ;;
     when (Js.not_false (allowElevation opts))
       (setDefine defs "MULTIUSER_INSTALLMODE_ALLOW_ELEVATION" Flag)) ;;
  when (Js.is_true (perMachine opts))
    (setDefine defs "INSTALL_MODE_PER_ALL_USERS" Flag) ;;
  when (Js.is_true (selectPerMachineByDefault opts))
    (setDefine defs "INSTALL_MODE_PER_ALL_USERS_DEFAULT" Flag) ;;
  when (negb oneClick || Js.is_true (perMachine opts))
    (setDefine defs "INSTALL_MODE_PER_ALL_USERS_REQUIRED" Flag) ;;
  when (Js.truthy (allowToChangeInstallationDirectory opts))
    (when oneClick
       (throw (InvalidConfigurationError
          "allowToChangeInstallationDirectory makes sense only for assisted installer (please set oneClick to false)")) ;;
     setDefine defs "allowToChangeInstallationDirectory" Flag) ;;
  when (Js.truthy (allowToAddShortcut opts))
    (when oneClick
       (throw (InvalidConfigurationError
          "allowToAddShortcut makes sense only for assisted installer (please set oneClick to false)")) ;;
     setDefine defs "ALLOW_TO_ADD_SHORTCUT" Flag) ;;
  when (Js.truthy (removeDefaultUninstallWelcomePage opts))
    (setDefine defs "removeDefaultUninstallWelcomePage" Flag) ;;
  commonOptions <-
    match getEffectiveOptions packager with
    | inl message => throw (InvalidConfigurationError message)
    | inr o => ret o
    end ;;
  use (menuCategory commonOptions) (fun category =>
    setDefine defs "MENU_FILENAME" (Str category)) ;;
  setDefine defs "SHORTCUT_NAME" (Str (shortcutName commonOptions)) ;;
  when (Js.truthy (deleteAppDataOnUninstall opts))
    (setDefine defs "DELETE_APP_DATA_ON_UNINSTALL" Flag) ;;
  setDefine defs "UNINSTALL_DISPLAY_NAME"
    (Str (expandMacro packager
            (orElse (uninstallDisplayName opts)
                    "${productName} ${version}"))) ;;
  when (match isCreateDesktopShortcut commonOptions with
        | NEVER => true | _ => false end)
    (setDefine defs "DO_NOT_CREATE_DESKTOP_SHORTCUT" Flag) ;;
  when (match isCreateDesktopShortcut commonOptions with
        | ALWAYS => true | _ => false end)
    (setDefine defs "RECREATE_DESKTOP_SHORTCUT" Flag) ;;
  when (negb (isCreateStartMenuShortcut commonOptions))
    (setDefine defs "DO_NOT_CREATE_START_MENU_SHORTCUT" Flag) ;;
  when (Js.is_true (displayLanguageSelector opts))
    (setDefine defs "DISPLAY_LANG_SELECTOR" Flag) ;;
  (* asyncTaskManager.awaitTasks() *)
  forEach (asyncTasks oneClick defs) (fun task => task).

(** [fs.open(outFile, "r+", ...)], closed again when it succeeds. *)
Definition fsOpen (outFile : string) : M OpenResult :=
  emit (FsOpen outFile) ;;
  n <- gets opens ;;
  modify (fun s => set_opens (S n) s) ;;
  ret (openOutFile packager n).

(** [isBusy(wasBusyBefore)] of [ensureNotBusy]: despite its name it
    resolves to [true] once the file is not busy. [patience] bounds the
    delays that are waited for; the code itself has no bound. *)
Fixpoint isBusy (patience : nat) (outFile : string) (wasBusyBefore : bool)
    : M bool :=
  r <- fsOpen outFile ;;
  match r with
  | OpenEBUSY =>
      when (negb wasBusyBefore)
        (emit (LogInfo
           "output file is locked for writing (maybe by virus scanner) => waiting for unlock...")) ;;
      match patience with
      | O => pending
      | S patience' =>
          emit (SetTimeout 2000) ;;
          isBusy patience' outFile true
      end
  | OpenError _ => ret true
  | Opened => ret true
  end.

(** [ensureNotBusy(outFile)] *)
Definition ensureNotBusy (outFile : string) : M unit :=
  isBusy patience outFile false ;; ret tt.

Definition defineArg (d : string * DefineValue) : string :=
  match d with
  | (name, Flag) => "-D" ++ name
  | (name, Str value) => "-D" ++ name ++ "=" ++ value
  | (name, Num value) => "-D" ++ name ++ "=" ++ Str.ofZ value
  end.

Definition commandArgs (c : string * CommandValue) : list string :=
  match c with
  | (name, Many values) =>
      map (fun v => "-X" ++ name ++ " " ++ v) values
  | (name, Scalar value) => ["-X" ++ name ++ " " ++ value]
  end.

(** The arguments of the compiler: the defines, then the commands. *)
Definition makensisArgs (d : Defines) (c : Commands) : list string :=
  ((if Js.is_false (warningsAsErrors opts) then [] else ["-WX"])
   ++ ["-INPUTCHARSET"; "UTF8"]
   ++ map defineArg d
   ++ flat_map commandArgs c
   ++ ["-"])%list.

(** [executeMakensis(defines, commands, script)] *)
Definition executeMakensis (defs : DefinesRef) (cmds : CommandsRef)
    (script : string) : M unit :=
  d <- gets (definesOf defs) ;;
  c <- gets (commandsOf cmds) ;;
  let args := makensisArgs d c in
  match Commands.get "OutFile" c with
  | Some (Scalar outFile) =>
      (* fix for an issue caused by virus scanners, locking the file during
         write *)
      let outFile := Str.replaceAll "034"%char EmptyString outFile in
      ensureNotBusy outFile ;;
      (* spawnAndWrite(command, args, script, ...) *)
      emit (SpawnMakensis args script) ;;
      if makensis packager args
      then writeFile outFile
      else throw (ExecError "makensis")
  | _ => throw (ExecError "TypeError")
  end.

(** [packager.sign(file)] *)
Definition signFile (file : string) : M unit :=
  emit (Sign file) ;;
  if sign packager file then ret tt else throw (ExecError "sign").

(** The wait for the uninstaller after [vm.exec]:
    [while (!(await exists(uninstallerPath)) && i++ < 100) { delay 300 }] *)
Fixpoint waitForUninstaller (left : nat) (i : nat) (uninstallerPath : string)
    : M unit :=
  present <- gets (fileExists uninstallerPath) ;;
  appeared <-
    (if negb present && vmUninstallerExists packager i
     then writeFile uninstallerPath ;; ret true
     else ret present) ;;
  if appeared then ret tt
  else match left with
       | O => ret tt
       | S left' =>
           emit (SetTimeout 300) ;;
           waitForUninstaller left' (S i) uninstallerPath
       end.

(** [computeScriptAndSignUninstaller(defines, commands, installerPath,
    sharedHeader, archs)]. Running the stub that the compiler made writes
    the uninstaller to [uninstallerPath]. *)
Definition computeScriptAndSignUninstaller (defs : DefinesRef)
    (cmds : CommandsRef) (installerPath sharedHeader : string)
    (archs : ArchMap) : M string :=
  let customScriptPath :=
    getResource packager (script opts) "installer.nsi" in
  let script :=
    readFile packager
      (orElse customScriptPath
         (Str.join (nsisTemplatesDir packager) "installer.nsi")) in
  match customScriptPath with
  | Some _ =>
      emit (LogInfo "uninstaller is not signed by electron-builder") ;;
      ret script
  | None =>
      let uninstallerPath :=
        Str.join (outDir target)
          (Str.basename installerPath "exe" ++ "__uninstaller.exe") in
      setDefine defs "BUILD_UNINSTALLER" Flag ;;
      setDefine defs "UNINSTALLER_OUT_FILE"
        (Str (if isWin packager then uninstallerPath
              else "Z:" ++ Str.replaceAll "/" "\" uninstallerPath)) ;;
      executeMakensis defs cmds
        (sharedHeader ++ computeFinalScript packager script false archs) ;;
      (if isMacOsCatalina packager then
         tryCatch
           (emit (UninstallerReaderExec installerPath uninstallerPath) ;;
            if uninstallerReaderExec packager installerPath uninstallerPath
            then writeFile uninstallerPath
            else throw (ExecError "UninstallerReader"))
           (fun error =>
              emit (LogWarn "packager.vm is used") ;;
              emit (VmExec installerPath) ;;
              (if vmExec packager installerPath then ret tt
               else throw (ExecError "vm.exec")) ;;
              waitForUninstaller 100 0 uninstallerPath)
       else
         emit (ExecWine installerPath) ;;
         if execWine packager installerPath
         then writeFile uninstallerPath
         else throw (ExecError "wine")) ;;
      signFile uninstallerPath ;;
      deleteDefine defs "BUILD_UNINSTALLER" ;;
      setDefine defs "UNINSTALLER_OUT_FILE" (Str uninstallerPath) ;;
      ret script
  end.

Definition archDefineKey (arch : Arch) : string :=
  match arch with
  | x64 => "APP_64"
  | arm64 => "APP_ARM64"
  | _ => "APP_32"
  end.

(** The body of the per-architecture task of [buildInstaller]: pack the
    application, publish its defines and add the size that the listing of
    the archive reports. *)
Definition packArchTask (arch : Arch) : M unit :=
  emit (PackArch arch) ;;
  match packArch packager arch with
  | None => throw (ExecError "packArch")
  | Some fileInfo =>
      let file := pf_path fileInfo in
      let defineKey := archDefineKey arch in
      setDefine TheDefines defineKey (Str file) ;;
      setDefine TheDefines (defineKey ++ "_NAME")
        (Str (Str.basename file EmptyString)) ;;
      (* nsis expect a hexadecimal string *)
      setDefine TheDefines (defineKey ++ "_HASH")
        (Str (defineHash (pf_sha512 fileInfo))) ;;
      (* NSIS accepts size in KiloBytes and supports only whole numbers *)
      setDefine TheDefines (defineKey ++ "_UNPACKED_SIZE")
        (Str (Str.ofZ (ceilDiv1024 (pf_unpackedSize fileInfo)))) ;;
      when (isWebInstaller target)
        (emit (ArtifactBuildCompleted file (Some arch) None) ;;
         modify (fun s =>
           set_packageFiles
             (packageFiles s ++ [(Arch_name arch, fileInfo)])%list s)) ;;
      emit (Exec7za file) ;;
      match exec7zaList packager file with
      | None => throw (ExecError "7za")
      | Some output =>
          let archiveInfo := Listing.trim output in
          match Listing.exec archiveInfo with
          | None => emit (LogWarn "cannot compute size of app package")
          | Some group1 =>
              modify (fun s =>
                set_estimatedSize
                  (estimatedSize s + Listing.parseInt group1)%Z s)
          end
      end
  end.

Definition appDirKey (arch : Arch) : string :=
  match arch with
  | x64 => "APP_DIR_64"
  | arm64 => "APP_DIR_ARM64"
  | _ => "APP_DIR_32"
  end.

(** [buildInstaller(archs)]: the symbol table is computed and the task
    that compiles the installer is added to the build queue. *)
Definition buildInstaller (archs : ArchMap) : M unit :=
  let primaryArch :=
    match archs with [(arch, _)] => Some arch | _ => None end in
  let installerFilename := expandArtifactNamePattern packager primaryArch in
  let oneClick := Js.not_false (oneClick opts) in
  let installerPath := Str.join (outDir target) installerFilename in
  let isPerMachine := Js.is_true (perMachine opts) in
  emit (ArtifactBuildStarted installerPath primaryArch) ;;
  let guid := orElse (guid opts) (uuidV5 packager) in
  let uninstallAppKey := Str.replaceAll "\" " - " guid in
  modify (set_defines
    [ ("APP_ID", Str (app_id info));
      ("APP_GUID", Str guid);
      ("UNINSTALL_APP_KEY", Str uninstallAppKey);
      ("PRODUCT_NAME", Str (productName info));
      ("PRODUCT_FILENAME", Str (productFilename info));
      ("APP_FILENAME",
        Str (getWindowsInstallationDirName packager
               (negb oneClick || isPerMachine)));
      ("APP_DESCRIPTION", Str (description info));
      ("VERSION", Str (version info));
      ("PROJECT_DIR", Str (projectDir packager));
      ("BUILD_RESOURCES_DIR", Str (buildResourcesDir packager));
      ("APP_PACKAGE_NAME",
        Str (getWindowsInstallationAppPackageName packager)) ]) ;;
  when (Js.truthy (debugLogging opts))
    (setDefine TheDefines "ENABLE_LOGGING_ELECTRON_BUILDER" Flag) ;;
  when (negb (String.eqb uninstallAppKey guid))
    (setDefine TheDefines "UNINSTALL_REGISTRY_KEY_2"
       (Str ("Software\Microsoft\Windows\CurrentVersion\Uninstall\"
             ++ guid))) ;;
  use (Js.or_str (uninstallUrlHelp opts) (homepage packager))
    (fun it => setDefine TheDefines "UNINSTALL_URL_HELP" (Str it)) ;;
  use (Js.or_str (uninstallUrlInfoAbout opts) (homepage packager))
    (fun it => setDefine TheDefines "UNINSTALL_URL_INFO_ABOUT" (Str it)) ;;
  use (Js.or_str (uninstallUrlUpdateInfo opts) (homepage packager))
    (fun it => setDefine TheDefines "UNINSTALL_URL_UPDATE_INFO" (Str it)) ;;
  use (Js.or_str (uninstallUrlReadme opts) (homepage packager))
    (fun it => setDefine TheDefines "UNINSTALL_URL_README" (Str it)) ;;
  modify (set_commands
    [ ("OutFile", Scalar (Str.dquote ++ installerPath ++ Str.dquote));
      ("VIProductVersion", Scalar (versionInWeirdWindowsForm info));
      ("VIAddVersionKey", Many (computeVersionKey false));
      ("Unicode", Scalar (if isUnicodeEnabled then "true" else "false")) ]) ;;
  let iconPath :=
    Js.or_str
      (if isPortable then None
       else getResource packager (installerIcon opts) "installerIcon.ico")
      (getIconPath packager) in
  use iconPath (fun iconPath =>
    if isPortable
    then setCommand TheCommands "Icon"
           (Scalar (Str.dquote ++ iconPath ++ Str.dquote))
    else setDefine TheDefines "MUI_ICON" (Str iconPath) ;;
         setDefine TheDefines "MUI_UNICON" (Str iconPath)) ;;
  modify (set_packageFiles []) ;;
  modify (set_estimatedSize 0) ;;
  (if isPortable && Js.truthy (useZip opts) then
     forEach archs (fun '(arch, dir) =>
       setDefine TheDefines (appDirKey arch) (Str dir))
   else if USE_NSIS_BUILT_IN_COMPRESSOR && (length archs =? 1)%nat then
     use (hd_error archs) (fun '(_, dir) =>
       setDefine TheDefines "APP_BUILD_DIR" (Str dir))
   else
     forEach (ArchMap.keys archs) packArchTask) ;;
  configureDefinesForAllTypeOfInstaller TheDefines ;;
  (if isPortable then
     setDefine TheDefines "REQUEST_EXECUTION_LEVEL"
       (Str (orElse (requestExecutionLevel opts) "user")) ;;
     (* https://github.com/electron-userland/electron-builder/issues/5764 *)
     match unpackDirName opts with
     | UdnStr (String c n) =>
         setDefine TheDefines "UNPACK_DIR_NAME" (Str (String c n))
     | UdnStr EmptyString | UdnUnset | UdnBool false =>
         setDefine TheDefines "UNPACK_DIR_NAME" (Str (ksuid packager))
     | UdnBool true => ret tt
     end ;;
     use (splashImage opts) (fun splashImage =>
       setDefine TheDefines "SPLASH_IMAGE"
         (Str (pathResolve packager (projectDir packager) splashImage)))
   else
     configureDefines oneClick TheDefines) ;;
  size <- gets estimatedSize ;;
  when (negb (size =? 0)%Z)
    (* in kb *)
    (setDefine TheDefines "ESTIMATED_SIZE" (Num (roundDiv1024 size))) ;;
  (if String.eqb (compression packager) "store" then
     setCommand TheCommands "SetCompress" (Scalar "off")
   else
     setCommand TheCommands "SetCompressor" (Scalar "zlib") ;;
     when (negb (isWebInstaller target))
       (setDefine TheDefines "COMPRESS" (Str "auto"))) ;;
  match effectiveOptionComputed packager with
  | Some true => ret tt
  | _ =>
      (* short-version variants of defines and commands *)
      d <- gets defines ;;
      c <- gets commands ;;
      modify (set_definesUninstaller d) ;;
      modify (set_commandsUninstaller c) ;;
      use (shortVersion info) (fun shortVersion =>
        setDefine TheDefinesUninstaller "VERSION" (Str shortVersion) ;;
        setCommand TheCommandsUninstaller "VIProductVersion"
          (Scalar (shortVersionWindows info)) ;;
        setCommand TheCommandsUninstaller "VIAddVersionKey"
          (Many (computeVersionKey true))) ;;
      (* this.buildQueueManager.add(async () => ...) *)
      s <- gets (fun s => s) ;;
      modify (fun s' =>
        set_buildQueue
          (buildQueue s' ++
           [ {| t_defines := defines s;
                t_commands := commands s;
                t_definesUninstaller := definesUninstaller s;
                t_commandsUninstaller := commandsUninstaller s;
                t_installerPath := installerPath;
                t_archs := archs;
                t_primaryArch := primaryArch;
                t_packageFiles := packageFiles s;
                t_oneClick := oneClick;
                t_isPerMachine := isPerMachine |} ])%list s')
  end.

(** The update information of a finished installer, as the differential
    update collaborators give it. *)
Definition baseUpdateInfo (t : Task) : option UpdateInfo :=
  if isWebInstaller target then
    createNsisWebDifferentialUpdateInfo packager (t_installerPath t)
      (t_packageFiles t)
  else if isBuildDifferentialAware then
    createBlockmap packager (t_installerPath t)
  else None.

(** The update information that is published: with
    [isAdminRightsRequired] when
    [updateInfo != null && isPerMachine && (oneClick || options.packElevateHelper)]. *)
Definition computeUpdateInfo (t : Task) : option UpdateInfo :=
  match baseUpdateInfo t with
  | Some info =>
      if t_isPerMachine t
         && (t_oneClick t || Js.truthy (packElevateHelper opts))
      then
        (* updateInfo.isAdminRightsRequired = true *)
        Some {| ui_packages := ui_packages info;
                isAdminRightsRequired := Some true |}
      else Some info
  | None => None
  end.

(** The task that [buildInstaller] added to the queue, on the tables that
    it captured. *)
Definition runTask (t : Task) : M unit :=
  modify (set_defines (t_defines t)) ;;
  modify (set_commands (t_commands t)) ;;
  modify (set_definesUninstaller (t_definesUninstaller t)) ;;
  modify (set_commandsUninstaller (t_commandsUninstaller t)) ;;
  let installerPath := t_installerPath t in
  let sharedHeader := sharedHeader packager in
  script <-
    (if isPortable
     then ret (readFile packager
                 (Str.join (nsisTemplatesDir packager) "portable.nsi"))
     else computeScriptAndSignUninstaller TheDefinesUninstaller
            TheCommandsUninstaller installerPath sharedHeader (t_archs t)) ;;
  (* copy outfile name into main options; an absent property is copied
     as [undefined], which the compiler arguments treat like [null] *)
  outFile <- getDefine TheDefinesUninstaller "UNINSTALLER_OUT_FILE" ;;
  setDefine TheDefines "UNINSTALLER_OUT_FILE"
    (match outFile with Some v => v | None => Flag end) ;;
  executeMakensis TheDefines TheCommands
    (sharedHeader
     ++ computeFinalScript packager script true (t_archs t)) ;;
  uninstallerOutFile <- getDefine TheDefines "UNINSTALLER_OUT_FILE" ;;
  both (signFile installerPath)
       (match uninstallerOutFile with
        | Some (Str file) => unlink file
        | Some (Num file) => unlink (Str.ofZ file)
        | Some Flag | None => ret tt
        end) ;;
  emit (ArtifactBuildCompleted installerPath (t_primaryArch t)
          (computeUpdateInfo t)).

(** Modelled from the spec: [Target.finishBuild] of the base class is not
    among the sources; it waits for the tasks of the build queue, which
    run one after the other, and reports the first failure. *)
Fixpoint runTasks (tasks : list Task) : M unit :=
  match tasks with
  | [] => ret tt
  | t :: tasks' => both (runTask t) (runTasks tasks')
  end.

Definition superFinishBuild : M unit :=
  emit TargetFinishBuild ;;
  tasks <- gets buildQueue ;;
  modify (set_buildQueue []) ;;
  runTasks tasks.

(** [packageHelper.finishBuild()] *)
Definition packageHelperFinishBuild : M unit :=
  emit PackageHelperFinishBuild.

(** The set [builds] of [finishBuild]: the registered map and, when the
    pattern names the architecture and more than one is registered, a
    fresh map for each of them. *)
Definition builds (pattern : string) (archs : ArchMap) : list ArchMap :=
  (archs ::
   (if Js.includes pattern "${arch}" && (1 <? ArchMap.size archs)%nat
    then map (fun '(arch, appOutDir) => ArchMap.singleton arch appOutDir)
             archs
    else []))%list.

(** [finishBuild()] *)
Definition finishBuild : M unit :=
  if negb shouldBuildUniversalInstaller then
    superFinishBuild ;;
    packageHelperFinishBuild
  else
    tryFinally
      (let pattern := artifactPattern packager in
       registered <- gets archs ;;
       forEach (builds pattern registered) buildInstaller)
      (superFinishBuild ;;
       packageHelperFinishBuild).

(** [build(appOutDir, arch)] *)
Definition build (appOutDir : string) (arch : Arch) : M unit :=
  modify (fun s => set_archs (ArchMap.set arch appOutDir (archs s)) s) ;;
  if negb shouldBuildUniversalInstaller
  then buildInstaller (ArchMap.singleton arch appOutDir)
  else ret tt.

End NsisTarget.

(* ===================================================================== *)
(** * The installer template: macro [installApplicationFiles] *)
(* ===================================================================== *)

Module Installer.

(** The variables and registers that the macro reads or writes. *)
Record Vars := {
  packageFile : string;
  isPackageFileExplicitlySpecified : string;
  r1 : string;
  r3 : string;
  r4 : string;
  installMode : string
}.

(** The machine on which the installer runs. *)
Record Runtime := {
  (* the command-line parameters, for StdUtils.GetParameter *)
  parameter : string -> option string;
  IsNativeARM64 : bool;
  IsNativeAMD64 : bool;
  RunningX64 : bool;
  EXEDIR : string;
  EXEPATH : string;
  LOCALAPPDATA : string;
  FileExists : string -> bool;
  (* StdUtils.HashFile with "SHA2-512" *)
  HashFile : string -> string
}.

(** What the macro does to the machine. *)
Inductive Action :=
| FileR (pattern : string)
| HashFileOf (file : string)
| MessageBoxChecksumMismatch (file expected actual : string)
| DownloadApplicationFiles
| ExtractUsing7za (file : string)
| ExtractEmbeddedAppPackage
| SetShellVarContext (context : string)
| MoveFile (from to : string)
| CopyFile (from to : string)
| FileOname (oname file : string).

(** [${NAME}]: the value of a define; the text is left as it is when the
    symbol is not defined. *)
Definition expand (d : Defines) (name : string) : string :=
  match Defines.get name d with
  | Some (Str v) => v
  | Some (Num z) => Str.ofZ z
  | Some Flag => EmptyString
  | None => "${" ++ name ++ "}"
  end.

(** The [==] of LogicLib compares without regard to case. *)
Definition streq (a b : string) : bool :=
  String.eqb (Js.toUpperCase a) (Js.toUpperCase b).

(** [${StdUtils.GetParameter} $var name default] *)
Definition GetParameter (rt : Runtime) (name default : string) : string :=
  match parameter rt name with
  | Some v => v
  | None => default
  end.

Definition setPackage (file hash : string) (v : Vars) : Vars :=
  {| packageFile := file;
     isPackageFileExplicitlySpecified := isPackageFileExplicitlySpecified v;
     r1 := hash; r3 := r3 v; r4 := r4 v; installMode := installMode v |}.

Section Macro.

(** The defines of the compiler run that built the installer. *)
Variable d : Defines.
Variable rt : Runtime.

(** The macro [downloadApplicationFiles] of [webPackage.nsh], which is
    not among the sources, by its effect on the variables. *)
Variable downloadApplicationFiles : Vars -> Vars.

Let pick (arch : string) (v : Vars) : Vars :=
  setPackage (expand d ("APP_" ++ arch ++ "_NAME"))
             (expand d ("APP_" ++ arch ++ "_HASH")) v.

(** The selection of the payload by architecture, as the [!ifdef]s of
    the build leave it. *)
Definition selectByArchitecture (v : Vars) : Vars :=
  if Defines.has "APP_64_NAME" d then
    if Defines.has "APP_32_NAME" d then
      if Defines.has "APP_ARM64_NAME" d then
        if IsNativeARM64 rt then pick "ARM64" v
        else if IsNativeAMD64 rt then pick "64" v
        else pick "32" v
      else
        if RunningX64 rt then pick "64" v else pick "32" v
    else pick "64" v
  else pick "32" v.

(** From [GetParameter] to the end of the first [${if}]: which file is
    the package file. *)
Definition choosePackageFile (v : Vars) : Vars :=
  let v := {| packageFile := GetParameter rt "package-file" EmptyString;
              isPackageFileExplicitlySpecified :=
                isPackageFileExplicitlySpecified v;
              r1 := r1 v; r3 := r3 v; r4 := r4 v;
              installMode := installMode v |} in
  if streq (packageFile v) EmptyString then
    let v := selectByArchitecture v in
    {| packageFile := EXEDIR rt ++ "/" ++ packageFile v;
       isPackageFileExplicitlySpecified := "false";
       r1 := r1 v; r3 := r3 v; r4 := packageFile v;
       installMode := installMode v |}
  else
    {| packageFile := packageFile v;
       isPackageFileExplicitlySpecified := "true";
       r1 := r1 v; r3 := r3 v; r4 := r4 v;
       installMode := installMode v |}.

(** The label [fun_extract] and what follows it. *)
Definition fun_extract (v : Vars) : list Action :=
  ([ExtractUsing7za (packageFile v)]
   ++ (if streq (installMode v) "all"
       then [SetShellVarContext "current"] else [])
   ++ [MoveFile (packageFile v)
         (LOCALAPPDATA rt ++ "\" ++ expand d "APP_PACKAGE_STORE_FILE")]
   ++ (if streq (installMode v) "all"
       then [SetShellVarContext "all"] else []))%list.

(** The branch of the web installer ([APP_PACKAGE_URL] defined). *)
Definition installWebPackage (v : Vars) : Vars * list Action :=
  let v := choosePackageFile v in
  if FileExists rt (packageFile v) then
    if streq (isPackageFileExplicitlySpecified v) "true" then
      (v, fun_extract v)
    else
      let v3 := {| packageFile := packageFile v;
                   isPackageFileExplicitlySpecified :=
                     isPackageFileExplicitlySpecified v;
                   r1 := r1 v; r3 := HashFile rt (packageFile v);
                   r4 := r4 v; installMode := installMode v |} in
      if streq (r3 v3) (r1 v3) then
        (v3, (HashFileOf (packageFile v) :: fun_extract v3)%list)
      else
        let v' := downloadApplicationFiles v3 in
        (v', ([HashFileOf (packageFile v);
               MessageBoxChecksumMismatch (r4 v3) (r1 v3) (r3 v3);
               DownloadApplicationFiles] ++ fun_extract v')%list)
  else
    let v' := downloadApplicationFiles v in
    (v', (DownloadApplicationFiles :: fun_extract v')%list).

(** [!macro installApplicationFiles] *)
Definition installApplicationFiles (v : Vars) : Vars * list Action :=
  let uninstaller :=
    FileOname (expand d "UNINSTALL_FILENAME")
              (expand d "UNINSTALLER_OUT_FILE") in
  if Defines.has "APP_BUILD_DIR" d then
    (v, [FileR (expand d "APP_BUILD_DIR" ++ "\*.*"); uninstaller])
  else if Defines.has "APP_PACKAGE_URL" d then
    let (v', actions) := installWebPackage v in
    (v', (actions ++ [uninstaller])%list)
  else
    (v, ([ExtractEmbeddedAppPackage]
         ++ (if streq (installMode v) "all"
             then [SetShellVarContext "current"] else [])
         ++ [CopyFile (EXEPATH rt)
               (LOCALAPPDATA rt ++ "\"
                ++ expand d "APP_INSTALLER_STORE_FILE")]
         ++ (if streq (installMode v) "all"
             then [SetShellVarContext "all"] else [])
         ++ [uninstaller])%list).

End Macro.

End Installer.

(* ===================================================================== *)
(** * A sample application *)
(* ===================================================================== *)

Module Sample.

(** No option set: every default applies. *)
Definition noOptions : NsisOptions :=
  {| oneClick := None; perMachine := None;
     selectPerMachineByDefault := None; allowElevation := None;
     allowToAddShortcut := None;
     allowToChangeInstallationDirectory := None;
     removeDefaultUninstallWelcomePage := None; runAfterFinish := None;
     deleteAppDataOnUninstall := None; displayLanguageSelector := None;
     packElevateHelper := None; buildUniversalInstaller := None;
     differentialPackage := None; useZip := None; unicode := None;
     warningsAsErrors := None; debugLogging := None; guid := None;
     language := None; uninstallDisplayName := None;
     uninstallUrlHelp := None; uninstallUrlInfoAbout := None;
     uninstallUrlUpdateInfo := None; uninstallUrlReadme := None;
     installerIcon := None; uninstallerIcon := None;
     installerHeader := None; installerHeaderIcon := None;
     installerSidebar := None; uninstallerSidebar := None; script := None;
     requestExecutionLevel := None; unpackDirName := UdnUnset;
     splashImage := None |}.

Definition withModes (oneClick perMachine : Js.obool) (o : NsisOptions)
    : NsisOptions :=
  {| oneClick := oneClick; perMachine := perMachine;
     selectPerMachineByDefault := selectPerMachineByDefault o;
     allowElevation := allowElevation o;
     allowToAddShortcut := allowToAddShortcut o;
     allowToChangeInstallationDirectory :=
       allowToChangeInstallationDirectory o;
     removeDefaultUninstallWelcomePage :=
       removeDefaultUninstallWelcomePage o;
     runAfterFinish := runAfterFinish o;
     deleteAppDataOnUninstall := deleteAppDataOnUninstall o;
     displayLanguageSelector := displayLanguageSelector o;
     packElevateHelper := packElevateHelper o;
     buildUniversalInstaller := buildUniversalInstaller o;
     differentialPackage := differentialPackage o; useZip := useZip o;
     unicode := unicode o; warningsAsErrors := warningsAsErrors o;
     debugLogging := debugLogging o; guid := guid o;
     language := language o;
     uninstallDisplayName := uninstallDisplayName o;
     uninstallUrlHelp := uninstallUrlHelp o;
     uninstallUrlInfoAbout := uninstallUrlInfoAbout o;
     uninstallUrlUpdateInfo := uninstallUrlUpdateInfo o;
     uninstallUrlReadme := uninstallUrlReadme o;
     installerIcon := installerIcon o;
     uninstallerIcon := uninstallerIcon o;
     installerHeader := installerHeader o;
     installerHeaderIcon := installerHeaderIcon o;
     installerSidebar := installerSidebar o;
     uninstallerSidebar := uninstallerSidebar o; script := script o;
     requestExecutionLevel := requestExecutionLevel o;
     unpackDirName := unpackDirName o; splashImage := splashImage o |}.

(** The assisted-only options, set on top of [o]. *)
Definition withAssisted
    (allowElevation allowToAddShortcut allowToChangeInstallationDirectory
     removeDefaultUninstallWelcomePage packElevateHelper : Js.obool)
    (o : NsisOptions) : NsisOptions :=
  {| oneClick := oneClick o; perMachine := perMachine o;
     selectPerMachineByDefault := selectPerMachineByDefault o;
     allowElevation := allowElevation;
     allowToAddShortcut := allowToAddShortcut;
     allowToChangeInstallationDirectory :=
       allowToChangeInstallationDirectory;
     removeDefaultUninstallWelcomePage :=
       removeDefaultUninstallWelcomePage;
     runAfterFinish := runAfterFinish o;
     deleteAppDataOnUninstall := deleteAppDataOnUninstall o;
     displayLanguageSelector := displayLanguageSelector o;
     packElevateHelper := packElevateHelper;
     buildUniversalInstaller := buildUniversalInstaller o;
     differentialPackage := differentialPackage o; useZip := useZip o;
     unicode := unicode o; warningsAsErrors := warningsAsErrors o;
     debugLogging := debugLogging o; guid := guid o;
     language := language o;
     uninstallDisplayName := uninstallDisplayName o;
     uninstallUrlHelp := uninstallUrlHelp o;
     uninstallUrlInfoAbout := uninstallUrlInfoAbout o;
     uninstallUrlUpdateInfo := uninstallUrlUpdateInfo o;
     uninstallUrlReadme := uninstallUrlReadme o;
     installerIcon := installerIcon o;
     uninstallerIcon := uninstallerIcon o;
     installerHeader := installerHeader o;
     installerHeaderIcon := installerHeaderIcon o;
     installerSidebar := installerSidebar o;
     uninstallerSidebar := uninstallerSidebar o; script := script o;
     requestExecutionLevel := requestExecutionLevel o;
     unpackDirName := unpackDirName o; splashImage := splashImage o |}.

Definition nsis (o : NsisOptions) : Target :=
  {| name := "nsis"; options := o; outDir := "dist";
     isWebInstaller := false |}.

Definition app : AppInfo :=
  {| app_id := "com.example.app"; app_name := "app";
     productName := "App"; productFilename := "App";
     description := "An application"; version := "1.0.0";
     buildVersion := "1.0.0"; copyright := "Copyright";
     companyName := Some "Example"; shortVersion := None;
     shortVersionWindows := "1.0.0.0";
     versionInWeirdWindowsForm := "1.0.0.0";
     updaterCacheDirName := "app-updater" |}.

Definition package (arch : Arch) : PackageFileInfo :=
  {| pf_path := "dist/app-1.0.0-" ++ Arch_name arch ++ ".nsis.7z";
     (* the base64 text of a digest, shortened to three bytes *)
     pf_sha512 := "TWFu";
     pf_unpackedSize := 1025 |}.

(** The last line of a listing by 7za. *)
Definition listingOf (size : string) : string :=
  "2024-01-01 00:00:00        " ++ size ++ "     31457280  212 files, 31 folders".

(** Collaborators that all succeed; the listing of the archive of [arch]
    is [listing arch], the compiler exits as [compiler] says and the
    output file is busy as [busy] says. *)
Definition packagerWith (listing : Arch -> string)
    (compiler : list string -> bool) (busy : nat -> OpenResult)
    : Packager :=
  {| appInfo := app; projectDir := "/project";
     buildResourcesDir := "/project/build";
     homepage := None; legalTrademarks := None; compression := "normal";
     uuidV5 := "1c0f3b6a-0a3e-5a3c-9d5e-6a1f0b8f2c11";
     getWindowsInstallationDirName := fun _ => "App";
     getWindowsInstallationAppPackageName := "app";
     expandArtifactNamePattern := fun primaryArch =>
       match primaryArch with
       | Some a => "App Setup 1.0.0-" ++ Arch_name a ++ ".exe"
       | None => "App Setup 1.0.0.exe"
       end;
     artifactPattern := "${productName} Setup ${version}-${arch}.${ext}";
     getResource := fun _ _ => None;
     getIconPath := None;
     getEffectiveOptions :=
       inr {| menuCategory := None; shortcutName := "App";
              isCreateDesktopShortcut := FRESH_INSTALL;
              isCreateStartMenuShortcut := true |};
     expandMacro := fun _ => "App 1.0.0";
     ksuid := "2Qw4";
     pathResolve := fun a b => a ++ "/" ++ b;
     packArch := fun a => Some (package a);
     exec7zaList := fun file =>
       if Js.includes file "-x64." then Some (listing x64)
       else if Js.includes file "-ia32." then Some (listing ia32)
       else Some (listing arm64);
     effectiveOptionComputed := None;
     nsisTemplatesDir := "/templates/nsis";
     readFile := fun _ => "!include installer.nsh";
     sharedHeader := "!include StdUtils.nsh";
     computeFinalScript := fun script _ _ => script;
     isWin := true; isMacOsCatalina := false;
     makensis := compiler;
     sign := fun _ => true;
     execWine := fun _ => true;
     uninstallerReaderExec := fun _ _ => true;
     vmExec := fun _ => true;
     vmUninstallerExists := fun _ => true;
     openOutFile := busy;
     createNsisWebDifferentialUpdateInfo := fun _ files =>
       Some {| ui_packages := files; isAdminRightsRequired := None |};
     createBlockmap := fun _ =>
       Some {| ui_packages := []; isAdminRightsRequired := None |} |}.

Definition packager : Packager :=
  packagerWith (fun _ => listingOf "104857600") (fun _ => true)
    (fun _ => Opened).

(** Nothing built yet, an empty output directory. *)
Definition start : State :=
  {| defines := []; commands := []; definesUninstaller := [];
     commandsUninstaller := []; estimatedSize := 0; packageFiles := [];
     archs := []; buildQueue := []; files := []; opens := 0;
     trace := [] |}.

Definition x64Only : ArchMap := [(x64, "dist/win-unpacked")].

Definition x64AndIa32 : ArchMap :=
  [(x64, "dist/win-unpacked"); (ia32, "dist/win-ia32-unpacked")].

(** The listing of the ia32 archive cannot be read. *)
Definition packagerUnreadableIa32 : Packager :=
  packagerWith
    (fun arch =>
       match arch with
       | ia32 => "ERROR: dist/app-1.0.0-ia32.nsis.7z: Can not open the file as archive"
       | _ => listingOf "104857600"
       end)
    (fun _ => true) (fun _ => Opened).

(** The output file is busy for the first [k] attempts to open it. *)
Definition packagerBusyFor (k : nat) : Packager :=
  packagerWith (fun _ => listingOf "104857600") (fun _ => true)
    (fun n => if (n <? k)%nat then OpenEBUSY else Opened).

(** The output file stays busy. *)
Definition packagerAlwaysBusy : Packager :=
  packagerWith (fun _ => listingOf "104857600") (fun _ => true)
    (fun _ => OpenEBUSY).

(** The compiler succeeds on the stub of the uninstaller and fails on the
    installer. *)
Definition packagerFailingInstaller : Packager :=
  packagerWith (fun _ => listingOf "104857600")
    (fun args => existsb (String.eqb "-DBUILD_UNINSTALLER") args)
    (fun _ => Opened).

(** The build of the x64 installer of [o] by [p]: [build], then
    [finishBuild]. *)
Definition buildX64 (o : NsisOptions) (p : Packager) (patience : nat)
    : Res unit * State :=
  (build (nsis o) p "dist/win-unpacked" x64 ;;
   finishBuild (nsis o) p patience) start.

(** One-click by default, per machine. *)
Definition oneClickPerMachine : NsisOptions :=
  withModes None (Some true) noOptions.

(** Assisted and per machine, no elevation helper asked for. *)
Definition assistedPerMachine : NsisOptions :=
  withModes (Some false) (Some true) noOptions.

(** One-click and per user, with the elevation helper packed. *)
Definition perUserWithElevateHelper : NsisOptions :=
  withAssisted None None None None (Some true) noOptions.

(** The state in which the task of the x64 installer runs. *)
Definition prepared : State :=
  snd (buildInstaller (nsis noOptions) packager x64Only start).

(** One-click, per user, with the welcome page of the uninstaller
    removed. *)
Definition oneClickWithoutWelcomePage : NsisOptions :=
  withAssisted None None None (Some true) None
    (withModes (Some true) (Some false) noOptions).

(** One-click by default, with the shortcut choice of the assisted
    installer. *)
Definition oneClickWithShortcutChoice : NsisOptions :=
  withAssisted None (Some true) None None None noOptions.

(** One-click by default, with the elevation of the assisted installer
    allowed. *)
Definition oneClickWithElevation : NsisOptions :=
  withAssisted (Some true) None None None None noOptions.

(** A web installer built for x64 and ia32. *)
Definition webDefines : Defines :=
  [ ("APP_PACKAGE_URL", Str "https://example.com/download");
    ("APP_64_NAME", Str "app-1.0.0-x64.nsis.7z");
    ("APP_64_HASH", Str "4D616E");
    ("APP_32_NAME", Str "app-1.0.0-ia32.nsis.7z");
    ("APP_32_HASH", Str "0A0B0C");
    ("APP_PACKAGE_STORE_FILE", Str "app-updater\package.7z");
    ("UNINSTALL_FILENAME", Str "Uninstall App.exe");
    ("UNINSTALLER_OUT_FILE", Str "dist/App Web Setup 1.0.0.__uninstaller.exe") ].

(** A 64-bit machine on which the files of [present] exist, the hash of
    each being [hash]; the installer is run with [packageFileParameter]. *)
Definition machine (packageFileParameter : option string)
    (present : list string) (hash : string) : Installer.Runtime :=
  {| Installer.parameter := fun name =>
       if String.eqb name "package-file" then packageFileParameter else None;
     Installer.IsNativeARM64 := false;
     Installer.IsNativeAMD64 := true;
     Installer.RunningX64 := true;
     Installer.EXEDIR := "C:/Downloads";
     Installer.EXEPATH := "C:/Downloads/App Web Setup 1.0.0.exe";
     Installer.LOCALAPPDATA := "C:/Users/u/AppData/Local";
     Installer.FileExists := fun f => existsb (String.eqb f) present;
     Installer.HashFile := fun _ => hash |}.

(** The download leaves the package in the plugins directory. *)
Definition download (v : Installer.Vars) : Installer.Vars :=
  {| Installer.packageFile := "$PLUGINSDIR/package.7z";
     Installer.isPackageFileExplicitlySpecified :=
       Installer.isPackageFileExplicitlySpecified v;
     Installer.r1 := Installer.r1 v; Installer.r3 := Installer.r3 v;
     Installer.r4 := Installer.r4 v;
     Installer.installMode := Installer.installMode v |}.

(** The variables when the macro starts. *)
Definition fresh : Installer.Vars :=
  {| Installer.packageFile := EmptyString;
     Installer.isPackageFileExplicitlySpecified := EmptyString;
     Installer.r1 := EmptyString; Installer.r3 := EmptyString;
     Installer.r4 := EmptyString; Installer.installMode := "CurrentUser" |}.

End Sample.

(* ===================================================================== *)
(** * Judgements on computations *)
(* ===================================================================== *)

(** [m] keeps [P], however it ends. *)
Definition preserves {A} (P : State -> Prop) (m : M A) : Prop :=
  forall s, P s -> P (snd (m s)).

(** From [P], a return of [m] satisfies [Q]. *)
Definition hoareOk {A} (P : State -> Prop) (m : M A)
    (Q : A -> State -> Prop) : Prop :=
  forall s a s', P s -> m s = (Ok a, s') -> Q a s'.

(** From [I], [m] does not return, and keeps [I]. *)
Definition fails {A} (I : State -> Prop) (m : M A) : Prop :=
  forall s, I s -> (forall a, fst (m s) <> Ok a) /\ I (snd (m s)).

(** [m] returns from every state. *)
Definition succeeds {A} (m : M A) : Prop :=
  forall s, exists a, fst (m s) = Ok a.

(** The compiler runs of a trace. *)
Definition isSpawn (e : Event) : bool :=
  match e with SpawnMakensis _ _ => true | _ => false end.

Definition spawns (t : list Event) : list Event := filter isSpawn t.

(** The back-off delays of [ensureNotBusy] in a trace. *)
Definition isBackoff (e : Event) : bool :=
  match e with SetTimeout 2000 => true | _ => false end.

Definition backoffs (t : list Event) : nat := length (filter isBackoff t).

(** The define [K] of the table [defines] is [v] ([None]: absent). *)
Definition defineIs (K : string) (v : option DefineValue) (s : State) : Prop :=
  Defines.get K (defines s) = v.

(** The defines that only an assisted installer is meant to have. *)
Definition ALLOW_ELEVATION : string := "MULTIUSER_INSTALLMODE_ALLOW_ELEVATION".

Definition ALLOW_TO_ADD_SHORTCUT : string := "ALLOW_TO_ADD_SHORTCUT".

Definition REMOVE_WELCOME_PAGE : string := "removeDefaultUninstallWelcomePage".

(** The define of the estimated size. *)
Definition ESTIMATED_SIZE : string := "ESTIMATED_SIZE".

(** No task is added to the build queue and no compiler is started. *)
Definition quiet (queue : list Task) (started : list Event) (s : State)
    : Prop :=
  buildQueue s = queue /\ spawns (trace s) = started.

(** The message of the error for an assisted-only option in one-click
    mode. *)
Definition assistedOnlyMessage (option : string) : string :=
  option ++ " makes sense only for assisted installer (please set oneClick to false)".

(** The accumulator [estimatedSize] of [buildInstaller] is [z]. *)
Definition sizeIs (z : Z) (s : State) : Prop := estimatedSize s = z.

(** What the archive of [arch] adds to [estimatedSize]: the size that its
    listing reports, nothing when the listing cannot be read. *)
Definition reportedSizeOf (packager : Packager) (arch : Arch) : Z :=
  match packArch packager arch with
  | Some fileInfo =>
      match exec7zaList packager (pf_path fileInfo) with
      | Some output =>
          match Listing.reportedSize (Listing.trim output) with
          | Some size => size
          | None => 0
          end
      | None => 0
      end
  | None => 0
  end.

(** The sum of these over the architectures of a build; a portable build
    with [useZip] packs no archive. *)
Definition totalReportedSize (target : Target) (packager : Packager)
    (archs : ArchMap) : Z :=
  if isPortable target && Js.truthy (useZip (options target)) then 0%Z
  else fold_right (fun arch total => (reportedSizeOf packager arch + total)%Z)
         0%Z (ArchMap.keys archs).

(** A property of the build queue. *)
Definition onQueue (P : list Task -> Prop) (s : State) : Prop :=
  P (buildQueue s).

(** The task carries the modes of the target's options. *)
Definition taskOf (target : Target) (t : Task) : Prop :=
  t_oneClick t = Js.not_false (oneClick (options target))
  /\ t_isPerMachine t = Js.is_true (perMachine (options target)).

(** The update information that [info] becomes when the updater is told
    that it needs admin rights. *)
Definition withAdminRights (info : UpdateInfo) : UpdateInfo :=
  {| ui_packages := ui_packages info; isAdminRightsRequired := Some true |}.

(** The finished artifacts that a trace publishes. *)
Definition isPublished (e : Event) : bool :=
  match e with ArtifactBuildCompleted _ _ _ => true | _ => false end.

Definition published (t : list Event) : list Event := filter isPublished t.

(** The installer builds that a trace announces. *)
Definition isStarted (e : Event) : bool :=
  match e with ArtifactBuildStarted _ _ => true | _ => false end.

Definition started (t : list Event) : list Event := filter isStarted t.

(* ===================================================================== *)
(** * Further parts of the target and of the template *)
(* ===================================================================== *)

(** A [string | Array<string>] option value. *)
Inductive StringOrArray :=
| OneString (s : string)
| StringArray (l : list string).

(** [asArray(v)] of [builder-util], on a value that is not [null]. *)
Definition asArray (v : StringOrArray) : list string :=
  match v with
  | OneString s => [s]
  | StringArray l => l
  end.

(** [it.startsWith(".") ? it : `.${it}`] *)
Definition dotted (it : string) : string :=
  if Js.startsWith "." it then it else "." ++ it.

(** [getPreCompressedFileExtensions()], [value] being
    [options.preCompressedFileExtensions]. *)
Definition getPreCompressedFileExtensions (target : Target)
    (value : option StringOrArray) : option (list string) :=
  let result := if isWebInstaller target then None else value in
  match result with
  | None => None
  | Some v => Some (map dotted (asArray v))
  end.

(** The [format] of [buildAppPackage]. *)
Definition archiveFormat (target : Target) : string :=
  if negb (isBuildDifferentialAware target)
     && Js.truthy (useZip (options target))
  then "zip" else "7z".

(** The [archiveFile] of [buildAppPackage], [sanitizedName] being
    [packager.appInfo.sanitizedName]. *)
Definition archiveFile (target : Target) (packager : Packager)
    (sanitizedName : string) (arch : Arch) : string :=
  Str.join (outDir target)
    (sanitizedName ++ "-" ++ version (appInfo packager) ++ "-"
     ++ Arch_name arch ++ ".nsis." ++ archiveFormat target).

(** The [excluded] patterns of the [archiveOptions] of [buildAppPackage];
    [None] is [null]. *)
Definition archiveExcluded (target : Target) (value : option StringOrArray)
    : option (list string) :=
  match getPreCompressedFileExtensions target value with
  | None => None
  | Some extensions => Some (map (fun it => "*" ++ it) extensions)
  end.

(** The message that [isBusy] logs when it first finds the file busy. *)
Definition lockedMessage : string :=
  "output file is locked for writing (maybe by virus scanner) => waiting for unlock...".

(** [k] rounds of waiting and probing again. *)
Fixpoint retries (outFile : string) (k : nat) : list Event :=
  match k with
  | O => []
  | S k' => SetTimeout 2000 :: FsOpen outFile :: retries outFile k'
  end.

(** What [ensureNotBusy] does on a file that is busy [k] times: the first
    probe, the message if it was busy, and the retries. *)
Definition waitEvents (outFile : string) (k : nat) : list Event :=
  FsOpen outFile
  :: match k with
     | O => []
     | S _ => LogInfo lockedMessage :: retries outFile k
     end.

(** The delays of the wait for the uninstaller in a trace. *)
Definition isPoll (e : Event) : bool :=
  match e with SetTimeout 300 => true | _ => false end.

Definition polls (t : list Event) : nat := length (filter isPoll t).

(** An upper-case hexadecimal digit. *)
Definition isUpperHex (c : ascii) : bool :=
  let n := N_of_ascii c in
  (((48 <=? n) && (n <=? 57)) || ((65 <=? n) && (n <=? 70)))%N.

(** The characters of a string satisfy [p]. *)
Fixpoint allChars (p : ascii -> bool) (s : string) : bool :=
  match s with
  | EmptyString => true
  | String c s' => p c && allChars p s'
  end.



(* ===================================================================== *)
(** * The installer template: shortcuts *)
(* ===================================================================== *)

Module Shortcuts.

(** The variables that the shortcut macros read. *)
Record Vars := {
  keepShortcuts : string;
  oldMenuDirectory : string;
  oldStartMenuLink : string;
  newStartMenuLink : string;
  oldDesktopLink : string;
  newDesktopLink : string;
  appExe : string;
  USER_STARTMENU_SHORTCUT_CHOICE : string;
  USER_DESKTOP_SHORTCUT_CHOICE : string
}.

(** The machine on which the installer runs. *)
Record Runtime := {
  SMPROGRAMS : string;
  FileExists : string -> bool;
  (* the test [${isNoDesktopShortcut}] *)
  isNoDesktopShortcut : bool
}.

(** What the macros do to the machine. *)
Inductive Action :=
| RMDir (dir : string)
| CreateDirectory (dir : string)
| ClearErrors
| CreateShortCut (link target description : string)
| SetLnkAUMI (link appId : string)
| Rename (from to : string)
| UninstShortcut (link : string)
| SHChangeNotify.

(** The [!=] of LogicLib. *)
Definition strne (a b : string) : bool := negb (Installer.streq a b).

Section Macros.

(** The defines of the compiler run that built the installer. *)
Variable d : Defines.
Variable rt : Runtime.

(** [!macro cleanupOldMenuDirectory] *)
Definition cleanupOldMenuDirectory (v : Vars) : list Action :=
  if strne (oldMenuDirectory v) EmptyString then
    if Defines.has "MENU_FILENAME" d then
      if strne (oldMenuDirectory v) (Installer.expand d "MENU_FILENAME")
      then [RMDir (SMPROGRAMS rt ++ "\" ++ oldMenuDirectory v)]
      else []
    else
      [RMDir (SMPROGRAMS rt ++ "\" ++ oldMenuDirectory v)]
  else [].

(** [!macro createMenuDirectory] *)
Definition createMenuDirectory : list Action :=
  if Defines.has "MENU_FILENAME" d then
    [CreateDirectory
       (SMPROGRAMS rt ++ "\" ++ Installer.expand d "MENU_FILENAME");
     ClearErrors]
  else [].

(** [!macro addStartMenuLink keepShortcuts]: the body reads the variable
    [$keepShortcuts], its parameter is not expanded anywhere. *)
Definition addStartMenuLink (parameter : string) (v : Vars) : list Action :=
  if negb (Defines.has "ONE_CLICK" d) then
    if Defines.has "ALLOW_TO_ADD_SHORTCUT" d then
      if Installer.streq (USER_STARTMENU_SHORTCUT_CHOICE v) "1" then
        if Installer.streq (keepShortcuts v) "false" then
          (cleanupOldMenuDirectory v
           ++ createMenuDirectory
           ++ [CreateShortCut (newStartMenuLink v) (appExe v)
                 (Installer.expand d "APP_DESCRIPTION");
               ClearErrors;
               SetLnkAUMI (newStartMenuLink v) (Installer.expand d "APP_ID")])%list
        else if strne (oldStartMenuLink v) (newStartMenuLink v)
                && FileExists rt (oldStartMenuLink v) then
          (createMenuDirectory
           ++ [Rename (oldStartMenuLink v) (newStartMenuLink v);
               UninstShortcut (oldStartMenuLink v);
               SetLnkAUMI (newStartMenuLink v) (Installer.expand d "APP_ID")]
           ++ cleanupOldMenuDirectory v)%list
        else []
      else []
    else
      if negb (Defines.has "DO_NOT_CREATE_START_MENU_SHORTCUT" d) then
        if Installer.streq (keepShortcuts v) "false" then
          (cleanupOldMenuDirectory v
           ++ createMenuDirectory
           ++ [CreateShortCut (newStartMenuLink v) (appExe v)
                 (Installer.expand d "APP_DESCRIPTION");
               ClearErrors;
               SetLnkAUMI (newStartMenuLink v) (Installer.expand d "APP_ID")])%list
        else if strne (oldStartMenuLink v) (newStartMenuLink v)
                && FileExists rt (oldStartMenuLink v) then
          (createMenuDirectory
           ++ [Rename (oldStartMenuLink v) (newStartMenuLink v);
               UninstShortcut (oldStartMenuLink v);
               SetLnkAUMI (newStartMenuLink v) (Installer.expand d "APP_ID")]
           ++ cleanupOldMenuDirectory v)%list
        else []
      else []
  else
    if negb (Defines.has "DO_NOT_CREATE_START_MENU_SHORTCUT" d) then
      if Installer.streq (keepShortcuts v) "false" then
        (cleanupOldMenuDirectory v
         ++ createMenuDirectory
         ++ [CreateShortCut (newStartMenuLink v) (appExe v)
               (Installer.expand d "APP_DESCRIPTION");
             ClearErrors;
             SetLnkAUMI (newStartMenuLink v) (Installer.expand d "APP_ID")])%list
      else if strne (oldStartMenuLink v) (newStartMenuLink v)
              && FileExists rt (oldStartMenuLink v) then
        (createMenuDirectory
         ++ [Rename (oldStartMenuLink v) (newStartMenuLink v);
             UninstShortcut (oldStartMenuLink v);
             SetLnkAUMI (newStartMenuLink v) (Installer.expand d "APP_ID")]
         ++ cleanupOldMenuDirectory v)%list
      else []
    else [].

(** [!macro addDesktopLink keepShortcuts] *)
Definition addDesktopLink (parameter : string) (v : Vars) : list Action :=
  if negb (Defines.has "ONE_CLICK" d) then
    if Defines.has "ALLOW_TO_ADD_SHORTCUT" d then
      if Installer.streq (USER_DESKTOP_SHORTCUT_CHOICE v) "1" then
        ((if negb (isNoDesktopShortcut rt) then
            if Installer.streq (keepShortcuts v) "false" then
              [CreateShortCut (newDesktopLink v) (appExe v)
                 (Installer.expand d "APP_DESCRIPTION");
               ClearErrors;
               SetLnkAUMI (newDesktopLink v) (Installer.expand d "APP_ID")]
            else if strne (oldDesktopLink v) (newDesktopLink v)
                    && FileExists rt (oldDesktopLink v) then
              [Rename (oldDesktopLink v) (newDesktopLink v);
               UninstShortcut (oldDesktopLink v);
               SetLnkAUMI (newDesktopLink v) (Installer.expand d "APP_ID")]
            else []
          else [])
         ++ [SHChangeNotify])%list
      else []
    else
      if negb (Defines.has "DO_NOT_CREATE_DESKTOP_SHORTCUT" d) then
        ((if negb (isNoDesktopShortcut rt) then
            if Installer.streq (keepShortcuts v) "false" then
              [CreateShortCut (newDesktopLink v) (appExe v)
                 (Installer.expand d "APP_DESCRIPTION");
               ClearErrors;
               SetLnkAUMI (newDesktopLink v) (Installer.expand d "APP_ID")]
            else if strne (oldDesktopLink v) (newDesktopLink v)
                    && FileExists rt (oldDesktopLink v) then
              [Rename (oldDesktopLink v) (newDesktopLink v);
               UninstShortcut (oldDesktopLink v);
               SetLnkAUMI (newDesktopLink v) (Installer.expand d "APP_ID")]
            else []
          else [])
         ++ [SHChangeNotify])%list
      else []
  else
    if negb (Defines.has "DO_NOT_CREATE_DESKTOP_SHORTCUT" d) then
      ((if negb (isNoDesktopShortcut rt) then
          if Installer.streq (keepShortcuts v) "false" then
            [CreateShortCut (newDesktopLink v) (appExe v)
               (Installer.expand d "APP_DESCRIPTION");
             ClearErrors;
             SetLnkAUMI (newDesktopLink v) (Installer.expand d "APP_ID")]
          else if strne (oldDesktopLink v) (newDesktopLink v)
                  && FileExists rt (oldDesktopLink v) then
            [Rename (oldDesktopLink v) (newDesktopLink v);
             UninstShortcut (oldDesktopLink v);
             SetLnkAUMI (newDesktopLink v) (Installer.expand d "APP_ID")]
          else []
        else [])
       ++ [SHChangeNotify])%list
    else [].

(** Whether the installer is to have a shortcut in the start menu, or on
    the desktop: by the policy of the build, or by the choice of the user
    where an assisted installer asks for it. *)
Definition startMenuShortcutWanted (v : Vars) : bool :=
  if Defines.has "ONE_CLICK" d then
    negb (Defines.has "DO_NOT_CREATE_START_MENU_SHORTCUT" d)
  else if Defines.has "ALLOW_TO_ADD_SHORTCUT" d then
    Installer.streq (USER_STARTMENU_SHORTCUT_CHOICE v) "1"
  else negb (Defines.has "DO_NOT_CREATE_START_MENU_SHORTCUT" d).

Definition desktopShortcutWanted (v : Vars) : bool :=
  if Defines.has "ONE_CLICK" d then
    negb (Defines.has "DO_NOT_CREATE_DESKTOP_SHORTCUT" d)
  else if Defines.has "ALLOW_TO_ADD_SHORTCUT" d then
    Installer.streq (USER_DESKTOP_SHORTCUT_CHOICE v) "1"
  else negb (Defines.has "DO_NOT_CREATE_DESKTOP_SHORTCUT" d).

End Macros.

(** The actions on a shortcut or on a menu directory. *)
Definition isCreate (a : Action) : bool :=
  match a with CreateShortCut _ _ _ => true | _ => false end.

Definition isRename (a : Action) : bool :=
  match a with Rename _ _ => true | _ => false end.

Definition isRMDir (a : Action) : bool :=
  match a with RMDir _ => true | _ => false end.

End Shortcuts.

(* ===================================================================== *)
(** * The installer template: the registry *)
(* ===================================================================== *)

Module Registry.

(** The variables that the macro reads. *)
Record Vars := {
  installMode : string;
  INSTDIR : string;
  appExe : string
}.

(** The machine on which the installer runs. *)
Record Runtime := {
  (* [${GetSize} dir "/S=0K"]: the size of the directory, in KiB *)
  GetSize : string -> string;
  (* [IntFmt $0 format number] *)
  IntFmt : string -> string -> string
}.

(** What the macro writes, under [SHELL_CONTEXT]. *)
Inductive Action :=
| WriteRegStr (key name value : string)
| WriteRegDWORD (key name value : string).

Section Macro.

(** The defines of the compiler run that built the installer. *)
Variable d : Defines.
Variable rt : Runtime.

Let expand := Installer.expand d.

(** [!ifdef NAME] ... [!endif] around one write. *)
Definition ifdef (name : string) (actions : list Action) : list Action :=
  if Defines.has name d then actions else [].

(** [!macro registryAddInstallInfo] *)
Definition registryAddInstallInfo (v : Vars) : list Action :=
  let install := expand "INSTALL_REGISTRY_KEY" in
  let uninstall := expand "UNINSTALL_REGISTRY_KEY" in
  let r0 := if Installer.streq (installMode v) "all"
            then "/allusers" else "/currentuser" in
  let r1 := EmptyString in
  (* https://github.com/electron-userland/electron-builder/issues/750 *)
  let r2 := INSTDIR v ++ "\" ++ expand "UNINSTALL_FILENAME" in
  ([ WriteRegStr install "InstallLocation" (INSTDIR v);
     WriteRegStr install "KeepShortcuts" "true";
     WriteRegStr install "ShortcutName" (expand "SHORTCUT_NAME") ]
   ++ ifdef "MENU_FILENAME"
        [WriteRegStr install "MenuDirectory" (expand "MENU_FILENAME")]
   ++ [ WriteRegStr uninstall "DisplayName"
          (expand "UNINSTALL_DISPLAY_NAME" ++ r1);
        WriteRegStr uninstall "UninstallString"
          (Str.dquote ++ r2 ++ Str.dquote ++ " " ++ r0);
        WriteRegStr uninstall "QuietUninstallString"
          (Str.dquote ++ r2 ++ Str.dquote ++ " " ++ r0 ++ " /S");
        WriteRegStr uninstall "DisplayVersion" (expand "VERSION");
        (if Defines.has "UNINSTALLER_ICON" d
         then WriteRegStr uninstall "DisplayIcon"
                (INSTDIR v ++ "\uninstallerIcon.ico")
         else WriteRegStr uninstall "DisplayIcon" (appExe v ++ ",0")) ]
   ++ ifdef "COMPANY_NAME"
        [WriteRegStr uninstall "Publisher" (expand "COMPANY_NAME")]
   ++ ifdef "APP_DESCRIPTION"
        [WriteRegStr uninstall "Comments" (expand "APP_DESCRIPTION")]
   ++ ifdef "UNINSTALL_URL_HELP"
        [WriteRegStr uninstall "HelpLink" (expand "UNINSTALL_URL_HELP")]
   ++ ifdef "UNINSTALL_URL_INFO_ABOUT"
        [WriteRegStr uninstall "URLInfoAbout"
           (expand "UNINSTALL_URL_INFO_ABOUT")]
   ++ ifdef "UNINSTALL_URL_UPDATE_INFO"
        [WriteRegStr uninstall "URLUpdateInfo"
           (expand "UNINSTALL_URL_UPDATE_INFO")]
   ++ ifdef "UNINSTALL_URL_README"
        [WriteRegStr uninstall "Readme" (expand "UNINSTALL_URL_README")]
   ++ [ WriteRegDWORD uninstall "NoModify" "1";
        WriteRegDWORD uninstall "NoRepair" "1";
        (* allow user to define ESTIMATED_SIZE to avoid GetSize call *)
        WriteRegDWORD uninstall "EstimatedSize"
          (if Defines.has "ESTIMATED_SIZE" d
           then IntFmt rt "0x%08X" (expand "ESTIMATED_SIZE")
           else IntFmt rt "0x%08X" (GetSize rt (INSTDIR v))) ])%list.

End Macro.

(** The value that a list of writes leaves under the name [name]: the
    last one written (the names of the macro are all different). *)
Fixpoint written (name : string) (actions : list Action) : option string :=
  match actions with
  | [] => None
  | (WriteRegStr _ n value | WriteRegDWORD _ n value) :: rest =>
      match written name rest with
      | Some later => Some later
      | None => if String.eqb n name then Some value else None
      end
  end.

End Registry.

(** [installerFilenamePattern(primaryArch, defaultArch)];
    [getArchSuffix] of [builder-util] is not among the sources. *)
Definition installerFilenamePattern (target : Target)
    (getArchSuffix : Arch -> option string -> string)
    (primaryArch : option Arch) (defaultArch : option string) : string :=
  let setupText := if isPortable target then EmptyString else "Setup " in
  let archSuffix :=
    match primaryArch with
    | Some arch =>
        if negb (shouldBuildUniversalInstaller target)
        then getArchSuffix arch defaultArch
        else EmptyString
    | None => EmptyString
    end in
  "${productName} " ++ setupText ++ "${version}" ++ archSuffix ++ ".${ext}".

(* ===================================================================== *)
(** * Further configurations *)
(* ===================================================================== *)

Module Cases.


(** The options of the portable target, set on top of [o]. *)
Definition withPortable 
    (requestExecutionLevel : option string)
    (unpackDirName : UnpackDirName)
    (splashImage : option string)
    (o : NsisOptions)
    : NsisOptions :=
  {| oneClick := oneClick o; perMachine := perMachine o;
     selectPerMachineByDefault := selectPerMachineByDefault o;
     allowElevation := allowElevation o;
     allowToAddShortcut := allowToAddShortcut o;
     allowToChangeInstallationDirectory := allowToChangeInstallationDirectory o;
     removeDefaultUninstallWelcomePage := removeDefaultUninstallWelcomePage o;
     runAfterFinish := runAfterFinish o;
     deleteAppDataOnUninstall := deleteAppDataOnUninstall o;
     displayLanguageSelector := displayLanguageSelector o;
     packElevateHelper := packElevateHelper o;
     buildUniversalInstaller := buildUniversalInstaller o;
     differentialPackage := differentialPackage o; useZip := useZip o;
     unicode := unicode o; warningsAsErrors := warningsAsErrors o;
     debugLogging := debugLogging o; guid := guid o; language := language o;
     uninstallDisplayName := uninstallDisplayName o;
     uninstallUrlHelp := uninstallUrlHelp o;
     uninstallUrlInfoAbout := uninstallUrlInfoAbout o;
     uninstallUrlUpdateInfo := uninstallUrlUpdateInfo o;
     uninstallUrlReadme := uninstallUrlReadme o;
     installerIcon := installerIcon o; uninstallerIcon := uninstallerIcon o;
     installerHeader := installerHeader o;
     installerHeaderIcon := installerHeaderIcon o;
     installerSidebar := installerSidebar o;
     uninstallerSidebar := uninstallerSidebar o; script := script o;
     requestExecutionLevel := requestExecutionLevel;
     unpackDirName := unpackDirName; splashImage := splashImage |}.

(** The kind of the build, set on top of [o]. *)
Definition withBuilds 
    (buildUniversalInstaller : Js.obool)
    (differentialPackage : Js.obool)
    (useZip : Js.obool)
    (o : NsisOptions)
    : NsisOptions :=
  {| oneClick := oneClick o; perMachine := perMachine o;
     selectPerMachineByDefault := selectPerMachineByDefault o;
     allowElevation := allowElevation o;
     allowToAddShortcut := allowToAddShortcut o;
     allowToChangeInstallationDirectory := allowToChangeInstallationDirectory o;
     removeDefaultUninstallWelcomePage := removeDefaultUninstallWelcomePage o;
     runAfterFinish := runAfterFinish o;
     deleteAppDataOnUninstall := deleteAppDataOnUninstall o;
     displayLanguageSelector := displayLanguageSelector o;
     packElevateHelper := packElevateHelper o;
     buildUniversalInstaller := buildUniversalInstaller;
     differentialPackage := differentialPackage; useZip := useZip;
     unicode := unicode o; warningsAsErrors := warningsAsErrors o;
     debugLogging := debugLogging o; guid := guid o; language := language o;
     uninstallDisplayName := uninstallDisplayName o;
     uninstallUrlHelp := uninstallUrlHelp o;
     uninstallUrlInfoAbout := uninstallUrlInfoAbout o;
     uninstallUrlUpdateInfo := uninstallUrlUpdateInfo o;
     uninstallUrlReadme := uninstallUrlReadme o;
     installerIcon := installerIcon o; uninstallerIcon := uninstallerIcon o;
     installerHeader := installerHeader o;
     installerHeaderIcon := installerHeaderIcon o;
     installerSidebar := installerSidebar o;
     uninstallerSidebar := uninstallerSidebar o; script := script o;
     requestExecutionLevel := requestExecutionLevel o;
     unpackDirName := unpackDirName o; splashImage := splashImage o |}.

(** A script of the project, set on top of [o]. *)
Definition withScript (script : option string) (o : NsisOptions)
    : NsisOptions :=
  {| oneClick := oneClick o; perMachine := perMachine o;
     selectPerMachineByDefault := selectPerMachineByDefault o;
     allowElevation := allowElevation o;
     allowToAddShortcut := allowToAddShortcut o;
     allowToChangeInstallationDirectory := allowToChangeInstallationDirectory o;
     removeDefaultUninstallWelcomePage := removeDefaultUninstallWelcomePage o;
     runAfterFinish := runAfterFinish o;
     deleteAppDataOnUninstall := deleteAppDataOnUninstall o;
     displayLanguageSelector := displayLanguageSelector o;
     packElevateHelper := packElevateHelper o;
     buildUniversalInstaller := buildUniversalInstaller o;
     differentialPackage := differentialPackage o; useZip := useZip o;
     unicode := unicode o; warningsAsErrors := warningsAsErrors o;
     debugLogging := debugLogging o; guid := guid o; language := language o;
     uninstallDisplayName := uninstallDisplayName o;
     uninstallUrlHelp := uninstallUrlHelp o;
     uninstallUrlInfoAbout := uninstallUrlInfoAbout o;
     uninstallUrlUpdateInfo := uninstallUrlUpdateInfo o;
     uninstallUrlReadme := uninstallUrlReadme o;
     installerIcon := installerIcon o; uninstallerIcon := uninstallerIcon o;
     installerHeader := installerHeader o;
     installerHeaderIcon := installerHeaderIcon o;
     installerSidebar := installerSidebar o;
     uninstallerSidebar := uninstallerSidebar o; script := script;
     requestExecutionLevel := requestExecutionLevel o;
     unpackDirName := unpackDirName o; splashImage := splashImage o |}.

(** The portable target. *)
Definition portable (o : NsisOptions) : Target :=
  {| name := "portable"; options := o; outDir := "dist";
     isWebInstaller := false |}.


(** A portable application that unpacks into a directory of its own. *)
Definition portableOptions : NsisOptions :=
  withPortable (Some "admin") (UdnStr "app-portable") None Sample.noOptions.

(** An installer for each architecture. *)
Definition separateInstallers : NsisOptions :=
  withBuilds (Some false) None None Sample.noOptions.

(** An assisted installer without elevation, in which the user chooses
    the directory and the shortcuts. *)
Definition assistedWithChoices : NsisOptions :=
  Sample.withAssisted (Some false) (Some true) (Some true) None None
    (Sample.withModes (Some false) None Sample.noOptions).

(** The project brings its own [installer.nsi]. *)
Definition customScript : NsisOptions :=
  withScript (Some "build/installer.nsi") Sample.noOptions.

(** The virtual machine of [p] in which the uninstaller shows up as
    [vmUninstallerExists] says, on a host as [isWin] and [isMacOsCatalina]
    say. *)
Definition withVm 
    (isWin : bool)
    (isMacOsCatalina : bool)
    (uninstallerReaderExec : string -> string -> bool)
    (vmUninstallerExists : nat -> bool)
    (p : Packager)
    : Packager :=
  {| appInfo := appInfo p; projectDir := projectDir p;
     buildResourcesDir := buildResourcesDir p; homepage := homepage p;
     legalTrademarks := legalTrademarks p; compression := compression p;
     uuidV5 := uuidV5 p;
     getWindowsInstallationDirName := getWindowsInstallationDirName p;
     getWindowsInstallationAppPackageName := getWindowsInstallationAppPackageName p;
     expandArtifactNamePattern := expandArtifactNamePattern p;
     artifactPattern := artifactPattern p; getResource := getResource p;
     getIconPath := getIconPath p;
     getEffectiveOptions := getEffectiveOptions p;
     expandMacro := expandMacro p; ksuid := ksuid p;
     pathResolve := pathResolve p; packArch := packArch p;
     exec7zaList := exec7zaList p;
     effectiveOptionComputed := effectiveOptionComputed p;
     nsisTemplatesDir := nsisTemplatesDir p; readFile := readFile p;
     sharedHeader := sharedHeader p;
     computeFinalScript := computeFinalScript p; isWin := isWin;
     isMacOsCatalina := isMacOsCatalina; makensis := makensis p;
     sign := sign p; execWine := execWine p;
     uninstallerReaderExec := uninstallerReaderExec; vmExec := vmExec p;
     vmUninstallerExists := vmUninstallerExists;
     openOutFile := openOutFile p;
     createNsisWebDifferentialUpdateInfo := createNsisWebDifferentialUpdateInfo p;
     createBlockmap := createBlockmap p |}.

(** The resources of the project, set on top of [p]. *)
Definition withResources 
    (getResource : option string -> string -> option string)
    (p : Packager)
    : Packager :=
  {| appInfo := appInfo p; projectDir := projectDir p;
     buildResourcesDir := buildResourcesDir p; homepage := homepage p;
     legalTrademarks := legalTrademarks p; compression := compression p;
     uuidV5 := uuidV5 p;
     getWindowsInstallationDirName := getWindowsInstallationDirName p;
     getWindowsInstallationAppPackageName := getWindowsInstallationAppPackageName p;
     expandArtifactNamePattern := expandArtifactNamePattern p;
     artifactPattern := artifactPattern p; getResource := getResource;
     getIconPath := getIconPath p;
     getEffectiveOptions := getEffectiveOptions p;
     expandMacro := expandMacro p; ksuid := ksuid p;
     pathResolve := pathResolve p; packArch := packArch p;
     exec7zaList := exec7zaList p;
     effectiveOptionComputed := effectiveOptionComputed p;
     nsisTemplatesDir := nsisTemplatesDir p; readFile := readFile p;
     sharedHeader := sharedHeader p;
     computeFinalScript := computeFinalScript p; isWin := isWin p;
     isMacOsCatalina := isMacOsCatalina p; makensis := makensis p;
     sign := sign p; execWine := execWine p;
     uninstallerReaderExec := uninstallerReaderExec p; vmExec := vmExec p;
     vmUninstallerExists := vmUninstallerExists p;
     openOutFile := openOutFile p;
     createNsisWebDifferentialUpdateInfo := createNsisWebDifferentialUpdateInfo p;
     createBlockmap := createBlockmap p |}.

(** The uninstaller never shows up. *)
Definition packagerWithoutUninstaller : Packager :=
  withVm false true (fun _ _ => false) (fun _ => false) Sample.packager.

(** The resources that the options name are found where they say. *)
Definition packagerWithResources : Packager :=
  withResources (fun custom _ => custom) Sample.packager.

(** The tasks that a build of [target] for [archs] queues. *)
Definition queued (target : Target) (packager : Packager) (archs : ArchMap)
    : list Task :=
  buildQueue (snd (buildInstaller target packager archs Sample.start)).

Definition noTask : Task :=
  {| t_defines := []; t_commands := []; t_definesUninstaller := [];
     t_commandsUninstaller := []; t_installerPath := EmptyString;
     t_archs := []; t_primaryArch := None; t_packageFiles := [];
     t_oneClick := true; t_isPerMachine := false |}.

(** The task of the portable build for x64. *)
Definition portableTask : Task :=
  hd noTask (queued (portable portableOptions) Sample.packager Sample.x64Only).


(** The task of the installer for x64 of a project with its own script. *)
Definition customScriptTask : Task :=
  hd noTask
    (queued (Sample.nsis customScript) packagerWithResources Sample.x64Only).

(** An assisted installer that asks for the shortcuts and puts them into
    the menu directory of the vendor. *)
Definition assistedDefines : Defines :=
  [ ("APP_ID", Str "com.example.app");
    ("APP_DESCRIPTION", Str "An application");
    ("MENU_FILENAME", Str "Vendor");
    ("ALLOW_TO_ADD_SHORTCUT", Flag);
    ("DO_NOT_CREATE_START_MENU_SHORTCUT", Flag);
    ("DO_NOT_CREATE_DESKTOP_SHORTCUT", Flag) ].

(** A one-click installer of a build without shortcuts. *)
Definition oneClickDefines : Defines :=
  [ ("APP_ID", Str "com.example.app");
    ("APP_DESCRIPTION", Str "An application");
    ("ONE_CLICK", Flag);
    ("ALLOW_TO_ADD_SHORTCUT", Flag);
    ("DO_NOT_CREATE_START_MENU_SHORTCUT", Flag);
    ("DO_NOT_CREATE_DESKTOP_SHORTCUT", Flag) ].

(** A machine on which the old shortcuts exist. *)
Definition desktop : Shortcuts.Runtime :=
  {| Shortcuts.SMPROGRAMS := "C:\Start Menu\Programs";
     Shortcuts.FileExists := fun _ => true;
     Shortcuts.isNoDesktopShortcut := false |}.

(** An update from a version that had its shortcuts in another menu
    directory, with the shortcuts kept; the user asks for both. *)
Definition update : Shortcuts.Vars :=
  {| Shortcuts.keepShortcuts := "true";
     Shortcuts.oldMenuDirectory := "Old Vendor";
     Shortcuts.oldStartMenuLink := "C:\Start Menu\Programs\Old Vendor\App.lnk";
     Shortcuts.newStartMenuLink := "C:\Start Menu\Programs\Vendor\App.lnk";
     Shortcuts.oldDesktopLink := "C:\Desktop\Old App.lnk";
     Shortcuts.newDesktopLink := "C:\Desktop\App.lnk";
     Shortcuts.appExe := "C:\Programs\App\App.exe";
     Shortcuts.USER_STARTMENU_SHORTCUT_CHOICE := "1";
     Shortcuts.USER_DESKTOP_SHORTCUT_CHOICE := "1" |}.

(** A machine that measures 2048 KiB in every directory; the format of
    [IntFmt] is left out of the number. *)
Definition registryMachine : Registry.Runtime :=
  {| Registry.GetSize := fun _ => "2048";
     Registry.IntFmt := fun _ number => number |}.

(** An installation for the current user. *)
Definition installed : Registry.Vars :=
  {| Registry.installMode := "CurrentUser";
     Registry.INSTDIR := "C:\Programs\App";
     Registry.appExe := "C:\Programs\App\App.exe" |}.


End Cases.

(** The installer builds that were announced so far. *)
Definition startedAre (l : list Event) (s : State) : Prop :=
  started (trace s) = l.

(** The steps of a task that make or remove a file of the build: a
    compiler run, a signature, an [unlink]. *)
Definition isStep (e : Event) : bool :=
  match e with
  | SpawnMakensis _ _ | Sign _ | Unlink _ => true
  | _ => false
  end.

Definition steps (t : list Event) : list Event := filter isStep t.



(** The command [K] of the table [commands] is [v] ([None]: absent). *)
Definition commandIs (K : string) (v : option CommandValue) (s : State)
    : Prop :=
  Commands.get K (commands s) = v.

(* ===================================================================== *)
(** * Properties *)
(* ===================================================================== *)

Section Encoding.

Import Buffer.

Local Ltac div_lia :=
  Z.to_euclidean_division_equations; lia.

Lemma N_lt_forallb (P : N -> bool) (k : nat) :
  forallb P (map N.of_nat (seq 0 k)) = true ->
  forall n, (n < N.of_nat k)%N -> P n = true.
Proof.
  intros H n Hn. rewrite forallb_forall in H. apply H.
  apply in_map_iff. exists (N.to_nat n). split.
  - apply N2Nat.id.
  - apply in_seq. lia.
Qed.

Lemma unbase64_b64char n : (n < 64)%N -> unbase64 (b64char n) = Some n.
Proof.
  intros Hn.
  apply (N_lt_forallb
           (fun n => match unbase64 (b64char n) with
                     | Some m => N.eqb m n
                     | None => false
                     end) 64) in Hn; [|vm_compute; reflexivity].
  destruct (unbase64 (b64char n)); [|discriminate].
  apply N.eqb_eq in Hn. now subst.
Qed.

Lemma b64char_not_pad n : (n < 64)%N -> Ascii.eqb (b64char n) "=" = false.
Proof.
  intros Hn.
  apply (N_lt_forallb (fun n => negb (Ascii.eqb (b64char n) "=")) 64) in Hn;
    [|vm_compute; reflexivity].
  now apply negb_true_iff in Hn.
Qed.

Lemma byte_of_to_N b : byte_of_N (Byte.to_N b) = b.
Proof.
  unfold byte_of_N. pose proof (Byte.to_N_bounded b).
  rewrite N.mod_small by lia. now rewrite Byte.of_to_N.
Qed.

Lemma byte_of_N_eq n b : (n mod 256 = Byte.to_N b)%N -> byte_of_N n = b.
Proof.
  intros H. unfold byte_of_N. rewrite H. now rewrite Byte.of_to_N.
Qed.

Lemma sextets_char n s :
  (n < 64)%N -> sextets (String (b64char n) s) = n :: sextets s.
Proof.
  intros Hn. cbn [sextets].
  now rewrite b64char_not_pad, unbase64_b64char.
Qed.

(** Induction over a list three elements at a time. *)
Lemma list_ind3 (A : Type) (P : list A -> Prop) :
  P [] -> (forall a, P [a]) -> (forall a b, P [a; b]) ->
  (forall a b c l, P l -> P (a :: b :: c :: l)) ->
  forall l, P l.
Proof.
  intros H0 H1 H2 H3.
  fix IH 1. intros [|a [|b [|c l]]].
  - exact H0.
  - apply H1.
  - apply H2.
  - apply H3, IH.
Qed.

Lemma from_base64_toString bs : from_base64 (toString_base64 bs) = bs.
Proof.
  unfold from_base64.
  induction bs as [|a|a b|a b c l IH] using list_ind3.
  - reflexivity.
  - pose proof (Byte.to_N_bounded a).
    cbn [toString_base64]. unfold cons4.
    rewrite !sextets_char by (try apply N.mod_lt; try apply N.Div0.div_lt_upper_bound; lia).
    cbn [sextets Ascii.eqb Bool.eqb]. cbn [bytes_of_sextets].
    f_equal. apply byte_of_N_eq; zify; div_lia.
  - pose proof (Byte.to_N_bounded a). pose proof (Byte.to_N_bounded b).
    cbn [toString_base64]. unfold cons4.
    rewrite !sextets_char by (try apply N.mod_lt; try apply N.Div0.div_lt_upper_bound; lia).
    cbn [sextets Ascii.eqb Bool.eqb]. cbn [bytes_of_sextets].
    f_equal; [|f_equal]; apply byte_of_N_eq; zify; div_lia.
  - pose proof (Byte.to_N_bounded a). pose proof (Byte.to_N_bounded b).
    pose proof (Byte.to_N_bounded c).
    cbn [toString_base64]. unfold cons4.
    rewrite !sextets_char by (try apply N.mod_lt; try apply N.Div0.div_lt_upper_bound; lia).
    cbn [bytes_of_sextets]. rewrite IH.
    f_equal; [|f_equal; [|f_equal]]; apply byte_of_N_eq; zify; div_lia.
Qed.

Lemma from_hex_upper_toString bs :
  from_hex (Js.toUpperCase (toString_hex bs)) = bs.
Proof.
  induction bs as [|a l IH]; [reflexivity|].
  cbn [toString_hex Js.toUpperCase from_hex]. rewrite IH.
  destruct a; reflexivity.
Qed.

End Encoding.

(** Decoding the hash define and encoding it as base64 again gives the
    base64 text it was computed from. *)
Lemma defineHash_decodes (digest : Buffer.t) :
  Buffer.toString_base64
    (Buffer.from_hex (defineHash (Buffer.toString_base64 digest)))
  = Buffer.toString_base64 digest.
Proof.
  unfold defineHash.
  now rewrite from_base64_toString, from_hex_upper_toString.
Qed.

Section Judgements.

Context {A B : Type}.

Lemma preserves_ret P (a : A) : preserves P (ret a).
Proof. intros s H. exact H. Qed.

Lemma preserves_throw P e : preserves P (@throw A e).
Proof. intros s H. exact H. Qed.

Lemma preserves_pending P : preserves P (@pending A).
Proof. intros s H. exact H. Qed.

Lemma preserves_gets P (f : State -> A) : preserves P (gets f).
Proof. intros s H. exact H. Qed.

Lemma preserves_modify (P : State -> Prop) g :
  (forall s, P s -> P (g s)) -> preserves P (modify g).
Proof. intros H s Hs. apply H, Hs. Qed.

Lemma preserves_bind P (m : M A) (f : A -> M B) :
  preserves P m -> (forall a, preserves P (f a)) -> preserves P (bind m f).
Proof.
  intros Hm Hf s Hs. unfold bind. specialize (Hm s Hs).
  destruct (m s) as [[a| |] s1]; cbn in *; auto. apply Hf, Hm.
Qed.

Lemma preserves_tryCatch P (m : M A) h :
  preserves P m -> (forall e, preserves P (h e)) ->
  preserves P (tryCatch m h).
Proof.
  intros Hm Hh s Hs. unfold tryCatch. specialize (Hm s Hs).
  destruct (m s) as [[a| |] s1]; cbn in *; auto. apply Hh, Hm.
Qed.

Lemma preserves_tryFinally P (m : M A) fin :
  preserves P m -> preserves P fin -> preserves P (tryFinally m fin).
Proof.
  intros Hm Hf s Hs. unfold tryFinally. specialize (Hm s Hs).
  destruct (m s) as [[a| |] s1]; cbn in *; auto;
    specialize (Hf s1 Hm); destruct (fin s1) as [[[]| |] s2]; cbn in *; auto.
Qed.

Lemma hoareOk_bind P (m : M A) (f : A -> M B) R Q :
  hoareOk P m R -> (forall a, hoareOk (R a) (f a) Q) ->
  hoareOk P (bind m f) Q.
Proof.
  intros Hm Hf s b s' Hs. unfold bind.
  destruct (m s) as [[a| |] s1] eqn:E; try discriminate.
  intros H. eapply Hf; [|exact H]. eapply Hm; eauto.
Qed.

Lemma hoareOk_preserves (P : State -> Prop) (m : M A) :
  preserves P m -> hoareOk P m (fun _ => P).
Proof.
  intros Hm s a s' Hs E. specialize (Hm s Hs). now rewrite E in Hm.
Qed.

Lemma hoareOk_throw P e Q : hoareOk P (@throw A e) Q.
Proof. intros s a s' _ E. discriminate. Qed.

Lemma fails_here (I : State -> Prop) (m : M A) (f : A -> M B) :
  fails I m -> fails I (bind m f).
Proof.
  intros Hm s Hs. destruct (Hm s Hs) as [Hn Hi]. unfold bind.
  destruct (m s) as [[a| |] s1]; cbn in *; try (split; [discriminate|auto]).
  now destruct (Hn a).
Qed.

Lemma fails_later (I : State -> Prop) (m : M A) (f : A -> M B) :
  preserves I m -> (forall a, fails I (f a)) -> fails I (bind m f).
Proof.
  intros Hm Hf s Hs. specialize (Hm s Hs). unfold bind.
  destruct (m s) as [[a| |] s1]; cbn in *; try (split; [discriminate|auto]).
  apply Hf, Hm.
Qed.

End Judgements.

Lemma preserves_when P b m : preserves P m -> preserves P (when b m).
Proof. intros H. destruct b; [exact H|apply preserves_ret]. Qed.

Lemma preserves_use {A} P (o : option A) f :
  (forall v, preserves P (f v)) -> preserves P (use o f).
Proof. intros H. destruct o; [apply H|apply preserves_ret]. Qed.

Lemma preserves_forEach {A} P (xs : list A) body :
  (forall x, preserves P (body x)) -> preserves P (forEach xs body).
Proof.
  intros H. induction xs as [|x xs IH]; [apply preserves_ret|].
  cbn [forEach]. apply preserves_bind; auto.
Qed.

Lemma preserves_both P m1 m2 :
  preserves P m1 -> preserves P m2 -> preserves P (both m1 m2).
Proof.
  intros H1 H2 s Hs. unfold both. specialize (H1 s Hs).
  destruct (m1 s) as [r1 s1]. cbn in H1. specialize (H2 s1 H1).
  destruct (m2 s1) as [r2 s2]. exact H2.
Qed.

Lemma succeeds_ret {A} (a : A) : succeeds (ret a).
Proof. intros s. now exists a. Qed.

Lemma succeeds_gets {A} (f : State -> A) : succeeds (gets f).
Proof. intros s. now exists (f s). Qed.

Lemma succeeds_modify g : succeeds (modify g).
Proof. intros s. now exists tt. Qed.

Lemma succeeds_bind {A B} (m : M A) (f : A -> M B) :
  succeeds m -> (forall a, succeeds (f a)) -> succeeds (bind m f).
Proof.
  intros Hm Hf s. unfold bind. destruct (Hm s) as [a Ha].
  destruct (m s) as [r s1]. cbn in Ha. subst r. apply Hf.
Qed.

Lemma succeeds_when b m : succeeds m -> succeeds (when b m).
Proof. intros H. destruct b; [exact H|apply succeeds_ret]. Qed.

Lemma succeeds_use {A} (o : option A) f :
  (forall v, succeeds (f v)) -> succeeds (use o f).
Proof. intros H. destruct o; [apply H|apply succeeds_ret]. Qed.

Lemma succeeds_forEach {A} (xs : list A) body :
  (forall x, In x xs -> succeeds (body x)) -> succeeds (forEach xs body).
Proof.
  induction xs as [|x xs IH]; intros H; [apply succeeds_ret|].
  cbn [forEach]. apply succeeds_bind.
  - apply H. now left.
  - intros _. apply IH. intros y Hy. apply H. now right.
Qed.

(** A computation made of writes returns. *)
Ltac returning :=
  lazymatch goal with
  | |- succeeds (bind _ _) =>
      apply succeeds_bind; [returning | intros; returning]
  | |- succeeds (ret _) => apply succeeds_ret
  | |- succeeds (gets _) => apply succeeds_gets
  | |- succeeds (getDefine _ _) => apply succeeds_gets
  | |- succeeds (modify _) => apply succeeds_modify
  | |- succeeds (setDefine _ _ _) => apply succeeds_modify
  | |- succeeds (when false _) => exact (succeeds_ret tt)
  | |- succeeds (when _ _) => apply succeeds_when; returning
  | |- succeeds (use _ _) => apply succeeds_use; intros; returning
  | |- succeeds (if ?b then _ else _) => destruct b; returning
  end.

(** ** The tables of defines *)

Lemma get_set_same k v d : Defines.get k (Defines.set k v d) = Some v.
Proof.
  induction d as [|[k' v'] d IH]; cbn.
  - now rewrite String.eqb_refl.
  - destruct (String.eqb k k') eqn:E; cbn; rewrite E; auto.
Qed.

Lemma get_set_other K k v d :
  String.eqb K k = false ->
  Defines.get K (Defines.set k v d) = Defines.get K d.
Proof.
  intros HK. induction d as [|[k' v'] d IH]; cbn.
  - now rewrite HK.
  - destruct (String.eqb k k') eqn:E; cbn.
    + apply String.eqb_eq in E. subst k'. now rewrite HK.
    + now rewrite IH.
Qed.

(** A step-by-step walk along a computation: [walk tac] splits the binds
    and the conditionals and leaves the writes to [tac]. *)
Ltac walk tac :=
  lazymatch goal with
  | |- preserves _ (bind (when true (throw _)) _) =>
      let H := fresh in intros ? H; exact H
  | |- preserves _ (bind _ _) =>
      apply preserves_bind; [walk tac | intros; walk tac]
  | |- preserves _ (ret _) => apply preserves_ret
  | |- preserves _ (throw _) => apply preserves_throw
  | |- preserves _ pending => apply preserves_pending
  | |- preserves _ (gets _) => apply preserves_gets
  | |- preserves _ (getDefine _ _) => apply preserves_gets
  | |- preserves _ (when _ _) => apply preserves_when; walk tac
  | |- preserves _ (use _ _) => apply preserves_use; intros; walk tac
  | |- preserves _ (forEach _ _) => apply preserves_forEach; intros; walk tac
  | |- preserves _ (both _ _) => apply preserves_both; walk tac
  | |- preserves _ (tryCatch _ _) =>
      apply preserves_tryCatch; [walk tac | intros; walk tac]
  | |- preserves _ (tryFinally _ _) =>
      apply preserves_tryFinally; walk tac
  | |- preserves _ (if ?b then _ else _) => destruct b; walk tac
  | |- preserves _ (match ?x with _ => _ end) => destruct x; walk tac
  | |- preserves _ (let '(_, _) := ?x in _) => destruct x; walk tac
  | |- preserves _ _ => tac
  end.

(** A write to the tables, to the trace or to the files keeps a define
    that it does not name. *)
Ltac keeps_define :=
  unfold setDefine, deleteDefine, setCommand, emit, writeFile;
  apply preserves_modify; unfold defineIs;
  let s := fresh "s" in
  let H := fresh "H" in
  intros s H;
  repeat match goal with a : Arch |- _ => destruct a end;
  repeat match goal with r : DefinesRef |- _ => destruct r end;
  repeat match goal with r : CommandsRef |- _ => destruct r end;
  repeat match goal with
         | |- context [if ?b then _ else _] => destruct b
         end;
  cbn; try exact H;
  (rewrite get_set_other; [exact H | reflexivity]).

Section AssistedOnly.

Variable target : Target.
Variable packager : Packager.

Lemma configureDefinesForAllTypeOfInstaller_keeps K v :
  In K [ALLOW_ELEVATION; ALLOW_TO_ADD_SHORTCUT; REMOVE_WELCOME_PAGE;
        "ESTIMATED_SIZE"] ->
  preserves (defineIs K v)
    (configureDefinesForAllTypeOfInstaller target packager TheDefines).
Proof.
  intros HK. cbn in HK.
  destruct HK as [<-|[<-|[<-|[<-|[]]]]];
    unfold configureDefinesForAllTypeOfInstaller; walk keeps_define.
Qed.

Lemma asyncTasks_keep K v oneClick :
  In K [ALLOW_ELEVATION; ALLOW_TO_ADD_SHORTCUT; REMOVE_WELCOME_PAGE;
        "ESTIMATED_SIZE"] ->
  preserves (defineIs K v)
    (forEach (asyncTasks target packager oneClick TheDefines)
       (fun task => task)).
Proof.
  intros HK. cbn in HK.
  destruct HK as [<-|[<-|[<-|[<-|[]]]]];
    destruct oneClick; cbn [asyncTasks app forEach]; walk keeps_define.
Qed.

(** In one-click mode [configureDefines] writes neither the elevation nor
    the shortcut-choice define. *)
Lemma configureDefines_oneClick_keeps K v :
  In K [ALLOW_ELEVATION; ALLOW_TO_ADD_SHORTCUT; "ESTIMATED_SIZE"] ->
  preserves (defineIs K v) (configureDefines target packager true TheDefines).
Proof.
  intros HK. cbn in HK.
  destruct HK as [<-|[<-|[<-|[]]]]; unfold configureDefines;
    repeat lazymatch goal with
           | |- preserves _ (bind _ _) =>
               apply preserves_bind; [walk keeps_define | intros ?]
           end;
    apply asyncTasks_keep; cbn; tauto.
Qed.

(** [buildInstaller] up to [configureDefines], and after it, leaves the
    three defines alone: what [configureDefines] makes of one of them is
    what the symbol table holds in the end. *)
Lemma buildInstaller_define K v archs :
  In K [ALLOW_ELEVATION; ALLOW_TO_ADD_SHORTCUT; REMOVE_WELCOME_PAGE] ->
  isPortable target = false ->
  hoareOk (defineIs K None)
    (configureDefines target packager
       (Js.not_false (oneClick (options target))) TheDefines)
    (fun _ => defineIs K v) ->
  hoareOk (fun _ => True) (buildInstaller target packager archs)
    (fun _ => defineIs K v).
Proof.
  intros HK Hportable Hcfg. cbn in HK.
  destruct HK as [<-|[<-|[<-|[]]]];
    unfold buildInstaller, packArchTask; cbv zeta;
    (eapply hoareOk_bind with (R := fun _ _ => True);
     [intros ? ? ? ? ?; exact I | intros _]);
    lazymatch goal with
    | |- hoareOk _ _ (fun _ => defineIs ?K _) =>
        eapply hoareOk_bind with (R := fun _ => defineIs K None);
        [intros ? ? ? _ E; injection E as _ <-; reflexivity | intros _]
    end;
    repeat lazymatch goal with
           | |- hoareOk _ (bind _ _) _ =>
               eapply hoareOk_bind;
               [apply hoareOk_preserves;
                first [ apply configureDefinesForAllTypeOfInstaller_keeps;
                        cbn; tauto
                      | walk keeps_define ]
               | intros ?]
           end;
    rewrite Hportable;
    (eapply hoareOk_bind; [exact Hcfg | intros ?; cbv beta]);
    apply hoareOk_preserves; walk keeps_define.
Qed.

(** Whatever the mode, the welcome-page define follows its option. *)
Lemma configureDefines_welcome oneClick :
  hoareOk (defineIs REMOVE_WELCOME_PAGE None)
    (configureDefines target packager oneClick TheDefines)
    (fun _ =>
       defineIs REMOVE_WELCOME_PAGE
         (if Js.truthy (removeDefaultUninstallWelcomePage (options target))
          then Some Flag else None)).
Proof.
  unfold configureDefines.
  destruct oneClick;
    repeat lazymatch goal with
           | |- hoareOk _ (bind _ _) _ =>
               eapply hoareOk_bind;
               [apply hoareOk_preserves; walk keeps_define | intros ?]
           end;
    (eapply hoareOk_bind with
       (R := fun _ =>
          defineIs REMOVE_WELCOME_PAGE
            (if Js.truthy
                  (removeDefaultUninstallWelcomePage (options target))
             then Some Flag else None));
     [ intros s ? s' Hs E;
       destruct (Js.truthy
                   (removeDefaultUninstallWelcomePage (options target)));
       injection E as _ <-; [apply get_set_same | exact Hs]
     | intros ? ]);
    repeat lazymatch goal with
           | |- hoareOk _ (bind _ _) _ =>
               eapply hoareOk_bind;
               [apply hoareOk_preserves; walk keeps_define | intros ?]
           end;
    apply hoareOk_preserves, asyncTasks_keep; cbn; tauto.
Qed.

End AssistedOnly.

Lemma has_of_get K d v :
  Defines.get K d = v ->
  Defines.has K d = match v with Some _ => true | None => false end.
Proof. intros H. unfold Defines.has. now rewrite H. Qed.

(** C1, as the code has it. For every configuration in one-click mode
    ([oneClick] not [false]) with [perMachine] not [true], the symbol table
    that [buildInstaller] computes for an installer that is not portable
    holds neither [MULTIUSER_INSTALLMODE_ALLOW_ELEVATION] nor
    [ALLOW_TO_ADD_SHORTCUT]; it holds [removeDefaultUninstallWelcomePage]
    exactly when the option of that name is set. *)
Theorem oneClick_defines_assisted_only_keys
    (target : Target) (packager : Packager) (archs : ArchMap)
    (s s' : State) :
  isPortable target = false ->
  Js.is_true (perMachine (options target)) = false ->
  Js.not_false (oneClick (options target)) = true ->
  buildInstaller target packager archs s = (Ok tt, s') ->
  Defines.has ALLOW_ELEVATION (defines s') = false /\
  Defines.has ALLOW_TO_ADD_SHORTCUT (defines s') = false /\
  Defines.has REMOVE_WELCOME_PAGE (defines s')
  = Js.truthy (removeDefaultUninstallWelcomePage (options target)).
Proof.
  intros Hportable _ HoneClick Hrun.
  assert (Hkeep : forall K,
            In K [ALLOW_ELEVATION; ALLOW_TO_ADD_SHORTCUT] ->
            defineIs K None s').
  { intros K HK.
    apply (buildInstaller_define target packager K None archs) with (s := s) (a := tt);
      [cbn in *; tauto | exact Hportable | | exact I | exact Hrun].
    rewrite HoneClick. apply hoareOk_preserves.
    apply configureDefines_oneClick_keeps. cbn in *. tauto. }
  repeat split.
  - apply (has_of_get _ _ None), Hkeep. cbn. tauto.
  - apply (has_of_get _ _ None), Hkeep. cbn. tauto.
  - pose proof (buildInstaller_define target packager REMOVE_WELCOME_PAGE _
                  archs (or_intror (or_intror (or_introl eq_refl)))
                  Hportable (configureDefines_welcome target packager _)
                  s tt s' I Hrun) as H.
    rewrite (has_of_get _ _ _ H).
    now destruct (Js.truthy _).
Qed.

Lemma oneClick_defines_assisted_only_keys_witness :
  let target := Sample.nsis Sample.oneClickWithoutWelcomePage in
  let run := buildInstaller target Sample.packager Sample.x64Only
               Sample.start in
  fst run = Ok tt /\
  Defines.has ALLOW_ELEVATION (defines (snd run)) = false /\
  Defines.has ALLOW_TO_ADD_SHORTCUT (defines (snd run)) = false /\
  Defines.has REMOVE_WELCOME_PAGE (defines (snd run)) = true.
Proof.
  cbv zeta. split; [vm_compute; reflexivity|].
  apply (oneClick_defines_assisted_only_keys
           (Sample.nsis Sample.oneClickWithoutWelcomePage) Sample.packager
           Sample.x64Only Sample.start);
    [reflexivity | reflexivity | reflexivity | vm_compute; reflexivity].
Defined.

(** C1 as stated fails: with [removeDefaultUninstallWelcomePage] set, a
    one-click per-user installer has the welcome-page define. *)
Lemma oneClick_defines_welcome_page_counterexample :
  let target := Sample.nsis Sample.oneClickWithoutWelcomePage in
  let run := buildInstaller target Sample.packager Sample.x64Only
               Sample.start in
  isPortable target = false /\
  perMachine (options target) = Some false /\
  oneClick (options target) = Some true /\
  fst run = Ok tt /\
  Defines.has REMOVE_WELCOME_PAGE (defines (snd run)) = true.
Proof. vm_compute. repeat split. Qed.

(** A write to the tables or to the files, and an event that is not a
    compiler run, keep the queue and the compiler runs as they are. *)
Ltac keeps_quiet :=
  unfold setDefine, deleteDefine, setCommand, emit, writeFile;
  apply preserves_modify; unfold quiet, spawns;
  let s := fresh "s" in
  let H1 := fresh "H" in
  let H2 := fresh "H" in
  intros s [H1 H2];
  repeat match goal with r : DefinesRef |- _ => destruct r end;
  repeat match goal with r : CommandsRef |- _ => destruct r end;
  repeat match goal with
         | |- context [if ?b then _ else _] => destruct b
         end;
  cbn; try rewrite filter_app; cbn; try rewrite app_nil_r;
  split; assumption.

Section OneClickErrors.

Variable target : Target.
Variable packager : Packager.

Lemma configureDefines_quiet q t oneClick defs :
  preserves (quiet q t) (configureDefines target packager oneClick defs).
Proof.
  unfold configureDefines.
  repeat lazymatch goal with
         | |- preserves _ (bind _ _) =>
             apply preserves_bind; [walk keeps_quiet | intros ?]
         end.
  destruct oneClick; cbn [asyncTasks app forEach]; walk keeps_quiet.
Qed.

(** The error of [configureDefines] in one-click mode: it names the
    first of the two options that is set. *)
Lemma configureDefines_oneClick_throws defs s :
  Js.truthy (allowToChangeInstallationDirectory (options target)) = true
  \/ Js.truthy (allowToAddShortcut (options target)) = true ->
  fst (configureDefines target packager true defs s)
  = Throw (InvalidConfigurationError
             (assistedOnlyMessage
                (if Js.truthy
                      (allowToChangeInstallationDirectory (options target))
                 then "allowToChangeInstallationDirectory"
                 else "allowToAddShortcut"))).
Proof.
  intros H. unfold configureDefines.
  destruct (Js.truthy (allowToChangeInstallationDirectory (options target)))
    eqn:Hchange.
  - destruct (runAfterFinish (options target)) as [[|]|],
             (perMachine (options target)) as [[|]|],
             (selectPerMachineByDefault (options target)) as [[|]|];
      reflexivity.
  - destruct H as [H|Hshortcut]; [discriminate|]. rewrite Hshortcut.
    destruct (runAfterFinish (options target)) as [[|]|],
             (perMachine (options target)) as [[|]|],
             (selectPerMachineByDefault (options target)) as [[|]|];
      reflexivity.
Qed.

(** Without these two options [configureDefines] returns in one-click
    mode, whatever the other assisted-only options are, unless
    [getEffectiveOptions] throws. *)
Lemma configureDefines_oneClick_returns defs s commonOptions :
  Js.truthy (allowToChangeInstallationDirectory (options target)) = false ->
  Js.truthy (allowToAddShortcut (options target)) = false ->
  getEffectiveOptions packager = inr commonOptions ->
  fst (configureDefines target packager true defs s) = Ok tt.
Proof.
  intros Hchange Hshortcut Hcommon.
  assert (H : succeeds (configureDefines target packager true defs)).
  { unfold configureDefines. rewrite Hchange, Hshortcut, Hcommon.
    repeat lazymatch goal with
           | |- succeeds (bind _ _) =>
               apply succeeds_bind; [returning | intros ?]
           end.
    apply succeeds_forEach. intros task Htask. cbn in Htask.
    destruct Htask as [<-|[<-|[]]]; returning. }
  destruct (H s) as [[] E]. exact E.
Qed.

Lemma buildInstaller_oneClick_fails q t archs :
  isPortable target = false ->
  Js.not_false (oneClick (options target)) = true ->
  Js.truthy (allowToChangeInstallationDirectory (options target)) = true
  \/ Js.truthy (allowToAddShortcut (options target)) = true ->
  fails (quiet q t) (buildInstaller target packager archs).
Proof.
  intros Hportable HoneClick Hset.
  unfold buildInstaller, packArchTask, configureDefinesForAllTypeOfInstaller;
    cbv zeta.
  repeat lazymatch goal with
         | |- fails _ (bind _ _) =>
             apply fails_later; [walk keeps_quiet | intros ?]
         end.
  rewrite Hportable, HoneClick. apply fails_here.
  intros s Hs. split.
  - intros r Hr.
    rewrite (configureDefines_oneClick_throws TheDefines s Hset) in Hr.
    discriminate.
  - now apply configureDefines_quiet.
Qed.

End OneClickErrors.

(** C2, as the code has it. In one-click mode ([oneClick] not [false]),
    when [allowToChangeInstallationDirectory] or [allowToAddShortcut] is
    set, [configureDefines] throws an [InvalidConfigurationError] whose
    message starts with the name of the first of them that is set, and
    [buildInstaller] of an installer that is not portable does not return:
    it adds no task to the build queue and starts no compiler. When
    neither is set, [configureDefines] returns whatever [allowElevation]
    and [removeDefaultUninstallWelcomePage] are, unless
    [getEffectiveOptions] throws. *)
Theorem oneClick_rejects_assisted_only_options
    (target : Target) (packager : Packager) (archs : ArchMap) (s : State) :
  isPortable target = false ->
  Js.not_false (oneClick (options target)) = true ->
  (Js.truthy (allowToChangeInstallationDirectory (options target)) = true
   \/ Js.truthy (allowToAddShortcut (options target)) = true ->
   let option :=
     if Js.truthy (allowToChangeInstallationDirectory (options target))
     then "allowToChangeInstallationDirectory"
     else "allowToAddShortcut" in
   (forall defs s0,
      fst (configureDefines target packager true defs s0)
      = Throw (InvalidConfigurationError (assistedOnlyMessage option)))
   /\ Js.startsWith option (assistedOnlyMessage option) = true
   /\ (forall a, fst (buildInstaller target packager archs s) <> Ok a)
   /\ buildQueue (snd (buildInstaller target packager archs s))
      = buildQueue s
   /\ spawns (trace (snd (buildInstaller target packager archs s)))
      = spawns (trace s))
  /\ (Js.truthy (allowToChangeInstallationDirectory (options target)) = false
      -> Js.truthy (allowToAddShortcut (options target)) = false ->
      forall commonOptions,
        getEffectiveOptions packager = inr commonOptions ->
        forall defs s0,
          fst (configureDefines target packager true defs s0) = Ok tt).
Proof.
  intros Hportable HoneClick. split.
  - intros Hset option. split; [|split].
    + intros defs s0. now apply configureDefines_oneClick_throws.
    + subst option. now destruct (Js.truthy _).
    + destruct (buildInstaller_oneClick_fails target packager (buildQueue s)
                  (spawns (trace s)) archs Hportable HoneClick Hset s
                  (conj eq_refl eq_refl)) as [Hn [Hq Ht]].
      auto.
  - intros Hchange Hshortcut commonOptions Hcommon defs s0.
    now apply configureDefines_oneClick_returns with commonOptions.
Qed.

Lemma preserves_and {A} (P Q : State -> Prop) (m : M A) :
  preserves P m -> preserves Q m -> preserves (fun s => P s /\ Q s) m.
Proof. intros HP HQ s [H1 H2]. split; [apply HP|apply HQ]; assumption. Qed.

(** A write to the tables, to the trace or to the files keeps the
    accumulator. *)
Ltac keeps_size :=
  unfold setDefine, deleteDefine, setCommand, emit, writeFile;
  apply preserves_modify; unfold sizeIs;
  let s := fresh "s" in
  let H := fresh "H" in
  intros s H;
  repeat match goal with r : DefinesRef |- _ => destruct r end;
  repeat match goal with r : CommandsRef |- _ => destruct r end;
  repeat match goal with
         | |- context [if ?b then _ else _] => destruct b
         end;
  cbn; exact H.

Section EstimatedSize.

Variable target : Target.
Variable packager : Packager.

Lemma configureDefines_keeps_estimated v oneClick :
  preserves (defineIs ESTIMATED_SIZE v)
    (configureDefines target packager oneClick TheDefines).
Proof.
  unfold configureDefines.
  repeat lazymatch goal with
         | |- preserves _ (bind _ _) =>
             apply preserves_bind; [walk keeps_define | intros ?]
         end.
  apply asyncTasks_keep; cbn; tauto.
Qed.

Lemma configureDefines_keeps_size z oneClick defs :
  preserves (sizeIs z) (configureDefines target packager oneClick defs).
Proof.
  unfold configureDefines.
  repeat lazymatch goal with
         | |- preserves _ (bind _ _) =>
             apply preserves_bind; [walk keeps_size | intros ?]
         end.
  destruct oneClick; cbn [asyncTasks app forEach]; walk keeps_size.
Qed.

(** One archive: its reported size is added; a listing that cannot be
    read adds nothing. *)
Lemma packArchTask_size z arch :
  hoareOk (sizeIs z) (packArchTask target packager arch)
    (fun _ => sizeIs (z + reportedSizeOf packager arch)).
Proof.
  unfold packArchTask, reportedSizeOf, Listing.reportedSize.
  eapply hoareOk_bind; [apply hoareOk_preserves; walk keeps_size|intros ?].
  destruct (packArch packager arch) as [fileInfo|]; [|apply hoareOk_throw].
  cbv zeta.
  repeat lazymatch goal with
         | |- hoareOk _ (bind _ _) _ =>
             eapply hoareOk_bind;
             [apply hoareOk_preserves; walk keeps_size | intros ?]
         end.
  destruct (exec7zaList packager (pf_path fileInfo)) as [output|];
    [|apply hoareOk_throw].
  destruct (Listing.exec (Listing.trim output)) as [group1|]; cbn [option_map].
  - intros s [] s' Hs E. injection E as <-. unfold sizeIs in *. cbn.
    now rewrite Hs.
  - intros s [] s' Hs E. injection E as <-. unfold sizeIs in *. cbn.
    rewrite Hs. lia.
Qed.

Lemma packArchTask_keeps_estimated v arch :
  preserves (defineIs ESTIMATED_SIZE v) (packArchTask target packager arch).
Proof. unfold packArchTask. walk keeps_define. Qed.

Lemma forEach_packArchTask z archs :
  hoareOk (fun s => sizeIs z s /\ defineIs ESTIMATED_SIZE None s)
    (forEach archs (packArchTask target packager))
    (fun _ s =>
       sizeIs (z + fold_right
                     (fun arch total =>
                        (reportedSizeOf packager arch + total)%Z)
                     0%Z archs) s
       /\ defineIs ESTIMATED_SIZE None s).
Proof.
  revert z. induction archs as [|arch archs IH]; intros z.
  - intros s [] s' Hs E. injection E as <-. cbn.
    now rewrite Z.add_0_r.
  - cbn [forEach fold_right].
    eapply hoareOk_bind with
      (R := fun _ s =>
              sizeIs (z + reportedSizeOf packager arch) s
              /\ defineIs ESTIMATED_SIZE None s).
    + intros s a s' [Hz Hd] E. split.
      * eapply packArchTask_size; eauto.
      * pose proof (packArchTask_keeps_estimated None arch s Hd) as H.
        now rewrite E in H.
    + intros _. rewrite Z.add_assoc. apply IH.
Qed.

Lemma hoareOk_both_kept {A} z v (m : M A) :
  preserves (sizeIs z) m -> preserves (defineIs ESTIMATED_SIZE v) m ->
  hoareOk (fun s => sizeIs z s /\ defineIs ESTIMATED_SIZE v s) m
    (fun _ s => sizeIs z s /\ defineIs ESTIMATED_SIZE v s).
Proof. intros H1 H2. now apply hoareOk_preserves, preserves_and. Qed.

(** The define of the estimated size in the symbol table that
    [buildInstaller] computes. *)
Lemma buildInstaller_estimated archs :
  hoareOk (fun _ => True) (buildInstaller target packager archs)
    (fun _ =>
       defineIs ESTIMATED_SIZE
         (let total := totalReportedSize target packager archs in
          if (total =? 0)%Z then None
          else Some (Num (roundDiv1024 total)))).
Proof.
  unfold buildInstaller; cbv zeta.
  eapply hoareOk_bind with (R := fun _ _ => True);
    [intros ? ? ? ? ?; exact I | intros _].
  eapply hoareOk_bind with (R := fun _ => defineIs ESTIMATED_SIZE None);
    [intros ? ? ? _ E; injection E as _ <-; reflexivity | intros _].
  repeat lazymatch goal with
         | |- hoareOk _ (bind (modify (set_estimatedSize _)) _) _ => fail
         | |- hoareOk _ (bind _ _) _ =>
             eapply hoareOk_bind;
             [apply hoareOk_preserves; walk keeps_define | intros ?]
         end.
  eapply hoareOk_bind with
    (R := fun _ s => sizeIs 0 s /\ defineIs ESTIMATED_SIZE None s);
    [intros ? ? ? H E; injection E as _ <-; split; [reflexivity|exact H]
    | intros _].
  eapply hoareOk_bind with
    (R := fun _ s =>
            sizeIs (totalReportedSize target packager archs) s
            /\ defineIs ESTIMATED_SIZE None s).
  { unfold totalReportedSize.
    destruct (isPortable target && Js.truthy (useZip (options target))).
    - apply hoareOk_both_kept; [walk keeps_size | walk keeps_define].
    - cbn [USE_NSIS_BUILT_IN_COMPRESSOR andb].
      apply (forEach_packArchTask 0). }
  intros _.
  eapply hoareOk_bind;
    [apply hoareOk_both_kept;
     [ unfold configureDefinesForAllTypeOfInstaller; walk keeps_size
     | apply configureDefinesForAllTypeOfInstaller_keeps; cbn; tauto ]
    | intros ?; cbv beta].
  eapply hoareOk_bind;
    [apply hoareOk_both_kept;
     (destruct (isPortable target);
      [ | first [ apply configureDefines_keeps_size
                | apply configureDefines_keeps_estimated ] ])
    | intros ?; cbv beta].
  1, 2: first [walk keeps_size | walk keeps_define].
  eapply hoareOk_bind with
    (R := fun size s =>
            size = totalReportedSize target packager archs
            /\ defineIs ESTIMATED_SIZE None s);
    [intros s ? s' [Hz Hd] E; injection E as <- <-; split; assumption
    | intros size].
  eapply hoareOk_bind with
    (R := fun _ =>
            defineIs ESTIMATED_SIZE
              (let total := totalReportedSize target packager archs in
               if (total =? 0)%Z then None
               else Some (Num (roundDiv1024 total)))).
  { intros s ? s' [-> Hd] E. cbv zeta.
    destruct (totalReportedSize target packager archs =? 0)%Z;
      injection E as _ <-; [exact Hd | apply get_set_same]. }
  intros _. apply hoareOk_preserves. walk keeps_define.
Qed.

End EstimatedSize.

Lemma oneClick_rejects_assisted_only_options_witness :
  let rejected := Sample.nsis Sample.oneClickWithShortcutChoice in
  let accepted := Sample.nsis Sample.oneClickWithoutWelcomePage in
  let run := buildInstaller rejected Sample.packager Sample.x64Only
               Sample.start in
  fst (configureDefines rejected Sample.packager true TheDefines Sample.start)
  = Throw (InvalidConfigurationError
             "allowToAddShortcut makes sense only for assisted installer (please set oneClick to false)")
  /\ (forall a, fst run <> Ok a)
  /\ buildQueue (snd run) = []
  /\ spawns (trace (snd run)) = []
  /\ fst (configureDefines accepted Sample.packager true TheDefines
            Sample.start) = Ok tt.
Proof.
  cbv zeta.
  destruct (oneClick_rejects_assisted_only_options
              (Sample.nsis Sample.oneClickWithShortcutChoice) Sample.packager
              Sample.x64Only Sample.start) as [Hrejected _];
    [reflexivity | reflexivity |].
  destruct Hrejected as (Hthrow & _ & Hfail & Hqueue & Hspawns);
    [right; reflexivity|].
  destruct (oneClick_rejects_assisted_only_options
              (Sample.nsis Sample.oneClickWithoutWelcomePage) Sample.packager
              Sample.x64Only Sample.start) as [_ Haccepted];
    [reflexivity | reflexivity |].
  split; [apply Hthrow | split; [exact Hfail | split; [exact Hqueue |
    split; [exact Hspawns|]]]].
  eapply Haccepted; reflexivity.
Defined.

(** C2 as stated fails: in one-click mode [allowElevation] is accepted and
    changes nothing, and [removeDefaultUninstallWelcomePage] is accepted
    too; no error is raised and the installer is queued for compilation. *)
Lemma oneClick_accepts_elevation_and_welcome_page_counterexample :
  let run o := buildInstaller (Sample.nsis o) Sample.packager Sample.x64Only
                 Sample.start in
  fst (run Sample.oneClickWithElevation) = Ok tt
  /\ snd (run Sample.oneClickWithElevation) = snd (run Sample.noOptions)
  /\ fst (run Sample.oneClickWithoutWelcomePage) = Ok tt
  /\ length (buildQueue (snd (run Sample.oneClickWithoutWelcomePage))) = 1.
Proof. vm_compute. repeat split. Qed.

(** C5, as the code has it. A listing that cannot be read makes the task
    of its archive neither fail nor add to the estimate; the symbol table
    that [buildInstaller] computes has [ESTIMATED_SIZE] exactly when the
    sizes reported by the listings that can be read sum to a number other
    than zero, and then it is that sum in kilobytes. *)
Theorem estimated_size_sums_readable_listings
    (target : Target) (packager : Packager) (archs : ArchMap) (s : State) :
  (forall arch fileInfo output s0,
     packArch packager arch = Some fileInfo ->
     exec7zaList packager (pf_path fileInfo) = Some output ->
     Listing.reportedSize (Listing.trim output) = None ->
     fst (packArchTask target packager arch s0) = Ok tt
     /\ estimatedSize (snd (packArchTask target packager arch s0))
        = estimatedSize s0)
  /\ (forall s',
        buildInstaller target packager archs s = (Ok tt, s') ->
        Defines.get ESTIMATED_SIZE (defines s')
        = let total := totalReportedSize target packager archs in
          if (total =? 0)%Z then None else Some (Num (roundDiv1024 total))).
Proof.
  split.
  - intros arch fileInfo output s0 Hpack Hlist Hread.
    unfold Listing.reportedSize in Hread.
    destruct (Listing.exec (Listing.trim output)) eqn:Hexec;
      [discriminate|].
    unfold packArchTask. rewrite Hpack. cbv zeta. rewrite Hlist, Hexec.
    destruct (isWebInstaller target); split; reflexivity.
  - intros s' Hrun.
    exact (buildInstaller_estimated target packager archs s tt s' I Hrun).
Qed.

Lemma estimated_size_sums_readable_listings_witness :
  let target := Sample.nsis Sample.noOptions in
  let packager := Sample.packagerUnreadableIa32 in
  let run := buildInstaller target packager Sample.x64AndIa32 Sample.start in
  fst (packArchTask target packager ia32 Sample.start) = Ok tt
  /\ fst run = Ok tt
  /\ Defines.get ESTIMATED_SIZE (defines (snd run)) = Some (Num 102400).
Proof.
  cbv zeta.
  destruct (estimated_size_sums_readable_listings
              (Sample.nsis Sample.noOptions) Sample.packagerUnreadableIa32
              Sample.x64AndIa32 Sample.start) as [Htask Hbuild].
  split; [|split].
  - apply (Htask ia32 (Sample.package ia32)
             "ERROR: dist/app-1.0.0-ia32.nsis.7z: Can not open the file as archive");
      vm_compute; reflexivity.
  - vm_compute; reflexivity.
  - rewrite (Hbuild (snd (buildInstaller (Sample.nsis Sample.noOptions)
                            Sample.packagerUnreadableIa32 Sample.x64AndIa32
                            Sample.start)));
      vm_compute; reflexivity.
Defined.

(** C5 as stated fails: the listing of the ia32 archive cannot be read,
    and the estimate is emitted all the same, as the size of the x64
    archive alone. *)
Lemma estimated_size_partial_sum_counterexample :
  let target := Sample.nsis Sample.noOptions in
  let packager := Sample.packagerUnreadableIa32 in
  let run := buildInstaller target packager Sample.x64AndIa32 Sample.start in
  (exists output,
     exec7zaList packager (pf_path (Sample.package ia32)) = Some output
     /\ Listing.reportedSize (Listing.trim output) = None)
  /\ fst run = Ok tt
  /\ Defines.get ESTIMATED_SIZE (defines (snd run)) = Some (Num 102400)
  /\ reportedSizeOf packager x64 = (102400 * 1024)%Z.
Proof.
  cbv zeta. split; [eexists; split; vm_compute; reflexivity|].
  vm_compute. repeat split.
Qed.

Section Busy.

Variable packager : Packager.

(** One round of [isBusy]. *)
Lemma isBusy_round patience outFile wasBusyBefore s :
  isBusy packager patience outFile wasBusyBefore s
  = let s1 := set_opens (S (opens s))
                (set_trace (trace s ++ [FsOpen outFile])%list s) in
    match openOutFile packager (opens s) with
    | OpenEBUSY =>
        let s2 :=
          if wasBusyBefore then s1
          else set_trace
                 (trace s1 ++
                  [LogInfo "output file is locked for writing (maybe by virus scanner) => waiting for unlock..."])%list
                 s1 in
        match patience with
        | O => (Pending, s2)
        | S patience' =>
            isBusy packager patience' outFile true
              (set_trace (trace s2 ++ [SetTimeout 2000])%list s2)
        end
    | _ => (Ok true, s1)
    end.
Proof.
  destruct patience; cbn [isBusy]; unfold bind, fsOpen, emit, modify, gets,
    ret, when, pending; cbn;
    destruct (openOutFile packager (opens s)); destruct wasBusyBefore;
    reflexivity.
Qed.

Lemma backoffs_app t1 t2 : backoffs (t1 ++ t2) = backoffs t1 + backoffs t2.
Proof. unfold backoffs. now rewrite filter_app, length_app. Qed.

Lemma spawns_app t1 t2 : spawns (t1 ++ t2) = (spawns t1 ++ spawns t2)%list.
Proof. unfold spawns. now rewrite filter_app. Qed.

Local Arguments backoffs : simpl never.
Local Arguments spawns : simpl never.

(** Counting in a trace that was extended by known events. *)
Ltac count_events :=
  cbn; rewrite ?backoffs_app, ?spawns_app; unfold backoffs, spawns; cbn;
  rewrite ?app_nil_r; repeat split; lia.

(** The file is released after [k] rounds: [isBusy] resolves after
    exactly [k] delays, having started nothing. *)
Lemma isBusy_released k :
  forall patience outFile wasBusyBefore s,
    k <= patience ->
    (forall i, i < k -> openOutFile packager (opens s + i) = OpenEBUSY) ->
    openOutFile packager (opens s + k) <> OpenEBUSY ->
    let r := isBusy packager patience outFile wasBusyBefore s in
    fst r = Ok true
    /\ backoffs (trace (snd r)) = backoffs (trace s) + k
    /\ spawns (trace (snd r)) = spawns (trace s)
    /\ files (snd r) = files s
    /\ opens (snd r) = opens s + k + 1.
Proof.
  induction k as [|k IH]; intros patience outFile b s Hle Hbusy Hfree;
    cbv zeta; rewrite isBusy_round; cbv zeta.
  - rewrite Nat.add_0_r in Hfree.
    destruct (openOutFile packager (opens s)); [now destruct Hfree| |];
      count_events.
  - assert (H0 : openOutFile packager (opens s) = OpenEBUSY).
    { rewrite <- (Nat.add_0_r (opens s)). apply Hbusy. lia. }
    rewrite H0.
    destruct patience as [|patience]; [lia|].
    match goal with
    | |- context [isBusy packager patience outFile true ?s2] =>
        destruct (IH patience outFile true s2) as (H1 & H2 & H3 & H4 & H5)
    end.
    + lia.
    + intros i Hi. destruct b; cbn;
        match goal with
        | |- openOutFile _ ?n = _ => replace n with (opens s + S i) by lia
        end; apply Hbusy; lia.
    + destruct b; cbn;
        match goal with
        | |- openOutFile _ ?n <> _ => replace n with (opens s + S k) by lia
        end; exact Hfree.
    + rewrite H1, H2, H3, H4, H5. destruct b; count_events.
Qed.

(** The file stays busy: whatever the patience, [isBusy] is still waiting,
    one delay per unit of patience behind it, and nothing was thrown. *)
Lemma isBusy_locked patience :
  forall outFile wasBusyBefore s,
    (forall i, openOutFile packager (opens s + i) = OpenEBUSY) ->
    let r := isBusy packager patience outFile wasBusyBefore s in
    fst r = Pending
    /\ backoffs (trace (snd r)) = backoffs (trace s) + patience
    /\ spawns (trace (snd r)) = spawns (trace s).
Proof.
  induction patience as [|patience IH]; intros outFile b s Hbusy;
    cbv zeta; rewrite isBusy_round; cbv zeta;
    (assert (H0 : openOutFile packager (opens s) = OpenEBUSY)
      by (rewrite <- (Nat.add_0_r (opens s)); apply Hbusy));
    rewrite H0.
  - destruct b; count_events.
  - match goal with
    | |- context [isBusy packager patience outFile true ?s2] =>
        destruct (IH outFile true s2) as (H1 & H2 & H3)
    end.
    + intros i. destruct b; cbn;
        match goal with
        | |- openOutFile _ ?n = _ => replace n with (opens s + S i) by lia
        end; apply Hbusy.
    + rewrite H1, H2, H3. destruct b; count_events.
Qed.

Lemma bind_gets {A B} (f : State -> A) (k : A -> M B) s :
  bind (gets f) k s = k (f s) s.
Proof. reflexivity. Qed.

Lemma executeMakensis_unfold target patience defs cmds script quoted s :
  Commands.get "OutFile" (commandsOf cmds s) = Some (Scalar quoted) ->
  executeMakensis target packager patience defs cmds script s
  = let args := makensisArgs target (definesOf defs s) (commandsOf cmds s) in
    let outFile := Str.replaceAll "034"%char EmptyString quoted in
    bind (isBusy packager patience outFile false)
      (fun _ s1 =>
         let s2 := set_trace (trace s1 ++ [SpawnMakensis args script])%list
                     s1 in
         if makensis packager args
         then (Ok tt,
               if fileExists outFile s2 then s2
               else set_files (files s2 ++ [outFile])%list s2)
         else (Throw (ExecError "makensis"), s2)) s.
Proof.
  intros Hout. unfold executeMakensis. rewrite !bind_gets. rewrite Hout.
  cbv zeta. unfold ensureNotBusy, bind.
  destruct (isBusy packager patience _ false s) as [[r| |] s1];
    try reflexivity.
  unfold ret, emit, modify, writeFile, throw.
  destruct (makensis packager _); reflexivity.
Qed.

(** The compiler run behind the wait: when the file is released after [k]
    rounds the compiler is started, after exactly [k] delays. *)
Lemma executeMakensis_released target defs cmds script quoted k patience s :
  Commands.get "OutFile" (commandsOf cmds s) = Some (Scalar quoted) ->
  k <= patience ->
  (forall i, i < k -> openOutFile packager (opens s + i) = OpenEBUSY) ->
  openOutFile packager (opens s + k) <> OpenEBUSY ->
  let r := executeMakensis target packager patience defs cmds script s in
  backoffs (trace (snd r)) = backoffs (trace s) + k
  /\ exists args,
       spawns (trace (snd r))
       = (spawns (trace s) ++ [SpawnMakensis args script])%list
       /\ fst r = if makensis packager args then Ok tt
                  else Throw (ExecError "makensis").
Proof.
  intros Hout Hle Hbusy Hfree. cbv zeta.
  rewrite (executeMakensis_unfold _ _ _ _ _ _ _ Hout). cbv zeta.
  unfold bind.
  match goal with
  | |- context [isBusy packager patience ?f false s] =>
      destruct (isBusy_released k patience f false s Hle Hbusy Hfree)
        as (H1 & H2 & H3 & _);
      destruct (isBusy packager patience f false s) as [r1 s1]
  end.
  cbn [fst snd] in H1, H2, H3. subst r1.
  split;
    [|exists (makensisArgs target (definesOf defs s) (commandsOf cmds s));
      split];
    destruct (makensis packager _);
    repeat match goal with
           | |- context [if ?b then _ else _] => destruct b
           end;
    cbn; rewrite ?backoffs_app, ?spawns_app, ?H2, ?H3;
    unfold backoffs, spawns; cbn; rewrite ?app_nil_r;
    try reflexivity; lia.
Qed.

(** The compiler run behind the wait: while the file stays busy the
    compiler is not started and nothing is thrown. *)
Lemma executeMakensis_locked target defs cmds script quoted patience s :
  Commands.get "OutFile" (commandsOf cmds s) = Some (Scalar quoted) ->
  (forall i, openOutFile packager (opens s + i) = OpenEBUSY) ->
  let r := executeMakensis target packager patience defs cmds script s in
  fst r = Pending
  /\ backoffs (trace (snd r)) = backoffs (trace s) + patience
  /\ spawns (trace (snd r)) = spawns (trace s).
Proof.
  intros Hout Hbusy. cbv zeta.
  rewrite (executeMakensis_unfold _ _ _ _ _ _ _ Hout). cbv zeta.
  unfold bind.
  match goal with
  | |- context [isBusy packager patience ?f false s] =>
      destruct (isBusy_locked patience f false s Hbusy) as (H1 & H2 & H3);
      destruct (isBusy packager patience f false s) as [r1 s1]
  end.
  cbn [fst snd] in H1, H2, H3. subst r1. cbn [fst snd]. auto.
Qed.

End Busy.

(** C3, as the code has it. The probe of the output file before a compiler
    run is retried after a fixed delay of 2000 ms for as long as the file
    is busy, without a bound: if the file is released after [k] rounds the
    compiler is started after exactly [k] delays, without an error; if it
    stays busy the probe neither ends nor fails, however long one waits. *)
Theorem ensureNotBusy_retries_until_released
    (target : Target) (packager : Packager) (defs : DefinesRef)
    (cmds : CommandsRef) (script quoted : string) (s : State) :
  Commands.get "OutFile" (commandsOf cmds s) = Some (Scalar quoted) ->
  (forall k patience,
     k <= patience ->
     (forall i, i < k -> openOutFile packager (opens s + i) = OpenEBUSY) ->
     openOutFile packager (opens s + k) <> OpenEBUSY ->
     (let r := ensureNotBusy packager patience
                 (Str.replaceAll "034"%char EmptyString quoted) s in
      fst r = Ok tt
      /\ backoffs (trace (snd r)) = backoffs (trace s) + k)
     /\ (let r := executeMakensis target packager patience defs cmds script
                    s in
          backoffs (trace (snd r)) = backoffs (trace s) + k
          /\ exists args,
               spawns (trace (snd r))
               = (spawns (trace s) ++ [SpawnMakensis args script])%list
               /\ fst r = if makensis packager args then Ok tt
                          else Throw (ExecError "makensis")))
  /\ ((forall i, openOutFile packager (opens s + i) = OpenEBUSY) ->
      forall patience,
        (let r := ensureNotBusy packager patience
                    (Str.replaceAll "034"%char EmptyString quoted) s in
         fst r = Pending
         /\ backoffs (trace (snd r)) = backoffs (trace s) + patience)
        /\ (let r := executeMakensis target packager patience defs cmds
                       script s in
             fst r = Pending
             /\ spawns (trace (snd r)) = spawns (trace s))).
Proof.
  intros Hout. split.
  - intros k patience Hle Hbusy Hfree. split.
    + cbv zeta. unfold ensureNotBusy, bind.
      match goal with
      | |- context [isBusy packager patience ?f false s] =>
          destruct (isBusy_released packager k patience f false s Hle Hbusy
                      Hfree) as (H1 & H2 & _);
          destruct (isBusy packager patience f false s) as [r1 s1]
      end.
      cbn [fst snd] in *. subst r1. cbn. auto.
    + now apply executeMakensis_released with (quoted := quoted).
  - intros Hbusy patience. split.
    + cbv zeta. unfold ensureNotBusy, bind.
      match goal with
      | |- context [isBusy packager patience ?f false s] =>
          destruct (isBusy_locked packager patience f false s Hbusy)
            as (H1 & H2 & _);
          destruct (isBusy packager patience f false s) as [r1 s1]
      end.
      cbn [fst snd] in *. subst r1. cbn. auto.
    + destruct (executeMakensis_locked packager target defs cmds script
                  quoted patience s Hout Hbusy) as (H1 & _ & H3).
      auto.
Qed.

Lemma ensureNotBusy_retries_until_released_witness :
  let target := Sample.nsis Sample.noOptions in
  let script := "!include installer.nsh" in
  let released :=
    executeMakensis target (Sample.packagerBusyFor 2) 5 TheDefines
      TheCommands script Sample.prepared in
  let locked :=
    executeMakensis target Sample.packagerAlwaysBusy 7 TheDefines
      TheCommands script Sample.prepared in
  (backoffs (trace (snd released)) = 2 /\ fst released = Ok tt)
  /\ (fst locked = Pending /\ spawns (trace (snd locked)) = []).
Proof.
  cbv zeta. split.
  - destruct (ensureNotBusy_retries_until_released
                (Sample.nsis Sample.noOptions) (Sample.packagerBusyFor 2)
                TheDefines TheCommands "!include installer.nsh"
                (Str.dquote ++ "dist/App Setup 1.0.0-x64.exe" ++ Str.dquote)
                Sample.prepared) as [Hreleased _];
      [vm_compute; reflexivity|].
    destruct (Hreleased 2 5) as [_ [Hdelays _]];
      [lia
      | intros [|[|i]] Hi; [reflexivity | reflexivity | lia]
      | discriminate
      |].
    split; [exact Hdelays | vm_compute; reflexivity].
  - destruct (ensureNotBusy_retries_until_released
                (Sample.nsis Sample.noOptions) Sample.packagerAlwaysBusy
                TheDefines TheCommands "!include installer.nsh"
                (Str.dquote ++ "dist/App Setup 1.0.0-x64.exe" ++ Str.dquote)
                Sample.prepared) as [_ Hlocked];
      [vm_compute; reflexivity|].
    destruct (Hlocked (fun _ => eq_refl) 7) as [_ [Hpending Hspawns]].
    split; [exact Hpending | exact Hspawns].
Defined.

(** C3 as stated fails: while the output file stays busy there is no
    number of attempts after which the probe gives up, with an error or
    otherwise. *)
Lemma ensureNotBusy_has_no_bound_counterexample :
  ~ exists bound,
      fst (executeMakensis (Sample.nsis Sample.noOptions)
             Sample.packagerAlwaysBusy bound TheDefines TheCommands
             "!include installer.nsh" Sample.prepared)
      <> Pending.
Proof.
  intros [bound Hends]. apply Hends.
  apply (executeMakensis_locked Sample.packagerAlwaysBusy
           (Sample.nsis Sample.noOptions) TheDefines TheCommands
           "!include installer.nsh"
           (Str.dquote ++ "dist/App Setup 1.0.0-x64.exe" ++ Str.dquote)
           bound Sample.prepared);
    [vm_compute; reflexivity | reflexivity].
Qed.

(** C4 on the code. The compiler makes the stub of the uninstaller and
    fails on the installer itself: the build fails, and the uninstaller
    that the sub-build wrote and signed is still in the output directory,
    no [unlink] having been attempted. When the compiler succeeds the
    file is unlinked. *)
Theorem uninstaller_remains_when_compiler_fails :
  let uninstaller := "dist/App Setup 1.0.0-x64.__uninstaller.exe" in
  let failed :=
    Sample.buildX64 Sample.noOptions Sample.packagerFailingInstaller 0 in
  let built := Sample.buildX64 Sample.noOptions Sample.packager 0 in
  (fst failed = Throw (ExecError "makensis")
   /\ In (Sign uninstaller) (trace (snd failed))
   /\ fileExists uninstaller (snd failed) = true
   /\ existsb (fun e => match e with Unlink _ => true | _ => false end)
        (trace (snd failed)) = false)
  /\ (fst built = Ok tt
      /\ In (Unlink uninstaller) (trace (snd built))
      /\ fileExists uninstaller (snd built) = false).
Proof.
  cbv zeta. split; (split; [vm_compute; reflexivity|]).
  - split; [vm_compute; tauto|]. split; vm_compute; reflexivity.
  - split; [vm_compute; tauto|]. vm_compute; reflexivity.
Qed.

(** A write to the tables, to the trace or to the files keeps the build
    queue. *)
Ltac keeps_queue :=
  unfold setDefine, deleteDefine, setCommand, emit, writeFile;
  apply preserves_modify; unfold onQueue;
  let s := fresh "s" in
  let H := fresh "H" in
  intros s H;
  repeat match goal with r : DefinesRef |- _ => destruct r end;
  repeat match goal with r : CommandsRef |- _ => destruct r end;
  repeat match goal with
         | |- context [if ?b then _ else _] => destruct b
         end;
  cbn; exact H.

Section UpdateInfo.

Variable target : Target.
Variable packager : Packager.

Lemma configureDefines_keeps_queue P oneClick defs :
  preserves (onQueue P) (configureDefines target packager oneClick defs).
Proof.
  unfold configureDefines.
  repeat lazymatch goal with
         | |- preserves _ (bind _ _) =>
             apply preserves_bind; [walk keeps_queue | intros ?]
         end.
  destruct oneClick; cbn [asyncTasks app forEach]; walk keeps_queue.
Qed.

(** Every task that [buildInstaller] queues carries the modes of the
    options. *)
Lemma buildInstaller_queues archs :
  preserves (onQueue (Forall (taskOf target)))
    (buildInstaller target packager archs).
Proof.
  unfold buildInstaller, packArchTask, configureDefinesForAllTypeOfInstaller;
    cbv zeta.
  walk ltac:(first
    [ apply configureDefines_keeps_queue
    | keeps_queue
    | apply preserves_modify; unfold onQueue; intros ? H; cbn;
      apply Forall_app; split; [exact H|];
      constructor; [split; reflexivity | constructor] ]).
Qed.

(** A task that returns has published its update information, last. *)
Lemma runTask_publishes patience t :
  hoareOk (fun _ => True) (runTask target packager patience t)
    (fun _ s =>
       exists before,
         trace s
         = (before ++
            [ArtifactBuildCompleted (t_installerPath t) (t_primaryArch t)
               (computeUpdateInfo target packager t)])%list).
Proof.
  unfold runTask; cbv zeta.
  repeat lazymatch goal with
         | |- hoareOk _ (bind _ _) _ =>
             eapply hoareOk_bind with (R := fun _ _ => True);
             [intros ? ? ? ? ?; exact I | intros ?]
         end.
  intros s [] s' _ E. injection E as <-. cbn. eexists. reflexivity.
Qed.

End UpdateInfo.

(** C6, as the code has it. Every task that [buildInstaller] queues
    publishes, when it returns, update information that is marked
    [isAdminRightsRequired = true] exactly when metadata was produced, the
    install is per machine ([perMachine] is [true]) and the installer is
    one-click or an elevation helper is packed ([packElevateHelper] set);
    otherwise the metadata is published as the collaborator made it. *)
Theorem admin_rights_recorded_for_per_machine
    (target : Target) (packager : Packager) (patience : nat)
    (archs : ArchMap) (s : State) (t : Task) :
  buildQueue s = [] ->
  In t (buildQueue (snd (buildInstaller target packager archs s))) ->
  computeUpdateInfo target packager t
  = match baseUpdateInfo target packager t with
    | Some info =>
        Some (if Js.is_true (perMachine (options target))
                 && (Js.not_false (oneClick (options target))
                     || Js.truthy (packElevateHelper (options target)))
              then withAdminRights info
              else info)
    | None => None
    end
  /\ forall s0 s1,
       runTask target packager patience t s0 = (Ok tt, s1) ->
       exists before,
         trace s1
         = (before ++
            [ArtifactBuildCompleted (t_installerPath t) (t_primaryArch t)
               (computeUpdateInfo target packager t)])%list.
Proof.
  intros Hempty Hin. split.
  - assert (Htask : taskOf target t).
    { pose proof (buildInstaller_queues target packager archs s) as H.
      unfold onQueue in H. rewrite Hempty in H. specialize (H (Forall_nil _)).
      rewrite Forall_forall in H. now apply H. }
    destruct Htask as [HoneClick HperMachine].
    unfold computeUpdateInfo. rewrite HoneClick, HperMachine.
    destruct (baseUpdateInfo target packager t); [|reflexivity].
    now destruct (_ && _).
  - intros s0 s1 Hrun.
    exact (runTask_publishes target packager patience t s0 tt s1 I Hrun).
Qed.

Lemma admin_rights_recorded_for_per_machine_witness :
  let target := Sample.nsis Sample.oneClickPerMachine in
  let queue :=
    buildQueue
      (snd (buildInstaller target Sample.packager Sample.x64Only
              Sample.start)) in
  exists t,
    In t queue
    /\ computeUpdateInfo target Sample.packager t
       = Some {| ui_packages := []; isAdminRightsRequired := Some true |}.
Proof.
  cbv zeta. eexists. split.
  - vm_compute. left. reflexivity.
  - match goal with
    | |- computeUpdateInfo _ _ ?t = _ =>
        destruct (admin_rights_recorded_for_per_machine
                    (Sample.nsis Sample.oneClickPerMachine) Sample.packager 0
                    Sample.x64Only Sample.start t eq_refl) as [H _]
    end;
      [vm_compute; left; reflexivity | rewrite H; vm_compute; reflexivity].
Defined.

(** C6 as stated fails: an assisted per-machine installer without
    [packElevateHelper], and a per-user installer with the elevation
    helper packed, are both published without [isAdminRightsRequired]. *)
Lemma admin_rights_not_recorded_counterexample :
  let publishedBy o :=
    published (trace (snd (Sample.buildX64 o Sample.packager 0))) in
  let unmarked :=
    [ArtifactBuildCompleted "dist/App Setup 1.0.0-x64.exe" (Some x64)
       (Some {| ui_packages := []; isAdminRightsRequired := None |})] in
  perMachine Sample.assistedPerMachine = Some true
  /\ publishedBy Sample.assistedPerMachine = unmarked
  /\ packElevateHelper Sample.perUserWithElevateHelper = Some true
  /\ publishedBy Sample.perUserWithElevateHelper = unmarked.
Proof. vm_compute. repeat split. Qed.

Lemma set_archs_twice m m' s : set_archs m (set_archs m' s) = set_archs m s.
Proof. reflexivity. Qed.

Lemma Arch_eqb_sym a b : Arch_eqb a b = Arch_eqb b a.
Proof. destruct a, b; reflexivity. Qed.

(** C7. With the universal build enabled and a pattern that contains
    [${arch}], registering two architectures and finishing the build
    schedules exactly three installer builds: one for both architectures,
    then one for each. *)
Theorem finishBuild_schedules_three_builds
    (target : Target) (packager : Packager) (patience : nat)
    (arch1 arch2 : Arch) (dir1 dir2 : string) (s : State) :
  shouldBuildUniversalInstaller target = true ->
  Js.includes (artifactPattern packager) "${arch}" = true ->
  Arch_eqb arch1 arch2 = false ->
  archs s = [] ->
  let registered := [(arch1, dir1); (arch2, dir2)] in
  builds (artifactPattern packager) registered
  = [registered; [(arch1, dir1)]; [(arch2, dir2)]]
  /\ (build target packager dir1 arch1 ;;
      build target packager dir2 arch2 ;;
      finishBuild target packager patience) s
     = tryFinally
         (buildInstaller target packager registered ;;
          buildInstaller target packager [(arch1, dir1)] ;;
          buildInstaller target packager [(arch2, dir2)] ;;
          ret tt)
         (superFinishBuild target packager patience ;;
          packageHelperFinishBuild)
         (set_archs registered s).
Proof.
  intros Huniversal Hpattern Hdistinct Hempty registered.
  assert (Hbuilds : builds (artifactPattern packager) registered
                    = [registered; [(arch1, dir1)]; [(arch2, dir2)]]).
  { unfold builds. rewrite Hpattern. reflexivity. }
  split; [exact Hbuilds|].
  unfold build, finishBuild. rewrite Huniversal. cbn [negb].
  unfold bind at 1 2 3 4, modify, ret.
  change (archs (set_archs (ArchMap.set arch1 dir1 (archs s)) s))
    with (ArchMap.set arch1 dir1 (archs s)).
  rewrite Hempty. cbn [ArchMap.set].
  rewrite Arch_eqb_sym, Hdistinct, set_archs_twice. fold registered.
  unfold tryFinally. rewrite bind_gets.
  change (archs (set_archs registered s)) with registered.
  rewrite Hbuilds. reflexivity.
Qed.

Lemma finishBuild_schedules_three_builds_witness :
  let target := Sample.nsis Sample.noOptions in
  let run :=
    (build target Sample.packager "dist/win-unpacked" x64 ;;
     build target Sample.packager "dist/win-ia32-unpacked" ia32 ;;
     finishBuild target Sample.packager 0) Sample.start in
  builds (artifactPattern Sample.packager) Sample.x64AndIa32
  = [Sample.x64AndIa32; [(x64, "dist/win-unpacked")];
     [(ia32, "dist/win-ia32-unpacked")]]
  /\ length (started (trace (snd run))) = 3.
Proof.
  cbv zeta.
  destruct (finishBuild_schedules_three_builds
              (Sample.nsis Sample.noOptions) Sample.packager 0 x64 ia32
              "dist/win-unpacked" "dist/win-ia32-unpacked" Sample.start)
    as [Hbuilds Hrun]; [reflexivity | reflexivity | reflexivity | reflexivity |].
  split; [exact Hbuilds|].
  rewrite Hrun. vm_compute. reflexivity.
Defined.

Section PackageFile.

Import Installer.

Variable d : Defines.
Variable rt : Runtime.

Lemma streq_empty a : streq a EmptyString = true <-> a = EmptyString.
Proof. destruct a; cbn; split; intros H; congruence. Qed.

Lemma fun_extract_no_hash v f : ~ In (HashFileOf f) (fun_extract d rt v).
Proof.
  unfold fun_extract. destruct (streq (installMode v) "all"); cbn;
    intuition discriminate.
Qed.

Lemma choosePackageFile_explicit v file :
  parameter rt "package-file" = Some file -> file <> EmptyString ->
  choosePackageFile d rt v
  = {| packageFile := file; isPackageFileExplicitlySpecified := "true";
       r1 := r1 v; r3 := r3 v; r4 := r4 v; installMode := installMode v |}.
Proof.
  intros Hparam Hfile. unfold choosePackageFile, GetParameter.
  rewrite Hparam. cbn [packageFile].
  destruct (streq file EmptyString) eqn:E; [|reflexivity].
  apply streq_empty in E. contradiction.
Qed.

Lemma choosePackageFile_default v :
  GetParameter rt "package-file" EmptyString = EmptyString ->
  exists arch,
    In arch ["ARM64"; "64"; "32"]
    /\ choosePackageFile d rt v
       = {| packageFile :=
              EXEDIR rt ++ "/" ++ expand d ("APP_" ++ arch ++ "_NAME");
            isPackageFileExplicitlySpecified := "false";
            r1 := expand d ("APP_" ++ arch ++ "_HASH");
            r3 := r3 v;
            r4 := expand d ("APP_" ++ arch ++ "_NAME");
            installMode := installMode v |}.
Proof.
  intros Hparam. unfold choosePackageFile. rewrite Hparam. cbn [packageFile].
  change (streq EmptyString EmptyString) with true. cbv iota.
  unfold selectByArchitecture.
  destruct (Defines.has "APP_64_NAME" d), (Defines.has "APP_32_NAME" d),
           (Defines.has "APP_ARM64_NAME" d), (IsNativeARM64 rt),
           (IsNativeAMD64 rt), (RunningX64 rt);
    cbn;
    first [ exists "ARM64"; split; [cbn; tauto | reflexivity]
          | exists "64"; split; [cbn; tauto | reflexivity]
          | exists "32"; split; [cbn; tauto | reflexivity] ].
Qed.

End PackageFile.

(** C9. When the parameter [package-file] is given and not empty, the
    macro takes it as the package file, marks it as explicitly specified
    and skips the selection by architecture: the registers of the
    selection are untouched and neither the defines nor the machine
    matter; when that file exists the package is extracted from it. *)
Theorem package_file_parameter_takes_precedence
    (d : Defines) (rt : Installer.Runtime)
    (downloadApplicationFiles : Installer.Vars -> Installer.Vars)
    (v : Installer.Vars) (file : string) :
  Installer.parameter rt "package-file" = Some file ->
  file <> EmptyString ->
  let chosen := Installer.choosePackageFile d rt v in
  Installer.packageFile chosen = file
  /\ Installer.isPackageFileExplicitlySpecified chosen = "true"
  /\ Installer.r1 chosen = Installer.r1 v
  /\ Installer.r4 chosen = Installer.r4 v
  /\ (forall d' rt',
        Installer.parameter rt' "package-file" = Some file ->
        Installer.choosePackageFile d' rt' v = chosen)
  /\ (Installer.FileExists rt file = true ->
      Installer.installWebPackage d rt downloadApplicationFiles v
      = (chosen, Installer.fun_extract d rt chosen)
      /\ hd_error (Installer.fun_extract d rt chosen)
         = Some (Installer.ExtractUsing7za file)).
Proof.
  intros Hparam Hfile chosen. subst chosen.
  rewrite (choosePackageFile_explicit d rt v file Hparam Hfile).
  cbn [Installer.packageFile Installer.isPackageFileExplicitlySpecified
       Installer.r1 Installer.r4].
  repeat split.
  - intros d' rt' Hparam'.
    apply (choosePackageFile_explicit d' rt' v file Hparam' Hfile).
  - unfold Installer.installWebPackage.
    rewrite (choosePackageFile_explicit d rt v file Hparam Hfile).
    cbn [Installer.packageFile Installer.isPackageFileExplicitlySpecified].
    rewrite H. reflexivity.
Qed.

Lemma package_file_parameter_takes_precedence_witness :
  let rt := Sample.machine (Some "C:/Temp/update.7z") ["C:/Temp/update.7z"]
              "FFFFFF" in
  let run := Installer.installWebPackage Sample.webDefines rt Sample.download
               Sample.fresh in
  Installer.packageFile (fst run) = "C:/Temp/update.7z"
  /\ hd_error (snd run) = Some (Installer.ExtractUsing7za "C:/Temp/update.7z").
Proof.
  cbv zeta.
  destruct (package_file_parameter_takes_precedence Sample.webDefines
              (Sample.machine (Some "C:/Temp/update.7z")
                 ["C:/Temp/update.7z"] "FFFFFF")
              Sample.download Sample.fresh "C:/Temp/update.7z")
    as (Hfile & _ & _ & _ & _ & Hexists);
    [reflexivity | discriminate |].
  destruct (Hexists eq_refl) as [Hrun Hfirst].
  rewrite Hrun. split; [exact Hfile | exact Hfirst].
Defined.

(** C10. The check of the package file is one-sided. A package file given
    by the parameter [package-file] is never hashed, and is extracted as
    it is when it exists. A package file selected by architecture and
    found next to the installer is hashed with SHA2-512 and extracted only
    if the hash equals (as [==] compares) the hash that the build
    embedded; otherwise a message is shown, the local file is left aside
    and the package is downloaded. *)
Theorem checksum_checked_only_for_selected_package
    (d : Defines) (rt : Installer.Runtime)
    (downloadApplicationFiles : Installer.Vars -> Installer.Vars)
    (v : Installer.Vars) :
  let run := Installer.installWebPackage d rt downloadApplicationFiles v in
  let chosen := Installer.choosePackageFile d rt v in
  (forall file,
     Installer.parameter rt "package-file" = Some file ->
     file <> EmptyString ->
     (forall f, ~ In (Installer.HashFileOf f) (snd run))
     /\ (Installer.FileExists rt file = true ->
         snd run
         = Installer.ExtractUsing7za file
           :: tl (Installer.fun_extract d rt chosen)))
  /\ (Installer.GetParameter rt "package-file" EmptyString = EmptyString ->
      Installer.FileExists rt (Installer.packageFile chosen) = true ->
      let actual := Installer.HashFile rt (Installer.packageFile chosen) in
      (exists arch,
         In arch ["ARM64"; "64"; "32"]
         /\ Installer.r1 chosen
            = Installer.expand d ("APP_" ++ arch ++ "_HASH")
         /\ Installer.packageFile chosen
            = Installer.EXEDIR rt ++ "/"
              ++ Installer.expand d ("APP_" ++ arch ++ "_NAME"))
      /\ (Installer.streq actual (Installer.r1 chosen) = true ->
          snd run
          = Installer.HashFileOf (Installer.packageFile chosen)
            :: Installer.ExtractUsing7za (Installer.packageFile chosen)
            :: tl (Installer.fun_extract d rt chosen))
      /\ (Installer.streq actual (Installer.r1 chosen) = false ->
          snd run
          = ([Installer.HashFileOf (Installer.packageFile chosen);
              Installer.MessageBoxChecksumMismatch (Installer.r4 chosen)
                (Installer.r1 chosen) actual;
              Installer.DownloadApplicationFiles]
             ++ Installer.fun_extract d rt
                  (downloadApplicationFiles
                     {| Installer.packageFile := Installer.packageFile chosen;
                        Installer.isPackageFileExplicitlySpecified := "false";
                        Installer.r1 := Installer.r1 chosen;
                        Installer.r3 := actual;
                        Installer.r4 := Installer.r4 chosen;
                        Installer.installMode :=
                          Installer.installMode chosen |}))%list)).
Proof.
  cbv zeta. split.
  - intros file Hparam Hfile. unfold Installer.installWebPackage.
    rewrite (choosePackageFile_explicit d rt v file Hparam Hfile).
    cbn [Installer.packageFile Installer.isPackageFileExplicitlySpecified].
    change (Installer.streq "true" "true") with true. cbv iota. split.
    + intros f.
      destruct (Installer.FileExists rt file); cbn [snd].
      * apply fun_extract_no_hash.
      * intros [H|H]; [discriminate|]. revert H. apply fun_extract_no_hash.
    + intros Hexists. rewrite Hexists. reflexivity.
  - intros Hparam.
    destruct (choosePackageFile_default d rt v Hparam) as (arch & Harch & E).
    unfold Installer.installWebPackage. rewrite E.
    cbn [Installer.packageFile Installer.isPackageFileExplicitlySpecified
         Installer.r1 Installer.r3 Installer.r4 Installer.installMode].
    intros Hexists. rewrite Hexists.
    change (Installer.streq "false" "true") with false. cbv iota.
    split; [exists arch; auto|]. split; intros Hhash; rewrite Hhash.
    + reflexivity.
    + reflexivity.
Qed.

Lemma checksum_checked_only_for_selected_package_witness :
  let local := "C:/Downloads/app-1.0.0-x64.nsis.7z" in
  let run parameter present hash :=
    snd (Installer.installWebPackage Sample.webDefines
           (Sample.machine parameter present hash) Sample.download
           Sample.fresh) in
  run (Some "C:/Temp/update.7z") ["C:/Temp/update.7z"] "FFFFFF"
  = [Installer.ExtractUsing7za "C:/Temp/update.7z";
     Installer.MoveFile "C:/Temp/update.7z"
       "C:/Users/u/AppData/Local\app-updater\package.7z"]
  /\ run None [local] "4d616e"
     = [Installer.HashFileOf local; Installer.ExtractUsing7za local;
        Installer.MoveFile local
          "C:/Users/u/AppData/Local\app-updater\package.7z"]
  /\ hd_error (tl (run None [local] "FFFFFF"))
     = Some (Installer.MessageBoxChecksumMismatch "app-1.0.0-x64.nsis.7z"
               "4D616E" "FFFFFF").
Proof.
  cbv zeta. split; [|split].
  - destruct (checksum_checked_only_for_selected_package Sample.webDefines
                (Sample.machine (Some "C:/Temp/update.7z")
                   ["C:/Temp/update.7z"] "FFFFFF")
                Sample.download Sample.fresh) as [Hexplicit _].
    destruct (Hexplicit "C:/Temp/update.7z") as [_ Hused];
      [reflexivity | discriminate |].
    rewrite (Hused eq_refl). reflexivity.
  - destruct (checksum_checked_only_for_selected_package Sample.webDefines
                (Sample.machine None ["C:/Downloads/app-1.0.0-x64.nsis.7z"]
                   "4d616e")
                Sample.download Sample.fresh) as [_ Hselected].
    destruct Hselected as (_ & Hequal & _); [reflexivity | reflexivity |].
    rewrite (Hequal eq_refl). reflexivity.
  - destruct (checksum_checked_only_for_selected_package Sample.webDefines
                (Sample.machine None ["C:/Downloads/app-1.0.0-x64.nsis.7z"]
                   "FFFFFF")
                Sample.download Sample.fresh) as [_ Hselected].
    destruct Hselected as (_ & _ & Hdiffers); [reflexivity | reflexivity |].
    rewrite (Hdiffers eq_refl). reflexivity.
Defined.

(** C8. For every architecture whose package was packed, with [sha512] the
    base64 text of a digest as the hashing collaborator supplies it: the
    hash define of the architecture is a string, and decoding it from
    hexadecimal and encoding the bytes as base64 gives [sha512] again. *)
Theorem defineHash_roundtrip
    (target : Target) (packager : Packager) (arch : Arch)
    (fileInfo : PackageFileInfo) (digest : Buffer.t) (s s' : State) :
  packArch packager arch = Some fileInfo ->
  pf_sha512 fileInfo = Buffer.toString_base64 digest ->
  packArchTask target packager arch s = (Ok tt, s') ->
  exists hash,
    Defines.get (archDefineKey arch ++ "_HASH") (defines s')
    = Some (Str hash)
    /\ hash = defineHash (pf_sha512 fileInfo)
    /\ Buffer.toString_base64 (Buffer.from_hex hash) = pf_sha512 fileInfo.
Proof.
  intros Hpack Hsha Hrun.
  exists (defineHash (pf_sha512 fileInfo)). split; [|split].
  - revert Hrun.
    apply (fun H : hoareOk (fun _ => True)
                     (packArchTask target packager arch)
                     (fun _ =>
                        defineIs (archDefineKey arch ++ "_HASH")
                          (Some (Str (defineHash (pf_sha512 fileInfo)))))
           => H s tt s' I).
    unfold packArchTask.
    eapply hoareOk_bind with (R := fun _ _ => True);
      [intros ? ? ? ? ?; exact I | intros _].
    rewrite Hpack. cbv zeta.
    do 2 (eapply hoareOk_bind with (R := fun _ _ => True);
          [intros ? ? ? ? ?; exact I | intros _]).
    eapply hoareOk_bind with
      (R := fun _ =>
              defineIs (archDefineKey arch ++ "_HASH")
                (Some (Str (defineHash (pf_sha512 fileInfo)))));
      [intros ? ? ? _ E; injection E as _ <-; apply get_set_same
      | intros _].
    apply hoareOk_preserves.
    destruct arch; walk keeps_define.
  - reflexivity.
  - rewrite Hsha. apply defineHash_decodes.
Qed.

Lemma defineHash_roundtrip_witness :
  let run := packArchTask (Sample.nsis Sample.noOptions) Sample.packager x64
               Sample.start in
  pf_sha512 (Sample.package x64) = Buffer.toString_base64 [x4d; x61; x6e]
  /\ Defines.get "APP_64_HASH" (defines (snd run)) = Some (Str "4D616E")
  /\ Buffer.toString_base64 (Buffer.from_hex "4D616E") = "TWFu".
Proof.
  cbv zeta.
  destruct (defineHash_roundtrip (Sample.nsis Sample.noOptions)
              Sample.packager x64 (Sample.package x64) [x4d; x61; x6e]
              Sample.start
              (snd (packArchTask (Sample.nsis Sample.noOptions)
                      Sample.packager x64 Sample.start)))
    as (hash & Hdefine & Hhash & Hround);
    [reflexivity | reflexivity | vm_compute; reflexivity |].
  subst hash. split; [reflexivity|]. split; [exact Hdefine | exact Hround].
Defined.

(* ===================================================================== *)
(** * Further properties *)
(* ===================================================================== *)

Lemma hoareOk_post {A} (P : State -> Prop) (m : M A)
      (Q Q' : A -> State -> Prop) :
  hoareOk P m Q' -> (forall a s, Q' a s -> Q a s) -> hoareOk P m Q.
Proof. intros H HQ s a s' Hs E. eapply HQ, H; eauto. Qed.

Lemma hoareOk_set K v w :
  hoareOk (defineIs K v) (setDefine TheDefines K w)
    (fun _ => defineIs K (Some w)).
Proof. intros s a s' _ E. injection E as _ <-. apply get_set_same. Qed.

Lemma hoareOk_when K v w c (m : M unit) :
  hoareOk (defineIs K v) m (fun _ => defineIs K w) ->
  hoareOk (defineIs K v) (when c m)
    (fun _ => defineIs K (if c then w else v)).
Proof.
  intros H. destruct c; [exact H|].
  intros s a s' Hs E. injection E as _ <-. exact Hs.
Qed.

Lemma hoareOk_use {A} K v (w : A -> option DefineValue) o (f : A -> M unit) :
  (forall x, hoareOk (defineIs K v) (f x) (fun _ => defineIs K (w x))) ->
  hoareOk (defineIs K v) (use o f)
    (fun _ => defineIs K (match o with Some x => w x | None => v end)).
Proof.
  intros H. destruct o; [apply H|].
  intros s a s' Hs E. injection E as _ <-. exact Hs.
Qed.

Lemma hoareOk_if K v w1 w2 (b : bool) (m1 m2 : M unit) :
  hoareOk (defineIs K v) m1 (fun _ => defineIs K w1) ->
  hoareOk (defineIs K v) m2 (fun _ => defineIs K w2) ->
  hoareOk (defineIs K v) (if b then m1 else m2)
    (fun _ => defineIs K (if b then w1 else w2)).
Proof. now destruct b. Qed.

Lemma hoareOk_bind_ret {A B} (P : State -> Prop) (a : A) (f : A -> M B) Q :
  hoareOk P (f a) Q -> hoareOk P (bind (ret a) f) Q.
Proof. intros H. exact H. Qed.

Lemma hoareOk_init K d :
  hoareOk (fun _ => True) (modify (set_defines d))
    (fun _ => defineIs K (Defines.get K d)).
Proof. intros s a s' _ E. injection E as _ <-. reflexivity. Qed.

Lemma hoareOk_any {A} (m : M A) : hoareOk (fun _ => True) m (fun _ _ => True).
Proof. intros s a s' _ _. exact I. Qed.

(** Writes below the calls of [buildInstaller] as well. *)
Ltac keeps_define_deep :=
  idtac;
  lazymatch goal with
  | |- preserves _ (configureDefinesForAllTypeOfInstaller _ _ _) =>
      unfold configureDefinesForAllTypeOfInstaller; walk keeps_define
  | |- preserves _ (packArchTask _ _ _) =>
      unfold packArchTask; walk keeps_define
  | |- preserves _ (configureDefines _ _ ?oc _) =>
      unfold configureDefines;
      lazymatch oc with
      | true => idtac
      | false => idtac
      | _ => destruct oc
      end;
      cbn [asyncTasks app forEach]; walk keeps_define
  | |- _ => keeps_define
  end.

(** The tasks of [configureDefines], whatever the mode. *)
Ltac keeps_define_asyncTasks :=
  lazymatch goal with
  | |- preserves ?P (forEach (asyncTasks ?t ?p ?oc ?d) ?f) =>
      let H := fresh in
      assert (H : forall b, preserves P (forEach (asyncTasks t p b d) f))
        by (intros [|]; cbn [asyncTasks app forEach]; walk keeps_define);
      apply H
  end.

(** Follow the define [K] along a computation: the steps that leave it
    alone keep what is known of it, a write replaces it. *)
Ltac track K :=
  lazymatch goal with
  | |- hoareOk _ (bind (ret _) _) _ =>
      apply hoareOk_bind_ret; cbv beta; track K
  | |- hoareOk _ (bind _ _) _ =>
      eapply hoareOk_bind; [track K | intros ?; cbv beta; track K]
  | |- hoareOk _ (setDefine TheDefines K _) _ => apply hoareOk_set
  | |- hoareOk _ (when _ _) _ =>
      first [ apply hoareOk_preserves; walk keeps_define_deep
            | apply hoareOk_when; track K ]
  | |- hoareOk _ (use _ _) _ =>
      first [ apply hoareOk_preserves; walk keeps_define_deep
            | apply hoareOk_use; intros ?; track K ]
  | |- hoareOk _ (if true then _ else _) _ => cbv iota; track K
  | |- hoareOk _ (if false then _ else _) _ => cbv iota; track K
  | |- hoareOk _ (if _ then _ else _) _ =>
      first [ apply hoareOk_preserves; walk keeps_define_deep
            | apply hoareOk_if; track K ]
  | |- hoareOk _ (configureDefines _ _ _ _) _ =>
      first [ apply hoareOk_preserves; walk keeps_define_deep
            | unfold configureDefines; track K ]
  | |- hoareOk _ (configureDefinesForAllTypeOfInstaller _ _ _) _ =>
      first [ apply hoareOk_preserves; walk keeps_define_deep
            | unfold configureDefinesForAllTypeOfInstaller; track K ]
  | |- hoareOk _ (forEach (asyncTasks _ _ _ _) _) _ =>
      apply hoareOk_preserves; keeps_define_asyncTasks
  | |- _ => apply hoareOk_preserves; walk keeps_define_deep
  end.


Section Strings.





End Strings.



Section Waiting.

Variable packager : Packager.

(** What [isBusy] leaves in the trace when the file is released after [k]
    rounds: the message is logged where the file is found busy for the
    first time. *)
Lemma isBusy_trace k :
  forall patience outFile wasBusyBefore s,
    k <= patience ->
    (forall i, i < k -> openOutFile packager (opens s + i) = OpenEBUSY) ->
    openOutFile packager (opens s + k) <> OpenEBUSY ->
    isBusy packager patience outFile wasBusyBefore s
    = (Ok true,
       set_opens (opens s + k + 1)
         (set_trace
            (trace s ++
             FsOpen outFile ::
             match k with
             | O => []
             | S _ =>
                 (if wasBusyBefore then [] else [LogInfo lockedMessage])
                 ++ retries outFile k
             end)%list s)).
Proof.
  induction k as [|k IH]; intros patience outFile b s Hle Hbusy Hfree;
    destruct s as [d c du cu e pf ar q fs o t]; cbn [opens] in Hbusy, Hfree;
    rewrite isBusy_round; cbv zeta; unfold set_opens, set_trace;
    cbn [opens trace defines commands definesUninstaller
         commandsUninstaller estimatedSize packageFiles archs
         buildQueue files].
  - rewrite Nat.add_0_r in Hfree.
    replace (o + 0 + 1) with (S o) by lia.
    destruct (openOutFile packager o); [now destruct Hfree| |];
      reflexivity.
  - assert (H0 : openOutFile packager o = OpenEBUSY).
    { rewrite <- (Nat.add_0_r o). apply Hbusy. lia. }
    rewrite H0.
    destruct patience as [|patience]; [lia|].
    assert (Hbusy' : forall i, i < k ->
              openOutFile packager (S o + i) = OpenEBUSY).
    { intros i Hi. replace (S o + i) with (o + S i) by lia.
      apply Hbusy. lia. }
    assert (Hfree' : openOutFile packager (S o + k) <> OpenEBUSY).
    { replace (S o + k) with (o + S k) by lia. exact Hfree. }
    destruct b;
      cbn [opens trace defines commands definesUninstaller
           commandsUninstaller estimatedSize packageFiles archs
           buildQueue files];
      (rewrite (IH patience outFile true);
       [ unfold set_opens, set_trace;
         cbn [opens trace defines commands definesUninstaller
              commandsUninstaller estimatedSize packageFiles archs
              buildQueue files];
         (f_equal; f_equal; [lia|]);
         destruct k; cbn [retries app]; rewrite <- ?app_assoc;
         reflexivity
       | lia | exact Hbusy' | exact Hfree' ]).
Qed.

End Waiting.

(** X2. The wait for the output file, event by event. If the file is busy
    for the first [k] attempts and then opens, or fails to open for any
    other reason, [ensureNotBusy] returns having opened the file [k + 1]
    times with a delay of 2000 ms before each retry; the message about
    the lock is logged once, after the first busy attempt, and never when
    the first attempt is not busy. An error other than [EBUSY] is not
    reported. *)
Theorem ensureNotBusy_events
    (packager : Packager) (outFile : string) (k patience : nat) (s : State) :
  k <= patience ->
  (forall i, i < k -> openOutFile packager (opens s + i) = OpenEBUSY) ->
  openOutFile packager (opens s + k) <> OpenEBUSY ->
  ensureNotBusy packager patience outFile s
  = (Ok tt,
     set_opens (opens s + k + 1)
       (set_trace (trace s ++ waitEvents outFile k)%list s)).
Proof.
  intros Hle Hbusy Hfree. unfold ensureNotBusy, bind.
  rewrite (isBusy_trace packager k patience outFile false s Hle Hbusy Hfree).
  unfold ret, waitEvents. destruct k; reflexivity.
Qed.

Lemma ensureNotBusy_events_witness :
  ensureNotBusy (Sample.packagerBusyFor 2) 5 "dist/App Setup 1.0.0.exe"
    Sample.start
  = (Ok tt,
     set_opens 3
       (set_trace
          [FsOpen "dist/App Setup 1.0.0.exe"; LogInfo lockedMessage;
           SetTimeout 2000; FsOpen "dist/App Setup 1.0.0.exe";
           SetTimeout 2000; FsOpen "dist/App Setup 1.0.0.exe"]
          Sample.start)).
Proof.
  apply (ensureNotBusy_events (Sample.packagerBusyFor 2)
           "dist/App Setup 1.0.0.exe" 2 5 Sample.start).
  - lia.
  - intros i Hi. destruct i as [|[|i]]; [reflexivity | reflexivity | lia].
  - discriminate.
Defined.

Section Polling.

Variable packager : Packager.

Local Arguments polls : simpl never.

Lemma polls_app a b : polls (a ++ b)%list = polls a + polls b.
Proof. unfold polls. now rewrite filter_app, length_app. Qed.

Lemma waitForUninstaller_returns left :
  forall i uninstallerPath s,
    let r := waitForUninstaller packager left i uninstallerPath s in
    fst r = Ok tt
    /\ polls (trace (snd r)) <= polls (trace s) + left
    /\ (fileExists uninstallerPath s = true -> snd r = s).
Proof.
  induction left as [|left IH]; intros i p s; cbv zeta;
    cbn [waitForUninstaller]; unfold bind, gets, ret, writeFile, modify, emit.
  - destruct (fileExists p s) eqn:E; cbn.
    + repeat split; try lia; try congruence.
    + destruct (vmUninstallerExists packager i); cbn; rewrite ?E;
        unfold set_files; cbn [trace];
        repeat split; try lia; try congruence.
  - destruct (fileExists p s) eqn:E; cbn.
    + repeat split; try lia; try congruence.
    + destruct (vmUninstallerExists packager i); cbn; rewrite ?E; cbn.
      * unfold set_files; cbn [trace];
          repeat split; try lia; try congruence.
      * match goal with
        | |- context [waitForUninstaller packager left (S i) p ?s1] =>
            destruct (IH (S i) p s1) as (H1 & H2 & _);
            destruct (waitForUninstaller packager left (S i) p s1)
              as [r s2]
        end.
        cbn [fst snd] in *. subst r. cbn [fst snd].
        unfold set_trace in H2; cbn [trace] in H2.
        rewrite polls_app in H2.
        change (polls [SetTimeout 300]) with 1 in H2.
        repeat split; try lia; try congruence.
Qed.

Lemma waitForUninstaller_absent left :
  forall i uninstallerPath s,
    fileExists uninstallerPath s = false ->
    (forall j, vmUninstallerExists packager j = false) ->
    let r := waitForUninstaller packager left i uninstallerPath s in
    polls (trace (snd r)) = polls (trace s) + left
    /\ fileExists uninstallerPath (snd r) = false.
Proof.
  induction left as [|left IH]; intros i p s E Hnever; cbv zeta;
    cbn [waitForUninstaller]; unfold bind, gets, ret, writeFile, modify, emit;
    rewrite E, Hnever; cbn.
  - split; [lia | exact E].
  - match goal with
    | |- context [waitForUninstaller packager left (S i) p ?s1] =>
        destruct (IH (S i) p s1) as (H1 & H2); [exact E | exact Hnever |]
    end.
    unfold set_trace at 2 in H1; cbn [trace] in H1.
    rewrite H1, H2, polls_app. change (polls [SetTimeout 300]) with 1.
    split; [lia | reflexivity].
Qed.

End Polling.

(** X3. After the installer stub was run in the virtual machine, the wait
    for the uninstaller always ends without an error: the file is looked
    for at most [left + 1] times with a delay of 300 ms in between (the
    code starts it with [left = 100]), and nothing is awaited when the
    file is already there. If the file never appears, all [left] delays
    are spent and the wait still returns, the file missing. *)
Theorem waitForUninstaller_is_bounded
    (packager : Packager) (left i : nat) (uninstallerPath : string)
    (s : State) :
  let r := waitForUninstaller packager left i uninstallerPath s in
  fst r = Ok tt
  /\ polls (trace (snd r)) <= polls (trace s) + left
  /\ (fileExists uninstallerPath s = true -> snd r = s)
  /\ (fileExists uninstallerPath s = false ->
      (forall j, vmUninstallerExists packager j = false) ->
      polls (trace (snd r)) = polls (trace s) + left
      /\ fileExists uninstallerPath (snd r) = false).
Proof.
  cbv zeta.
  destruct (waitForUninstaller_returns packager left i uninstallerPath s)
    as (H1 & H2 & H3).
  repeat split; try assumption;
    now apply waitForUninstaller_absent.
Qed.

Lemma waitForUninstaller_is_bounded_witness :
  let r := waitForUninstaller Cases.packagerWithoutUninstaller 100 0
             "dist/App Setup 1.0.0.__uninstaller.exe" Sample.start in
  fst r = Ok tt
  /\ polls (trace (snd r)) = 100
  /\ fileExists "dist/App Setup 1.0.0.__uninstaller.exe" (snd r) = false.
Proof.
  cbv zeta.
  destruct (waitForUninstaller_is_bounded Cases.packagerWithoutUninstaller
              100 0 "dist/App Setup 1.0.0.__uninstaller.exe" Sample.start)
    as (Hreturns & _ & _ & Hmissing).
  split; [exact Hreturns|].
  apply Hmissing; [reflexivity | intros j; reflexivity].
Defined.

(** X4. The unpacked size of a package is handed to the installer in
    whole KiB, rounded up: for every architecture whose package was
    packed, the size define is the decimal text of the least number of
    KiB that holds the unpacked size. *)
Theorem unpacked_size_is_rounded_up
    (target : Target) (packager : Packager) (arch : Arch)
    (fileInfo : PackageFileInfo) (s s' : State) :
  packArch packager arch = Some fileInfo ->
  packArchTask target packager arch s = (Ok tt, s') ->
  exists kib,
    Defines.get (archDefineKey arch ++ "_UNPACKED_SIZE") (defines s')
    = Some (Str (Str.ofZ kib))
    /\ (1024 * (kib - 1) < pf_unpackedSize fileInfo <= 1024 * kib)%Z.
Proof.
  intros Hpack Hrun.
  exists (ceilDiv1024 (pf_unpackedSize fileInfo)). split.
  - revert Hrun.
    apply (fun H : hoareOk (fun _ => True)
                     (packArchTask target packager arch)
                     (fun _ =>
                        defineIs (archDefineKey arch ++ "_UNPACKED_SIZE")
                          (Some (Str (Str.ofZ
                             (ceilDiv1024 (pf_unpackedSize fileInfo))))))
           => H s tt s' I).
    unfold packArchTask.
    eapply hoareOk_bind; [apply hoareOk_any | intros ?; cbv beta].
    rewrite Hpack. cbv zeta.
    do 3 (eapply hoareOk_bind; [apply hoareOk_any | intros ?; cbv beta]).
    eapply hoareOk_bind with
      (R := fun _ =>
              defineIs (archDefineKey arch ++ "_UNPACKED_SIZE")
                (Some (Str (Str.ofZ
                   (ceilDiv1024 (pf_unpackedSize fileInfo))))));
      [intros ? ? ? _ E; injection E as _ <-; apply get_set_same
      | intros ?; cbv beta].
    apply hoareOk_preserves.
    destruct arch; walk keeps_define.
  - unfold ceilDiv1024.
    pose proof (Z.div_mod (pf_unpackedSize fileInfo + 1023) 1024).
    pose proof (Z.mod_pos_bound (pf_unpackedSize fileInfo + 1023) 1024).
    lia.
Qed.

Lemma unpacked_size_is_rounded_up_witness :
  let run := packArchTask (Sample.nsis Sample.noOptions) Sample.packager x64
               Sample.start in
  exists kib,
    Defines.get "APP_64_UNPACKED_SIZE" (defines (snd run))
    = Some (Str (Str.ofZ kib))
    /\ (1024 * (kib - 1) < 1025 <= 1024 * kib)%Z.
Proof.
  cbv zeta.
  apply (unpacked_size_is_rounded_up (Sample.nsis Sample.noOptions)
           Sample.packager x64 (Sample.package x64) Sample.start
           (snd (packArchTask (Sample.nsis Sample.noOptions) Sample.packager
                   x64 Sample.start)));
    reflexivity.
Defined.

Section Hexadecimal.

Import Buffer.

Lemma toString_hex_upper bs :
  allChars isUpperHex (Js.toUpperCase (toString_hex bs)) = true
  /\ String.length (Js.toUpperCase (toString_hex bs)) = 2 * length bs.
Proof.
  induction bs as [|a l [IH1 IH2]]; [split; reflexivity|].
  cbn [toString_hex Js.toUpperCase allChars String.length length].
  rewrite IH1, IH2. split; [destruct a; reflexivity | lia].
Qed.

End Hexadecimal.

(** X5. The hash define is a hexadecimal string whatever the text it is
    computed from: only the digits [0-9] and [A-F] occur in it, two for
    every byte that the base64 decoder yields; for the base64 text of a
    digest that is two for every byte of the digest. *)
Theorem defineHash_is_upper_hex (sha512 : string) (digest : Buffer.t) :
  allChars isUpperHex (defineHash sha512) = true
  /\ String.length (defineHash sha512)
     = 2 * length (Buffer.from_base64 sha512)
  /\ String.length (defineHash (Buffer.toString_base64 digest))
     = 2 * length digest.
Proof.
  unfold defineHash. rewrite from_base64_toString.
  repeat split; apply toString_hex_upper.
Qed.

Lemma endsWith_refl s : Js.endsWith s s = true.
Proof.
  destruct s; cbn [Js.endsWith]; now rewrite String.eqb_refl.
Qed.

Lemma endsWith_app p s suffix :
  Js.endsWith s suffix = true -> Js.endsWith (p ++ s) suffix = true.
Proof.
  intros H. induction p as [|c p IH]; [exact H|].
  cbn [append Js.endsWith]. rewrite IH. apply orb_true_r.
Qed.

Lemma dotted_starts_with_dot it : Js.startsWith "." (dotted it) = true.
Proof.
  unfold dotted. destruct (Js.startsWith "." it) eqn:E; [exact E|].
  reflexivity.
Qed.

(** X6. The file extensions that are left out of the application archive.
    A web installer leaves nothing out, and neither does a target without
    the option. Otherwise there is one pattern for each extension of the
    option, in its order, and each pattern is [*.] followed by the
    extension: an extension may be given with or without its dot. *)
Theorem archive_excludes_dotted_extensions
    (target : Target) (value : option StringOrArray) :
  match archiveExcluded target value with
  | None => isWebInstaller target = true \/ value = None
  | Some patterns =>
      isWebInstaller target = false
      /\ Forall (fun pattern => Js.startsWith "*." pattern = true) patterns
      /\ exists v,
           value = Some v
           /\ length patterns = length (asArray v)
           /\ forall extension,
                In extension (asArray v) ->
                In (if Js.startsWith "." extension
                    then "*" ++ extension
                    else "*." ++ extension) patterns
  end.
Proof.
  unfold archiveExcluded, getPreCompressedFileExtensions.
  destruct (isWebInstaller target); [now left|].
  destruct value as [v|]; [|now right].
  split; [reflexivity|]. split.
  - apply Forall_forall. intros pattern Hin.
    apply in_map_iff in Hin as (extension & <- & Hin).
    apply in_map_iff in Hin as (it & <- & _).
    exact (dotted_starts_with_dot it).
  - exists v. split; [reflexivity|]. split; [now rewrite !length_map|].
    intros extension Hin.
    apply in_map_iff. exists (dotted extension). split.
    + unfold dotted. now destruct (Js.startsWith "." extension).
    + apply in_map_iff. now exists extension.
Qed.

(** X7. The application is archived as zip only when [useZip] is set and
    the build is not differential aware, that is for the portable target
    or with [differentialPackage] set to [false]; in every other case the
    archive is 7z, whatever [useZip] says. The name of the archive ends
    with the format. *)
Theorem archive_is_zip_only_without_differential
    (target : Target) (packager : Packager) (sanitizedName : string)
    (arch : Arch) :
  (archiveFormat target = "zip"
   <-> useZip (options target) = Some true
       /\ (isPortable target = true
           \/ differentialPackage (options target) = Some false))
  /\ (archiveFormat target = "zip" \/ archiveFormat target = "7z")
  /\ Js.endsWith (archiveFile target packager sanitizedName arch)
       (Arch_name arch ++ ".nsis." ++ archiveFormat target) = true.
Proof.
  split; [|split].
  - unfold archiveFormat, isBuildDifferentialAware, Js.truthy, Js.is_true,
      Js.not_false, Js.is_false.
    destruct (isPortable target), (useZip (options target)) as [[|]|],
      (differentialPackage (options target)) as [[|]|]; cbn;
      split; try discriminate; try tauto;
      intros [H [H'|H']]; discriminate.
  - unfold archiveFormat.
    destruct (negb _ && _); [now left | now right].
  - unfold archiveFile, Str.join.
    do 6 apply endsWith_app. apply endsWith_refl.
Qed.

(** The define [K] after a [buildInstaller] that returned, from the
    hypothesis [Hrun] of the run; [known] rewrites with what is known of
    the configuration. What [track] found is left to be read as the
    goal. *)
Ltac defined_by_buildInstaller K Hrun known :=
  lazymatch type of Hrun with
  | buildInstaller ?t ?p ?a ?s = (Ok tt, ?s') =>
      lazymatch goal with
      | |- Defines.get K (defines s') = ?v =>
          revert Hrun;
          apply (fun H : hoareOk (fun _ => True) (buildInstaller t p a)
                           (fun _ => defineIs K v)
                 => H s tt s' I);
          eapply hoareOk_post;
          [ unfold buildInstaller, configureDefines; cbv zeta; known; cbv iota;
            eapply hoareOk_bind; [apply hoareOk_any | intros ?; cbv beta];
            eapply hoareOk_bind;
              [apply (hoareOk_init K) | intros ?; cbv beta];
            track K
          | let H := fresh "H" in
            intros ? ? H; unfold defineIs in H |- *; rewrite H; clear H ]
      end
  end.

(** X8. The defines that tell the installer its mode, for a target that
    is not portable. A one-click installer has [ONE_CLICK] and runs the
    application after the installation unless [runAfterFinish] is
    [false]; an assisted installer has neither define, hides the
    run-after-finish choice exactly when [runAfterFinish] is [false], and
    always requires the choice of the installation mode. The two
    run-after-finish defines are never present together. *)
Theorem installer_mode_defines
    (target : Target) (packager : Packager) (archs : ArchMap)
    (s s' : State) :
  isPortable target = false ->
  buildInstaller target packager archs s = (Ok tt, s') ->
  let opts := options target in
  let oneClick := Js.not_false (oneClick opts) in
  let flag (b : bool) := if b then Some Flag else None in
  Defines.get "ONE_CLICK" (defines s') = flag oneClick
  /\ Defines.get "RUN_AFTER_FINISH" (defines s')
     = flag (oneClick && Js.not_false (runAfterFinish opts))
  /\ Defines.get "HIDE_RUN_AFTER_FINISH" (defines s')
     = flag (negb oneClick && Js.is_false (runAfterFinish opts))
  /\ Defines.get "INSTALL_MODE_PER_ALL_USERS_REQUIRED" (defines s')
     = flag (negb oneClick || Js.is_true (perMachine opts))
  /\ Defines.get "INSTALL_MODE_PER_ALL_USERS" (defines s')
     = flag (Js.is_true (perMachine opts)).
Proof.
  intros Hportable Hrun opts oneClick flag.
  subst opts oneClick flag. cbv beta.
  repeat split.
  - defined_by_buildInstaller "ONE_CLICK" Hrun ltac:(idtac; rewrite ?Hportable).
    now destruct (Js.not_false (oneClick (options target))).
  - defined_by_buildInstaller "RUN_AFTER_FINISH" Hrun ltac:(idtac; rewrite ?Hportable).
    now destruct (Js.not_false (oneClick (options target))),
      (Js.not_false (runAfterFinish (options target))).
  - defined_by_buildInstaller "HIDE_RUN_AFTER_FINISH" Hrun ltac:(idtac; rewrite ?Hportable).
    now destruct (Js.not_false (oneClick (options target))),
      (Js.is_false (runAfterFinish (options target))).
  - defined_by_buildInstaller "INSTALL_MODE_PER_ALL_USERS_REQUIRED" Hrun
      ltac:(idtac; rewrite ?Hportable).
    now destruct (Js.not_false (oneClick (options target))),
      (Js.is_true (perMachine (options target))).
  - defined_by_buildInstaller "INSTALL_MODE_PER_ALL_USERS" Hrun ltac:(idtac; rewrite ?Hportable).
    now destruct (Js.not_false (oneClick (options target))),
      (Js.is_true (perMachine (options target))).
Qed.

Lemma installer_mode_defines_witness :
  let s' := snd (buildInstaller (Sample.nsis Sample.assistedPerMachine)
                   Sample.packager Sample.x64Only Sample.start) in
  Defines.get "ONE_CLICK" (defines s') = None
  /\ Defines.get "RUN_AFTER_FINISH" (defines s') = None
  /\ Defines.get "HIDE_RUN_AFTER_FINISH" (defines s') = None
  /\ Defines.get "INSTALL_MODE_PER_ALL_USERS_REQUIRED" (defines s')
     = Some Flag
  /\ Defines.get "INSTALL_MODE_PER_ALL_USERS" (defines s') = Some Flag.
Proof.
  cbv zeta.
  apply (installer_mode_defines (Sample.nsis Sample.assistedPerMachine)
           Sample.packager Sample.x64Only Sample.start);
    [reflexivity | vm_compute; reflexivity].
Defined.

(** X9. The defines of the portable target. The execution level that is
    requested is the option, [user] when it is not set. The directory to
    unpack into is the option when it is a name, no define at all when
    the option is [true], and a fresh unique name otherwise. None of the
    defines of the installer modes is computed: [configureDefines] is not
    run for this target, and the icon is given to the compiler as a
    command, not as a define. *)
Theorem portable_defines
    (target : Target) (packager : Packager) (archs : ArchMap)
    (s s' : State) :
  isPortable target = true ->
  buildInstaller target packager archs s = (Ok tt, s') ->
  let opts := options target in
  Defines.get "REQUEST_EXECUTION_LEVEL" (defines s')
  = Some (Str (orElse (requestExecutionLevel opts) "user"))
  /\ Defines.get "UNPACK_DIR_NAME" (defines s')
     = match unpackDirName opts with
       | UdnBool true => None
       | UdnStr (String c n) => Some (Str (String c n))
       | _ => Some (Str (ksuid packager))
       end
  /\ Defines.get "ONE_CLICK" (defines s') = None
  /\ Defines.get "INSTALL_MODE_PER_ALL_USERS_REQUIRED" (defines s') = None
  /\ Defines.get "UNINSTALL_DISPLAY_NAME" (defines s') = None
  /\ Defines.get "MUI_ICON" (defines s') = None.
Proof.
  intros Hportable Hrun opts. subst opts.
  repeat split.
  - defined_by_buildInstaller "REQUEST_EXECUTION_LEVEL" Hrun ltac:(idtac; rewrite ?Hportable).
    reflexivity.
  - destruct (unpackDirName (options target)) as [|[|]|[|c n]] eqn:Hdir.
    all: defined_by_buildInstaller "UNPACK_DIR_NAME" Hrun
           ltac:(idtac; rewrite ?Hportable, ?Hdir).
    all: reflexivity.
  - defined_by_buildInstaller "ONE_CLICK" Hrun ltac:(idtac; rewrite ?Hportable). reflexivity.
  - defined_by_buildInstaller "INSTALL_MODE_PER_ALL_USERS_REQUIRED" Hrun
      ltac:(idtac; rewrite ?Hportable).
    reflexivity.
  - defined_by_buildInstaller "UNINSTALL_DISPLAY_NAME" Hrun ltac:(idtac; rewrite ?Hportable).
    reflexivity.
  - defined_by_buildInstaller "MUI_ICON" Hrun ltac:(idtac; rewrite ?Hportable). reflexivity.
Qed.

Lemma portable_defines_witness :
  let s' := snd (buildInstaller (Cases.portable Cases.portableOptions)
                   Sample.packager Sample.x64Only Sample.start) in
  Defines.get "REQUEST_EXECUTION_LEVEL" (defines s') = Some (Str "admin")
  /\ Defines.get "UNPACK_DIR_NAME" (defines s') = Some (Str "app-portable")
  /\ Defines.get "ONE_CLICK" (defines s') = None
  /\ Defines.get "INSTALL_MODE_PER_ALL_USERS_REQUIRED" (defines s') = None
  /\ Defines.get "UNINSTALL_DISPLAY_NAME" (defines s') = None
  /\ Defines.get "MUI_ICON" (defines s') = None.
Proof.
  cbv zeta.
  apply (portable_defines (Cases.portable Cases.portableOptions)
           Sample.packager Sample.x64Only Sample.start);
    [reflexivity | vm_compute; reflexivity].
Defined.

Section QueuedTask.

Variable target : Target.
Variable packager : Packager.

(** What [buildInstaller] adds to a build queue [q]. *)
Lemma buildInstaller_task archs q :
  hoareOk (onQueue (eq q)) (buildInstaller target packager archs)
    (fun _ s' =>
       match effectiveOptionComputed packager with
       | Some true => buildQueue s' = q
       | _ =>
           exists t,
             buildQueue s' = (q ++ [t])%list
             /\ t_archs t = archs
             /\ t_primaryArch t
                = match archs with [(arch, _)] => Some arch | _ => None end
             /\ t_installerPath t
                = Str.join (outDir target)
                    (expandArtifactNamePattern packager (t_primaryArch t))
             /\ t_defines t = defines s'
             /\ t_commands t = commands s'
             /\ t_definesUninstaller t
                = match shortVersion (appInfo packager) with
                  | Some v => Defines.set "VERSION" (Str v) (defines s')
                  | None => defines s'
                  end
       end).
Proof.
  unfold buildInstaller, packArchTask, configureDefinesForAllTypeOfInstaller;
    cbv zeta.
  repeat lazymatch goal with
         | |- hoareOk _ (bind _ _) _ =>
             eapply hoareOk_bind;
             [ apply hoareOk_preserves;
               walk ltac:(first [ apply configureDefines_keeps_queue
                                | keeps_queue ])
             | intros ? ]
         end.
  destruct (effectiveOptionComputed packager) as [[|]|].
  - intros s0 ? s1 Hq E. injection E as _ <-. symmetry. exact Hq.
  - intros s0 ? s1 Hq E. unfold onQueue in Hq. subst q.
    unfold bind, gets, modify, use, setDefine, setCommand in E.
    destruct (shortVersion (appInfo packager)); cbn in E;
      injection E as _ <-; cbn; eexists; repeat split.
  - intros s0 ? s1 Hq E. unfold onQueue in Hq. subst q.
    unfold bind, gets, modify, use, setDefine, setCommand in E.
    destruct (shortVersion (appInfo packager)); cbn in E;
      injection E as _ <-; cbn; eexists; repeat split.
Qed.

End QueuedTask.

(** X10. What a build of an installer leaves in the build queue. Unless
    the hook [effectiveOptionComputed] asks to stop, in which case the
    queue is as before, exactly one task is added at its end. The task is
    for the architectures of the build and compiles the installer from
    the tables as they are when [buildInstaller] returns. The defines
    that it keeps for the uninstaller are the same, but for [VERSION],
    which is the short version of the application when there is one. *)
Theorem buildInstaller_queues_one_task
    (target : Target) (packager : Packager) (archs : ArchMap)
    (s s' : State) :
  buildInstaller target packager archs s = (Ok tt, s') ->
  match effectiveOptionComputed packager with
  | Some true => buildQueue s' = buildQueue s
  | _ =>
      exists t,
        buildQueue s' = (buildQueue s ++ [t])%list
        /\ t_archs t = archs
        /\ t_installerPath t
           = Str.join (outDir target)
               (expandArtifactNamePattern packager
                  match archs with [(arch, _)] => Some arch | _ => None end)
        /\ t_defines t = defines s'
        /\ t_commands t = commands s'
        /\ (forall K,
              String.eqb K "VERSION" = false ->
              Defines.get K (t_definesUninstaller t)
              = Defines.get K (t_defines t))
        /\ Defines.get "VERSION" (t_defines t)
           = Some (Str (version (appInfo packager)))
        /\ Defines.get "VERSION" (t_definesUninstaller t)
           = Some (Str match shortVersion (appInfo packager) with
                       | Some v => v
                       | None => version (appInfo packager)
                       end)
  end.
Proof.
  intros Hrun.
  assert (Hversion : Defines.get "VERSION" (defines s')
                     = Some (Str (version (appInfo packager)))).
  { defined_by_buildInstaller "VERSION" Hrun ltac:(idtac).
    now destruct (isPortable target). }
  pose proof (buildInstaller_task target packager archs (buildQueue s)
                s tt s' eq_refl Hrun) as Htask.
  destruct (effectiveOptionComputed packager) as [[|]|]; [exact Htask| |];
    destruct Htask as (t & Hq & Harchs & Hprimary & Hpath & Hd & Hc & Hu);
    exists t; rewrite Hu, Hd, <- Hprimary;
    (repeat split; try assumption;
     [ intros K HK; destruct (shortVersion (appInfo packager));
       [apply get_set_other; exact HK | reflexivity]
     | destruct (shortVersion (appInfo packager));
       [apply get_set_same | exact Hversion] ]).
Qed.

Lemma buildInstaller_queues_one_task_witness :
  let s' := snd (buildInstaller (Sample.nsis Sample.noOptions)
                   Sample.packager Sample.x64Only Sample.start) in
  exists t,
    buildQueue s' = [t]
    /\ t_archs t = Sample.x64Only
    /\ t_installerPath t = "dist/App Setup 1.0.0-x64.exe"
    /\ t_defines t = defines s'
    /\ t_commands t = commands s'
    /\ (forall K,
          String.eqb K "VERSION" = false ->
          Defines.get K (t_definesUninstaller t)
          = Defines.get K (t_defines t))
    /\ Defines.get "VERSION" (t_defines t) = Some (Str "1.0.0")
    /\ Defines.get "VERSION" (t_definesUninstaller t) = Some (Str "1.0.0").
Proof.
  cbv zeta.
  apply (buildInstaller_queues_one_task (Sample.nsis Sample.noOptions)
           Sample.packager Sample.x64Only Sample.start).
  vm_compute. reflexivity.
Defined.



(** An event that is no announcement of a build, and a write to the
    tables or to the files, keep the builds announced so far. *)
Ltac keeps_started :=
  unfold setDefine, deleteDefine, setCommand, emit, writeFile;
  apply preserves_modify; unfold startedAre, started;
  let s := fresh "s" in
  let H := fresh "H" in
  intros s H;
  repeat match goal with r : DefinesRef |- _ => destruct r end;
  repeat match goal with r : CommandsRef |- _ => destruct r end;
  repeat match goal with
         | |- context [if ?b then _ else _] => destruct b
         end;
  cbn; try rewrite filter_app; cbn; try rewrite app_nil_r;
  exact H.

Section SeparateInstallers.

Variable target : Target.
Variable packager : Packager.
Variable patience : nat.

Lemma isBusy_keeps_started l outFile :
  forall n wasBusyBefore,
    preserves (startedAre l) (isBusy packager n outFile wasBusyBefore).
Proof.
  induction n as [|n IH]; intros b; cbn [isBusy]; unfold fsOpen;
    walk ltac:(first [apply IH | keeps_started]).
Qed.

Lemma waitForUninstaller_keeps_started l uninstallerPath :
  forall left i,
    preserves (startedAre l)
      (waitForUninstaller packager left i uninstallerPath).
Proof.
  induction left as [|left IH]; intros i; cbn [waitForUninstaller];
    walk ltac:(first [apply IH | keeps_started]).
Qed.

Lemma runTask_keeps_started l t :
  preserves (startedAre l) (runTask target packager patience t).
Proof.
  unfold runTask, computeScriptAndSignUninstaller, executeMakensis,
    ensureNotBusy, signFile, unlink; cbv zeta.
  walk ltac:(first [ apply isBusy_keeps_started
                   | apply waitForUninstaller_keeps_started
                   | keeps_started ]).
Qed.

Lemma runTasks_keep_started l tasks :
  preserves (startedAre l) (runTasks target packager patience tasks).
Proof.
  induction tasks as [|t tasks IH]; cbn [runTasks].
  - apply preserves_ret.
  - apply preserves_both; [apply runTask_keeps_started | exact IH].
Qed.

End SeparateInstallers.

(** X12. Separate installers, with [buildUniversalInstaller] set to
    [false]. Every call of [build] that returns has built the installer
    of its architecture alone: one task is added to the queue, for that
    architecture (none when the hook [effectiveOptionComputed] asks to
    stop). Finishing the build then announces no further installer,
    whatever the tasks of the queue do. *)
Theorem separate_installers_are_built_by_build
    (target : Target) (packager : Packager) (patience : nat) :
  buildUniversalInstaller (options target) = Some false ->
  (forall appOutDir arch s s',
     build target packager appOutDir arch s = (Ok tt, s') ->
     match effectiveOptionComputed packager with
     | Some true => buildQueue s' = buildQueue s
     | _ =>
         exists t,
           buildQueue s' = (buildQueue s ++ [t])%list
           /\ t_archs t = [(arch, appOutDir)]
           /\ t_primaryArch t = Some arch
     end)
  /\ (forall s,
        started (trace (snd (finishBuild target packager patience s)))
        = started (trace s)).
Proof.
  intros Hseparate.
  assert (Huniversal : shouldBuildUniversalInstaller target = false).
  { unfold shouldBuildUniversalInstaller. now rewrite Hseparate. }
  split.
  - intros appOutDir arch s s'. unfold build. rewrite Huniversal.
    cbn [negb]. unfold bind at 1, modify. intros Hrun.
    pose proof (buildInstaller_task target packager
                  (ArchMap.singleton arch appOutDir) (buildQueue s)
                  (set_archs (ArchMap.set arch appOutDir (archs s)) s)
                  tt s' eq_refl Hrun) as Htask.
    destruct (effectiveOptionComputed packager) as [[|]|];
      [exact Htask| |];
      destruct Htask as (t & Hq & Harchs & Hprimary & _);
      exists t; repeat split; assumption.
  - intros s.
    apply (fun H : preserves (startedAre (started (trace s)))
                     (finishBuild target packager patience)
           => H s eq_refl).
    unfold finishBuild. rewrite Huniversal. cbn [negb].
    unfold superFinishBuild, packageHelperFinishBuild.
    walk ltac:(first [apply runTasks_keep_started | keeps_started]).
Qed.

Lemma separate_installers_are_built_by_build_witness :
  let target := Sample.nsis Cases.separateInstallers in
  (exists t,
     buildQueue (snd (build target Sample.packager "dist/win-unpacked" x64
                        Sample.start)) = [t]
     /\ t_archs t = [(x64, "dist/win-unpacked")]
     /\ t_primaryArch t = Some x64)
  /\ started (trace (snd (finishBuild target Sample.packager 0
                            Sample.start))) = [].
Proof.
  cbv zeta.
  destruct (separate_installers_are_built_by_build
              (Sample.nsis Cases.separateInstallers) Sample.packager 0
              eq_refl) as [Hbuild Hfinish].
  split.
  - apply (Hbuild "dist/win-unpacked" x64 Sample.start).
    vm_compute. reflexivity.
  - apply Hfinish.
Defined.

Lemma bind_modify {B} (f : State -> State) (k : unit -> M B) s :
  bind (modify f) k s = k tt (f s).
Proof. reflexivity. Qed.

Lemma bind_ret {A B} (a : A) (k : A -> M B) s : bind (ret a) k s = k a s.
Proof. reflexivity. Qed.

Lemma set_In k v d : In (k, v) (Defines.set k v d).
Proof.
  induction d as [|[k' v'] d IH]; cbn; [now left|].
  destruct (String.eqb k k') eqn:E.
  - apply String.eqb_eq in E. subst k'. now left.
  - now right.
Qed.

(** A flag is handed to the compiler by its name alone. *)
Lemma makensisArgs_flag target k d c :
  In (k, Flag) d -> In ("-D" ++ k) (makensisArgs target d c).
Proof.
  intros H. unfold makensisArgs.
  apply in_or_app. right. apply in_or_app. right.
  apply in_or_app. left.
  apply in_map_iff. exists (k, Flag). now split.
Qed.

(** X13. The task of a portable build. When the output file is not busy
    the compiler is run once, on the portable script: no uninstaller is
    compiled or signed, the define [UNINSTALLER_OUT_FILE] is handed to the
    compiler as a flag without a value, and nothing is unlinked. The
    installer is signed after a successful compiler run and published
    once it is signed. *)
Theorem portable_task_compiles_once
    (target : Target) (packager : Packager) (patience : nat) (t : Task)
    (quoted : string) (s : State) :
  isPortable target = true ->
  Commands.get "OutFile" (t_commands t) = Some (Scalar quoted) ->
  Defines.get "UNINSTALLER_OUT_FILE" (t_definesUninstaller t) = None ->
  openOutFile packager (opens s) <> OpenEBUSY ->
  let outFile := Str.replaceAll "034"%char EmptyString quoted in
  let script :=
    sharedHeader packager
    ++ computeFinalScript packager
         (readFile packager
            (Str.join (nsisTemplatesDir packager) "portable.nsi"))
         true (t_archs t) in
  let args :=
    makensisArgs target
      (Defines.set "UNINSTALLER_OUT_FILE" Flag (t_defines t))
      (t_commands t) in
  let r := runTask target packager patience t s in
  In "-DUNINSTALLER_OUT_FILE" args
  /\ trace (snd r)
     = (trace s
        ++ [FsOpen outFile; SpawnMakensis args script]
        ++ (if makensis packager args
            then Sign (t_installerPath t)
                 :: (if sign packager (t_installerPath t)
                     then [ArtifactBuildCompleted (t_installerPath t)
                             (t_primaryArch t)
                             (computeUpdateInfo target packager t)]
                     else [])
            else []))%list
  /\ fst r
     = if makensis packager args
       then if sign packager (t_installerPath t)
            then Ok tt else Throw (ExecError "sign")
       else Throw (ExecError "makensis").
Proof.
  intros Hportable Hout Hnone Hfree outFile script args r.
  split; [apply makensisArgs_flag, set_In|].
  assert (Hrun : exists s',
            runTask target packager patience t s
            = (if makensis packager args
               then if sign packager (t_installerPath t)
                    then Ok tt else Throw (ExecError "sign")
               else Throw (ExecError "makensis"), s')
            /\ trace s'
               = (trace s
                  ++ [FsOpen outFile; SpawnMakensis args script]
                  ++ (if makensis packager args
                      then Sign (t_installerPath t)
                           :: (if sign packager (t_installerPath t)
                               then [ArtifactBuildCompleted
                                       (t_installerPath t) (t_primaryArch t)
                                       (computeUpdateInfo target packager t)]
                               else [])
                      else []))%list).
  { subst outFile script args.
    unfold runTask. rewrite Hportable. cbv zeta.
    destruct s as [d c du cu e pf ar q fs o t0]. cbn [opens] in Hfree.
    rewrite !bind_modify, bind_ret.
    unfold getDefine at 1. rewrite bind_gets.
    unfold setDefine at 1. rewrite bind_modify.
    unfold set_defines, set_commands, set_definesUninstaller,
      set_commandsUninstaller, definesOf.
    cbn [opens trace defines commands definesUninstaller
         commandsUninstaller estimatedSize packageFiles archs buildQueue
         files].
    rewrite Hnone.
    unfold bind at 1.
    rewrite (executeMakensis_unfold packager target patience TheDefines
               TheCommands _ quoted) by exact Hout.
    cbv zeta. unfold bind at 1.
    rewrite (isBusy_trace packager 0 patience) by
      (try lia; cbn [opens]; rewrite ?Nat.add_0_r; exact Hfree).
    unfold commandsOf, definesOf, set_opens, set_trace.
    cbn [opens trace defines commands definesUninstaller
         commandsUninstaller estimatedSize packageFiles archs buildQueue
         files].
    destruct (makensis packager _).
    - destruct (fileExists _ _);
        unfold set_files;
        cbn [opens trace defines commands definesUninstaller
             commandsUninstaller estimatedSize packageFiles archs
             buildQueue files];
        unfold getDefine; rewrite bind_gets;
        cbn [definesOf defines]; rewrite get_set_same;
        unfold both, signFile, bind, emit, modify, ret, throw;
        destruct (sign packager (t_installerPath t));
        eexists; (split; [reflexivity|]);
        unfold set_trace; cbn [trace];
        rewrite <- !app_assoc; reflexivity.
    - eexists. split; [reflexivity|].
      cbn [trace]. rewrite <- !app_assoc. reflexivity. }
  destruct Hrun as (s' & Hrun & Htrace).
  subst r. rewrite Hrun. cbn [fst snd]. split; [exact Htrace | reflexivity].
Qed.

Lemma portable_task_compiles_once_witness :
  let target := Cases.portable Cases.portableOptions in
  let t := Cases.portableTask in
  let args :=
    makensisArgs target
      (Defines.set "UNINSTALLER_OUT_FILE" Flag (t_defines t))
      (t_commands t) in
  let r := runTask target Sample.packager 0 t Sample.start in
  In "-DUNINSTALLER_OUT_FILE" args
  /\ trace (snd r)
     = [FsOpen "dist/App Setup 1.0.0-x64.exe";
        SpawnMakensis args
          (sharedHeader Sample.packager ++ "!include installer.nsh");
        Sign "dist/App Setup 1.0.0-x64.exe";
        ArtifactBuildCompleted "dist/App Setup 1.0.0-x64.exe" (Some x64)
          None]
  /\ fst r = Ok tt.
Proof.
  cbv zeta.
  apply (portable_task_compiles_once
           (Cases.portable Cases.portableOptions) Sample.packager 0
           Cases.portableTask
           (Str.dquote ++ "dist/App Setup 1.0.0-x64.exe" ++ Str.dquote)
           Sample.start);
    [reflexivity | vm_compute; reflexivity | vm_compute; reflexivity
    | discriminate].
Defined.

Section Frames.

Variable packager : Packager.

Lemma steps_app a b : steps (a ++ b)%list = (steps a ++ steps b)%list.
Proof. apply filter_app. Qed.

(** The wait for the output file changes the count of the attempts and
    adds events to the trace, none of them a step. *)
Lemma isBusy_frame outFile :
  forall n wasBusyBefore s r s',
    isBusy packager n outFile wasBusyBefore s = (r, s') ->
    exists o' extra,
      steps extra = []
      /\ s' = set_opens o' (set_trace (trace s ++ extra)%list s).
Proof.
  induction n as [|n IH]; intros b s r s'; rewrite isBusy_round; cbv zeta;
    destruct s as [d c du cu e pf ar q fs o t0];
    unfold set_opens, set_trace;
    cbn [opens trace defines commands definesUninstaller
         commandsUninstaller estimatedSize packageFiles archs buildQueue
         files];
    destruct (openOutFile packager o);
    try (intros E; injection E as _ <-;
         exists (S o), [FsOpen outFile]; split; reflexivity).
  - destruct b; intros E; injection E as _ <-.
    + exists (S o), [FsOpen outFile]; split; reflexivity.
    + exists (S o), [FsOpen outFile; LogInfo lockedMessage].
      split; [reflexivity|]. now rewrite <- app_assoc.
  - destruct b;
      cbn [opens trace defines commands definesUninstaller
           commandsUninstaller estimatedSize packageFiles archs buildQueue
           files];
      intros E; apply IH in E as (o' & extra & Hextra & ->);
      unfold set_opens, set_trace;
      cbn [opens trace defines commands definesUninstaller
           commandsUninstaller estimatedSize packageFiles archs buildQueue
           files].
    + exists o', (FsOpen outFile :: SetTimeout 2000 :: extra).
      split; [exact Hextra|]. now rewrite <- !app_assoc.
    + exists o',
        (FsOpen outFile :: LogInfo lockedMessage :: SetTimeout 2000 :: extra).
      split; [exact Hextra|]. now rewrite <- !app_assoc.
Qed.


End Frames.

Lemma bind_assoc {A B C} (m : M A) (f : A -> M B) (k : B -> M C) s :
  bind (bind m f) k s = bind m (fun a => bind (f a) k) s.
Proof.
  unfold bind. destruct (m s) as [[a| |] s1]; reflexivity.
Qed.

Lemma bind_throw {A B} e (k : A -> M B) s :
  bind (throw e) k s = (Throw e, s).
Proof. reflexivity. Qed.



(** The state on which the run [H] goes on, by its fields. *)
Ltac fields_in H :=
  lazymatch type of H with
  | ?m ?st = _ =>
      let st' :=
        eval cbv beta iota delta
               [set_defines set_commands set_definesUninstaller
                set_commandsUninstaller set_files set_opens set_trace
                opens trace defines commands definesUninstaller
                commandsUninstaller estimatedSize packageFiles archs
                buildQueue files] in st in
      change st with st' in H
  end;
  cbn [definesOf commandsOf opens trace defines commands definesUninstaller
       commandsUninstaller estimatedSize packageFiles archs buildQueue
       files] in H.

(** One step of the run [H] of a computation on a state that is given by
    its fields. *)
Ltac exec H :=
  first
    [ rewrite bind_assoc in H
    | rewrite bind_modify in H; cbv beta in H; fields_in H
    | rewrite bind_gets in H; cbv beta in H; fields_in H
    | rewrite bind_ret in H
    | rewrite bind_throw in H; discriminate H
    | lazymatch type of H with
      | bind (emit _) _ _ = _ => unfold emit at 1 in H
      | bind (setDefine _ _ _) _ _ = _ => unfold setDefine at 1 in H
      | bind (deleteDefine _ _) _ _ = _ => unfold deleteDefine at 1 in H
      | bind (getDefine _ _) _ _ = _ => unfold getDefine at 1 in H
      | bind (signFile _ _) _ _ = _ => unfold signFile at 1 in H
      end ].


(** A compiler run that returns: the tables are as before, the compiler
    was started once, on the arguments of the tables. *)
Lemma executeMakensis_run {B} target packager patience defs cmds script
    (k : unit -> M B) s b s' :
  bind (executeMakensis target packager patience defs cmds script) k s
  = (Ok b, s') ->
  exists o' fs' extra,
    steps extra = []
    /\ k tt
         (set_files fs'
            (set_opens o'
               (set_trace
                  (trace s ++ extra
                   ++ [SpawnMakensis
                         (makensisArgs target (definesOf defs s)
                            (commandsOf cmds s))
                         script])%list s)))
       = (Ok b, s').
Proof.
  unfold executeMakensis. rewrite bind_assoc, bind_gets.
  rewrite bind_assoc, bind_gets. cbv zeta.
  destruct (Commands.get "OutFile" (commandsOf cmds s)) as [[outFile|]|];
    try (rewrite bind_throw; discriminate).
  unfold ensureNotBusy. rewrite !bind_assoc. unfold bind at 1.
  destruct (isBusy packager patience _ false s) as [[r| |] s1] eqn:Hbusy;
    try discriminate.
  apply isBusy_frame in Hbusy as (o' & extra & Hextra & ->).
  rewrite bind_ret, bind_assoc. unfold emit. rewrite bind_modify.
  destruct (makensis packager _); [|rewrite bind_throw; discriminate].
  unfold writeFile. rewrite bind_modify. intros Hrun.
  destruct s as [d c du cu e pf ar q fs o t0].
  exists o'.
  match type of Hrun with
  | context [if ?present then _ else _] =>
      exists (if present then fs else (fs ++ [Str.replaceAll "034"%char EmptyString outFile])%list);
      destruct present
  end;
    exists extra; (split; [exact Hextra|]);
    rewrite <- Hrun; f_equal;
    unfold set_files, set_opens, set_trace;
    cbn [opens trace defines commands definesUninstaller
         commandsUninstaller estimatedSize packageFiles archs buildQueue
         files definesOf commandsOf];
    now rewrite <- !app_assoc.
Qed.

Section Framed.








End Framed.






Lemma both_sign_only packager installerPath s s' :
  both (signFile packager installerPath) (ret tt) s = (Ok tt, s') ->
  s' = set_trace (trace s ++ [Sign installerPath])%list s.
Proof.
  destruct s as [d c du cu e pf ar q fs o t0].
  cbv beta iota delta
    [both signFile emit bind modify ret throw set_trace opens trace defines
     commands definesUninstaller commandsUninstaller estimatedSize
     packageFiles archs buildQueue files].
  destruct (sign packager installerPath); intros E; try discriminate E.
  now injection E as <-.
Qed.

(** X15. The task of a project that brings its own [installer.nsi], for a
    target that is not portable: when it returns, the compiler was run
    once, on the script of the project, and the installer was signed. No
    uninstaller was compiled, signed or unlinked by the build, which the
    log tells, and [UNINSTALLER_OUT_FILE] went to the compiler as a flag
    without a value. *)
Theorem custom_script_task_steps
    (target : Target) (packager : Packager) (patience : nat) (t : Task)
    (custom : string) (s s' : State) :
  isPortable target = false ->
  getResource packager (script (options target)) "installer.nsi"
  = Some custom ->
  Defines.get "UNINSTALLER_OUT_FILE" (t_definesUninstaller t) = None ->
  runTask target packager patience t s = (Ok tt, s') ->
  let script :=
    readFile packager
      (orElse (Some custom)
         (Str.join (nsisTemplatesDir packager) "installer.nsi")) in
  let args :=
    makensisArgs target
      (Defines.set "UNINSTALLER_OUT_FILE" Flag (t_defines t))
      (t_commands t) in
  steps (trace s')
  = (steps (trace s)
     ++ [SpawnMakensis args
           (sharedHeader packager
            ++ computeFinalScript packager script true (t_archs t));
         Sign (t_installerPath t)])%list
  /\ In (LogInfo "uninstaller is not signed by electron-builder") (trace s')
  /\ In "-DUNINSTALLER_OUT_FILE" args.
Proof.
  intros Hportable Hscript Hnone Hrun script args.
  rewrite <- and_assoc. split; [|apply makensisArgs_flag, set_In].
  subst script args.
  destruct s as [d c du cu e pf ar q fs o t0].
  unfold runTask in Hrun. rewrite Hportable in Hrun. cbv zeta in Hrun.
  unfold computeScriptAndSignUninstaller in Hrun.
  rewrite Hscript in Hrun. cbv zeta in Hrun.
  repeat exec Hrun.
  rewrite Hnone in Hrun.
  apply executeMakensis_run in Hrun as (o1 & fs1 & extra1 & Hextra1 & Hrun).
  cbv beta in Hrun; fields_in Hrun.
  repeat exec Hrun.
  rewrite get_set_same in Hrun.
  unfold bind in Hrun.
  lazymatch type of Hrun with
  | context [both ?m1 ?m2 ?st] =>
      destruct (both m1 m2 st) as [[[]| |] s4] eqn:Hboth;
      try discriminate Hrun;
      apply both_sign_only in Hboth as ->
  end.
  injection Hrun as <-.
  unfold set_trace;
    cbn [opens trace defines commands definesUninstaller
         commandsUninstaller estimatedSize packageFiles archs
         buildQueue files].
  split.
  - rewrite !steps_app, Hextra1.
    cbn [steps filter isStep app]; rewrite <- !app_assoc; reflexivity.
  - do 3 (apply in_or_app; left). apply in_or_app. right. now left.
Qed.

Lemma custom_script_task_steps_witness :
  let target := Sample.nsis Cases.customScript in
  let r := runTask target Cases.packagerWithResources 0
             Cases.customScriptTask Sample.start in
  fst r = Ok tt
  /\ map (fun e => match e with
                   | SpawnMakensis _ _ => "makensis"
                   | Sign file => "sign " ++ file
                   | Unlink file => "unlink " ++ file
                   | _ => EmptyString
                   end) (steps (trace (snd r)))
     = ["makensis"; "sign dist/App Setup 1.0.0-x64.exe"].
Proof.
  cbv zeta. split; [vm_compute; reflexivity|].
  destruct (custom_script_task_steps (Sample.nsis Cases.customScript)
              Cases.packagerWithResources 0 Cases.customScriptTask
              "build/installer.nsi" Sample.start
              (snd (runTask (Sample.nsis Cases.customScript)
                      Cases.packagerWithResources 0 Cases.customScriptTask
                      Sample.start)))
    as (Hsteps & _);
    [reflexivity | reflexivity | vm_compute; reflexivity
    | vm_compute; reflexivity |].
  rewrite Hsteps. reflexivity.
Defined.

Section ShortcutMacros.

Import Shortcuts.

Variable d : Defines.
Variable rt : Runtime.

Lemma cleanupOldMenuDirectory_spares v dir :
  In (RMDir dir) (cleanupOldMenuDirectory d rt v) ->
  dir = SMPROGRAMS rt ++ "\" ++ oldMenuDirectory v
  /\ strne (oldMenuDirectory v) EmptyString = true
  /\ (Defines.has "MENU_FILENAME" d = true ->
      strne (oldMenuDirectory v) (Installer.expand d "MENU_FILENAME") = true).
Proof.
  unfold cleanupOldMenuDirectory.
  destruct (strne (oldMenuDirectory v) EmptyString); [|intros []].
  destruct (Defines.has "MENU_FILENAME" d).
  - destruct (strne (oldMenuDirectory v) _); [|intros []].
    intros [E|[]]. injection E as <-. auto.
  - intros [E|[]]. injection E as <-. repeat split. discriminate.
Qed.

Lemma createMenuDirectory_actions :
  existsb isCreate (createMenuDirectory d rt) = false
  /\ existsb isRename (createMenuDirectory d rt) = false
  /\ existsb isRMDir (createMenuDirectory d rt) = false.
Proof.
  unfold createMenuDirectory. destruct (Defines.has "MENU_FILENAME" d);
    repeat split.
Qed.

Lemma cleanupOldMenuDirectory_actions v :
  existsb isCreate (cleanupOldMenuDirectory d rt v) = false
  /\ existsb isRename (cleanupOldMenuDirectory d rt v) = false.
Proof.
  unfold cleanupOldMenuDirectory.
  destruct (strne (oldMenuDirectory v) EmptyString),
    (Defines.has "MENU_FILENAME" d),
    (strne (oldMenuDirectory v) (Installer.expand d "MENU_FILENAME"));
    repeat split.
Qed.

End ShortcutMacros.

(** X16. The shortcut in the start menu. The macro acts only where the
    shortcut is wanted: by the policy of the build in a one-click
    installer, whatever [ALLOW_TO_ADD_SHORTCUT] and the choice of the
    user are, and by the choice of the user alone in an assisted installer
    that asks for it. Where it acts, a shortcut is created exactly when
    [$keepShortcuts] is [false], and an old one is renamed exactly when
    it is not [false], the name has changed and the old shortcut exists.
    A menu directory is removed only if it is the old one, has a name and
    is not the directory of the build. The parameter of the macro plays
    no role. *)
Theorem start_menu_shortcut
    (d : Defines) (rt : Shortcuts.Runtime) (parameter : string)
    (v : Shortcuts.Vars) :
  let wanted := Shortcuts.startMenuShortcutWanted d v in
  let actions := Shortcuts.addStartMenuLink d rt parameter v in
  (wanted = false -> actions = [])
  /\ existsb Shortcuts.isCreate actions
     = wanted && Installer.streq (Shortcuts.keepShortcuts v) "false"
  /\ existsb Shortcuts.isRename actions
     = wanted
       && negb (Installer.streq (Shortcuts.keepShortcuts v) "false")
       && Shortcuts.strne (Shortcuts.oldStartMenuLink v)
            (Shortcuts.newStartMenuLink v)
       && Shortcuts.FileExists rt (Shortcuts.oldStartMenuLink v)
  /\ (forall dir,
        In (Shortcuts.RMDir dir) actions ->
        dir = Shortcuts.SMPROGRAMS rt ++ "\" ++ Shortcuts.oldMenuDirectory v
        /\ Shortcuts.strne (Shortcuts.oldMenuDirectory v) EmptyString = true
        /\ (Defines.has "MENU_FILENAME" d = true ->
            Shortcuts.strne (Shortcuts.oldMenuDirectory v)
              (Installer.expand d "MENU_FILENAME") = true))
  /\ (forall other, Shortcuts.addStartMenuLink d rt other v = actions).
Proof.
  cbv zeta.
  unfold Shortcuts.startMenuShortcutWanted, Shortcuts.addStartMenuLink.
  pose proof (createMenuDirectory_actions d rt) as (Hc1 & Hc2 & Hc3).
  pose proof (cleanupOldMenuDirectory_actions d rt v) as (Ho1 & Ho2).
  pose proof (cleanupOldMenuDirectory_spares d rt v) as Hspares.
  assert (Hin : forall dir,
            ~ In (Shortcuts.RMDir dir) (Shortcuts.createMenuDirectory d rt)).
  { intros dir. unfold Shortcuts.createMenuDirectory.
    destruct (Defines.has "MENU_FILENAME" d); cbn; intuition discriminate. }
  destruct (Defines.has "ONE_CLICK" d),
    (Defines.has "ALLOW_TO_ADD_SHORTCUT" d),
    (Defines.has "DO_NOT_CREATE_START_MENU_SHORTCUT" d),
    (Installer.streq (Shortcuts.USER_STARTMENU_SHORTCUT_CHOICE v) "1"),
    (Installer.streq (Shortcuts.keepShortcuts v) "false"),
    (Shortcuts.strne (Shortcuts.oldStartMenuLink v)
       (Shortcuts.newStartMenuLink v)),
    (Shortcuts.FileExists rt (Shortcuts.oldStartMenuLink v));
    cbn [negb andb];
    (split; [try discriminate; reflexivity|]);
    (split; [rewrite ?existsb_app, ?Hc1, ?Ho1; reflexivity|]);
    (split; [rewrite ?existsb_app, ?Hc2, ?Ho2; reflexivity|]);
    (split; [|reflexivity]);
    intros dir Hdir;
    repeat (apply in_app_or in Hdir as [Hdir|Hdir]);
    try (now apply Hspares);
    try (now apply Hin in Hdir);
    cbn in Hdir; intuition discriminate.
Qed.

Lemma start_menu_shortcut_witness :
  let actions :=
    Shortcuts.addStartMenuLink Cases.assistedDefines Cases.desktop
      "keepShortcuts" Cases.update in
  Shortcuts.addStartMenuLink Cases.oneClickDefines Cases.desktop
    "keepShortcuts" Cases.update = []
  /\ existsb Shortcuts.isCreate actions = false
  /\ existsb Shortcuts.isRename actions = true
  /\ forall dir,
       In (Shortcuts.RMDir dir) actions ->
       dir = "C:\Start Menu\Programs\Old Vendor".
Proof.
  cbv zeta.
  destruct (start_menu_shortcut Cases.oneClickDefines Cases.desktop
              "keepShortcuts" Cases.update) as (Hnone & _).
  destruct (start_menu_shortcut Cases.assistedDefines Cases.desktop
              "keepShortcuts" Cases.update)
    as (_ & Hcreate & Hrename & Hremoved & _).
  split; [apply Hnone; reflexivity|].
  split; [rewrite Hcreate; reflexivity|].
  split; [rewrite Hrename; reflexivity|].
  intros dir Hdir. apply Hremoved in Hdir as (-> & _). reflexivity.
Defined.

(** X17. The shortcut on the desktop. The macro acts only where the
    shortcut is wanted, by the policy of the build or, in an assisted
    installer that asks for it, by the choice of the user alone. Where it
    acts the shell is always notified, last; a shortcut is created or an
    old one renamed only if the installer was not told to leave the
    desktop alone, under the same conditions as in the start menu. No
    directory is made or removed, and the parameter of the macro plays no
    role. *)
Theorem desktop_shortcut
    (d : Defines) (rt : Shortcuts.Runtime) (parameter : string)
    (v : Shortcuts.Vars) :
  let wanted := Shortcuts.desktopShortcutWanted d v in
  let touched := wanted && negb (Shortcuts.isNoDesktopShortcut rt) in
  let actions := Shortcuts.addDesktopLink d rt parameter v in
  (wanted = false -> actions = [])
  /\ (wanted = true -> last actions Shortcuts.ClearErrors
                       = Shortcuts.SHChangeNotify)
  /\ existsb Shortcuts.isCreate actions
     = touched && Installer.streq (Shortcuts.keepShortcuts v) "false"
  /\ existsb Shortcuts.isRename actions
     = touched
       && negb (Installer.streq (Shortcuts.keepShortcuts v) "false")
       && Shortcuts.strne (Shortcuts.oldDesktopLink v)
            (Shortcuts.newDesktopLink v)
       && Shortcuts.FileExists rt (Shortcuts.oldDesktopLink v)
  /\ existsb (fun a => match a with
                       | Shortcuts.RMDir _ | Shortcuts.CreateDirectory _ =>
                           true
                       | _ => false
                       end) actions = false
  /\ (forall other, Shortcuts.addDesktopLink d rt other v = actions).
Proof.
  cbv zeta.
  unfold Shortcuts.desktopShortcutWanted, Shortcuts.addDesktopLink.
  destruct (Defines.has "ONE_CLICK" d),
    (Defines.has "ALLOW_TO_ADD_SHORTCUT" d),
    (Defines.has "DO_NOT_CREATE_DESKTOP_SHORTCUT" d),
    (Installer.streq (Shortcuts.USER_DESKTOP_SHORTCUT_CHOICE v) "1"),
    (Shortcuts.isNoDesktopShortcut rt),
    (Installer.streq (Shortcuts.keepShortcuts v) "false"),
    (Shortcuts.strne (Shortcuts.oldDesktopLink v)
       (Shortcuts.newDesktopLink v)),
    (Shortcuts.FileExists rt (Shortcuts.oldDesktopLink v));
    cbn [negb andb app];
    repeat split; try discriminate; reflexivity.
Qed.

Lemma desktop_shortcut_witness :
  let actions :=
    Shortcuts.addDesktopLink Cases.assistedDefines Cases.desktop
      "keepShortcuts" Cases.update in
  Shortcuts.addDesktopLink Cases.oneClickDefines Cases.desktop
    "keepShortcuts" Cases.update = []
  /\ last actions Shortcuts.ClearErrors = Shortcuts.SHChangeNotify
  /\ existsb Shortcuts.isRename actions = true.
Proof.
  cbv zeta.
  destruct (desktop_shortcut Cases.oneClickDefines Cases.desktop
              "keepShortcuts" Cases.update) as (Hnone & _).
  destruct (desktop_shortcut Cases.assistedDefines Cases.desktop
              "keepShortcuts" Cases.update)
    as (_ & Hlast & _ & Hrename & _).
  split; [apply Hnone; reflexivity|].
  split; [apply Hlast; reflexivity|].
  rewrite Hrename. reflexivity.
Defined.

(** X18. From the options of the build to the shortcuts of the installer.
    For an installer that is not portable, the table that [buildInstaller]
    computes makes the shortcut macros of the template follow the
    effective policy of the build: the start-menu shortcut is wanted
    exactly when [isCreateStartMenuShortcut] holds and the desktop
    shortcut unless [isCreateDesktopShortcut] is [NEVER]. The one
    exception is an assisted installer with [allowToAddShortcut], where
    the choice of the user decides and the policy is not consulted. *)
Theorem shortcut_policy_reaches_installer
    (target : Target) (packager : Packager) (archs : ArchMap)
    (s s' : State) (effective : FinalCommonWindowsInstallerOptions)
    (v : Shortcuts.Vars) :
  isPortable target = false ->
  getEffectiveOptions packager = inr effective ->
  buildInstaller target packager archs s = (Ok tt, s') ->
  let opts := options target in
  let userChooses :=
    Js.is_false (oneClick opts) && Js.truthy (allowToAddShortcut opts) in
  Shortcuts.startMenuShortcutWanted (defines s') v
  = (if userChooses
     then Installer.streq (Shortcuts.USER_STARTMENU_SHORTCUT_CHOICE v) "1"
     else isCreateStartMenuShortcut effective)
  /\ Shortcuts.desktopShortcutWanted (defines s') v
     = (if userChooses
        then Installer.streq (Shortcuts.USER_DESKTOP_SHORTCUT_CHOICE v) "1"
        else match isCreateDesktopShortcut effective with
             | NEVER => false
             | _ => true
             end).
Proof.
  intros Hportable Heffective Hrun opts userChooses.
  subst opts userChooses.
  assert (HoneClick : Defines.get "ONE_CLICK" (defines s')
            = if Js.not_false (oneClick (options target))
              then Some Flag else None).
  { defined_by_buildInstaller "ONE_CLICK" Hrun
      ltac:(idtac; rewrite ?Hportable, ?Heffective).
    now destruct (Js.not_false (oneClick (options target))). }
  assert (Hallow : Defines.get "ALLOW_TO_ADD_SHORTCUT" (defines s')
            = if Js.truthy (allowToAddShortcut (options target))
              then Some Flag else None).
  { defined_by_buildInstaller "ALLOW_TO_ADD_SHORTCUT" Hrun
      ltac:(idtac; rewrite ?Hportable, ?Heffective).
    now destruct (Js.truthy (allowToAddShortcut (options target))). }
  assert (Hmenu : Defines.get "DO_NOT_CREATE_START_MENU_SHORTCUT"
                    (defines s')
            = if isCreateStartMenuShortcut effective
              then None else Some Flag).
  { defined_by_buildInstaller "DO_NOT_CREATE_START_MENU_SHORTCUT" Hrun
      ltac:(idtac; rewrite ?Hportable, ?Heffective).
    now destruct (isCreateStartMenuShortcut effective). }
  assert (Hdesktop : Defines.get "DO_NOT_CREATE_DESKTOP_SHORTCUT"
                       (defines s')
            = match isCreateDesktopShortcut effective with
              | NEVER => Some Flag
              | _ => None
              end).
  { defined_by_buildInstaller "DO_NOT_CREATE_DESKTOP_SHORTCUT" Hrun
      ltac:(idtac; rewrite ?Hportable, ?Heffective).
    now destruct (isCreateDesktopShortcut effective). }
  unfold Shortcuts.startMenuShortcutWanted, Shortcuts.desktopShortcutWanted,
    Defines.has.
  rewrite HoneClick, Hallow, Hmenu, Hdesktop.
  unfold Js.not_false.
  destruct (Js.is_false (oneClick (options target))),
    (Js.truthy (allowToAddShortcut (options target))),
    (isCreateStartMenuShortcut effective),
    (isCreateDesktopShortcut effective); split; reflexivity.
Qed.

Lemma shortcut_policy_reaches_installer_witness :
  let s' := snd (buildInstaller (Sample.nsis Sample.noOptions)
                   Sample.packager Sample.x64Only Sample.start) in
  Shortcuts.startMenuShortcutWanted (defines s') Cases.update = true
  /\ Shortcuts.desktopShortcutWanted (defines s') Cases.update = true.
Proof.
  cbv zeta.
  apply (shortcut_policy_reaches_installer (Sample.nsis Sample.noOptions)
           Sample.packager Sample.x64Only Sample.start _
           {| menuCategory := None; shortcutName := "App";
              isCreateDesktopShortcut := FRESH_INSTALL;
              isCreateStartMenuShortcut := true |} Cases.update);
    [reflexivity | reflexivity | vm_compute; reflexivity].
Defined.

(** X19. The options of the assisted installer. For a target that is not
    portable and with [oneClick] set to [false], the table that
    [buildInstaller] computes has the elevation define unless
    [allowElevation] is [false], and the defines for the choice of the
    installation directory and of the shortcuts exactly when their
    options are set. *)
Theorem assisted_installer_options
    (target : Target) (packager : Packager) (archs : ArchMap)
    (s s' : State) :
  isPortable target = false ->
  oneClick (options target) = Some false ->
  buildInstaller target packager archs s = (Ok tt, s') ->
  let opts := options target in
  let flag (b : bool) := if b then Some Flag else None in
  Defines.get "MULTIUSER_INSTALLMODE_ALLOW_ELEVATION" (defines s')
  = flag (Js.not_false (allowElevation opts))
  /\ Defines.get "allowToChangeInstallationDirectory" (defines s')
     = flag (Js.truthy (allowToChangeInstallationDirectory opts))
  /\ Defines.get "ALLOW_TO_ADD_SHORTCUT" (defines s')
     = flag (Js.truthy (allowToAddShortcut opts)).
Proof.
  intros Hportable Hassisted Hrun opts flag. subst opts flag. cbv beta.
  repeat split.
  - defined_by_buildInstaller "MULTIUSER_INSTALLMODE_ALLOW_ELEVATION" Hrun
      ltac:(idtac; rewrite ?Hportable, ?Hassisted;
            cbn [Js.not_false Js.is_false negb]).
    now destruct (Js.not_false (allowElevation (options target))).
  - defined_by_buildInstaller "allowToChangeInstallationDirectory" Hrun
      ltac:(idtac; rewrite ?Hportable, ?Hassisted;
            cbn [Js.not_false Js.is_false negb]).
    now destruct
      (Js.truthy (allowToChangeInstallationDirectory (options target))).
  - defined_by_buildInstaller "ALLOW_TO_ADD_SHORTCUT" Hrun
      ltac:(idtac; rewrite ?Hportable, ?Hassisted;
            cbn [Js.not_false Js.is_false negb]).
    now destruct (Js.truthy (allowToAddShortcut (options target))).
Qed.

Lemma assisted_installer_options_witness :
  let s' := snd (buildInstaller (Sample.nsis Cases.assistedWithChoices)
                   Sample.packager Sample.x64Only Sample.start) in
  Defines.get "MULTIUSER_INSTALLMODE_ALLOW_ELEVATION" (defines s') = None
  /\ Defines.get "allowToChangeInstallationDirectory" (defines s')
     = Some Flag
  /\ Defines.get "ALLOW_TO_ADD_SHORTCUT" (defines s') = Some Flag.
Proof.
  cbv zeta.
  apply (assisted_installer_options (Sample.nsis Cases.assistedWithChoices)
           Sample.packager Sample.x64Only Sample.start);
    [reflexivity | reflexivity | vm_compute; reflexivity].
Defined.

Lemma append_assoc (a b c : string) : (a ++ b) ++ c = a ++ b ++ c.
Proof. induction a as [|x a IH]; cbn; [reflexivity | now rewrite IH]. Qed.

Section RegistryWrites.

Import Registry.

Lemma written_app name a b :
  written name (a ++ b)%list
  = match written name b with
    | Some later => Some later
    | None => written name a
    end.
Proof.
  induction a as [|[k n v|k n v] a IH]; cbn [app written].
  - now destruct (written name b).
  - rewrite IH. now destruct (written name b).
  - rewrite IH. now destruct (written name b).
Qed.

Lemma written_ifdef d name define key n value :
  written name (ifdef d define [WriteRegStr key n value])
  = if String.eqb n name && Defines.has define d then Some value else None.
Proof.
  unfold ifdef. destruct (Defines.has define d); cbn [written].
  - now rewrite andb_true_r.
  - now rewrite andb_false_r.
Qed.

End RegistryWrites.

(** X20. From the build to the registry. For a target that is not
    portable, the installer compiled from the table that [buildInstaller]
    computes registers, for the uninstall entry, the version of the
    application as [DisplayVersion], the company name as [Publisher] when
    there is one, and as [HelpLink] the option [uninstallUrlHelp] or else
    the home page of the project, when there is either. [EstimatedSize]
    is the size that the build estimated, in KiB, and is measured on the
    installed directory when the build estimated nothing. The quiet
    uninstall command is the uninstall command followed by [/S]. *)
Theorem registry_follows_build
    (target : Target) (packager : Packager) (archs : ArchMap)
    (s s' : State) (rt : Registry.Runtime) (v : Registry.Vars) :
  isPortable target = false ->
  buildInstaller target packager archs s = (Ok tt, s') ->
  let actions := Registry.registryAddInstallInfo (defines s') rt v in
  let total := totalReportedSize target packager archs in
  Registry.written "DisplayVersion" actions
  = Some (version (appInfo packager))
  /\ Registry.written "Publisher" actions = companyName (appInfo packager)
  /\ Registry.written "HelpLink" actions
     = Js.or_str (uninstallUrlHelp (options target)) (homepage packager)
  /\ Registry.written "EstimatedSize" actions
     = Some (Registry.IntFmt rt "0x%08X"
               (if (total =? 0)%Z
                then Registry.GetSize rt (Registry.INSTDIR v)
                else Str.ofZ (roundDiv1024 total)))
  /\ (exists command,
        Registry.written "UninstallString" actions = Some command
        /\ Registry.written "QuietUninstallString" actions
           = Some (command ++ " /S")).
Proof.
  intros Hportable Hrun actions total.
  assert (Hversion : Defines.get "VERSION" (defines s')
                     = Some (Str (version (appInfo packager)))).
  { defined_by_buildInstaller "VERSION" Hrun
      ltac:(idtac; rewrite ?Hportable).
    reflexivity. }
  assert (Hcompany : Defines.get "COMPANY_NAME" (defines s')
                     = option_map Str (companyName (appInfo packager))).
  { defined_by_buildInstaller "COMPANY_NAME" Hrun
      ltac:(idtac; rewrite ?Hportable).
    now destruct (companyName (appInfo packager)). }
  assert (Hhelp : Defines.get "UNINSTALL_URL_HELP" (defines s')
                  = option_map Str
                      (Js.or_str (uninstallUrlHelp (options target))
                         (homepage packager))).
  { defined_by_buildInstaller "UNINSTALL_URL_HELP" Hrun
      ltac:(idtac; rewrite ?Hportable).
    now destruct (Js.or_str (uninstallUrlHelp (options target))
                    (homepage packager)). }
  pose proof (buildInstaller_estimated target packager archs s tt s' I Hrun)
    as Hsize.
  unfold defineIs in Hsize. cbv zeta in Hsize. fold total in Hsize.
  subst actions. unfold Registry.registryAddInstallInfo. cbv zeta.
  rewrite !written_app, !written_ifdef.
  destruct (Defines.has "UNINSTALLER_ICON" (defines s'));
    cbn [Registry.written String.eqb Ascii.eqb Bool.eqb andb];
    unfold Defines.has, Installer.expand;
    change ESTIMATED_SIZE with "ESTIMATED_SIZE" in Hsize;
    rewrite Hversion, Hcompany, Hhelp, Hsize;
    (repeat split;
     [ now destruct (companyName (appInfo packager))
     | now destruct (Js.or_str (uninstallUrlHelp (options target))
                       (homepage packager))
     | now destruct (total =? 0)%Z
     | eexists; split; [reflexivity | now rewrite <- !append_assoc] ]).
Qed.

Lemma registry_follows_build_witness :
  let target := Sample.nsis Sample.noOptions in
  let s' := snd (buildInstaller target Sample.packager Sample.x64Only
                   Sample.start) in
  let actions :=
    Registry.registryAddInstallInfo (defines s') Cases.registryMachine
      Cases.installed in
  let total := totalReportedSize target Sample.packager Sample.x64Only in
  Registry.written "DisplayVersion" actions
  = Some (version (appInfo Sample.packager))
  /\ Registry.written "Publisher" actions
     = companyName (appInfo Sample.packager)
  /\ Registry.written "HelpLink" actions
     = Js.or_str (uninstallUrlHelp (options target))
         (homepage Sample.packager)
  /\ Registry.written "EstimatedSize" actions
     = Some (Registry.IntFmt Cases.registryMachine "0x%08X"
               (if (total =? 0)%Z
                then Registry.GetSize Cases.registryMachine
                       (Registry.INSTDIR Cases.installed)
                else Str.ofZ (roundDiv1024 total)))
  /\ (exists command,
        Registry.written "UninstallString" actions = Some command
        /\ Registry.written "QuietUninstallString" actions
           = Some (command ++ " /S")).
Proof.
  cbv zeta.
  apply (registry_follows_build (Sample.nsis Sample.noOptions)
           Sample.packager Sample.x64Only Sample.start);
    [reflexivity | vm_compute; reflexivity].
Defined.

(** X21. From the build to the files of the installation. An installer
    that is not a web installer, compiled from the table that
    [buildInstaller] computes and the path of its uninstaller, installs
    from the package that it embeds: nothing is downloaded, no package
    file is looked for or hashed. The installer itself is copied to the
    cache directory of the updater under the name [installer.exe], and
    the uninstaller is added last. *)
Theorem installer_installs_embedded_package
    (target : Target) (packager : Packager) (archs : ArchMap)
    (s s' : State) (uninstallerOutFile : DefineValue)
    (rt : Installer.Runtime)
    (downloadApplicationFiles : Installer.Vars -> Installer.Vars)
    (v : Installer.Vars) :
  isWebInstaller target = false ->
  buildInstaller target packager archs s = (Ok tt, s') ->
  let d :=
    Defines.set "UNINSTALLER_OUT_FILE" uninstallerOutFile (defines s') in
  let allUsers := Installer.streq (Installer.installMode v) "all" in
  Installer.installApplicationFiles d rt downloadApplicationFiles v
  = (v,
     [Installer.ExtractEmbeddedAppPackage]
     ++ (if allUsers then [Installer.SetShellVarContext "current"] else [])
     ++ [Installer.CopyFile (Installer.EXEPATH rt)
           (Installer.LOCALAPPDATA rt ++ "\"
            ++ updaterCacheDirName (appInfo packager) ++ "\installer.exe")]
     ++ (if allUsers then [Installer.SetShellVarContext "all"] else [])
     ++ [Installer.FileOname (Installer.expand d "UNINSTALL_FILENAME")
           (Installer.expand d "UNINSTALLER_OUT_FILE")])%list.
Proof.
  intros Hweb Hrun d allUsers.
  assert (Hdir : Defines.get "APP_BUILD_DIR" (defines s') = None).
  { defined_by_buildInstaller "APP_BUILD_DIR" Hrun
      ltac:(idtac; unfold USE_NSIS_BUILT_IN_COMPRESSOR; cbn [andb]).
    now destruct (isPortable target). }
  assert (Hurl : Defines.get "APP_PACKAGE_URL" (defines s') = None).
  { defined_by_buildInstaller "APP_PACKAGE_URL" Hrun ltac:(idtac).
    now destruct (isPortable target). }
  assert (Hstore : Defines.get "APP_INSTALLER_STORE_FILE" (defines s')
                   = Some (Str (updaterCacheDirName (appInfo packager)
                                ++ "\installer.exe"))).
  { defined_by_buildInstaller "APP_INSTALLER_STORE_FILE" Hrun ltac:(idtac).
    rewrite Hweb. now destruct (isPortable target). }
  unfold Installer.installApplicationFiles, Defines.has.
  subst d. rewrite !get_set_other by reflexivity.
  rewrite Hdir, Hurl.
  unfold Installer.expand at 1. rewrite get_set_other by reflexivity.
  rewrite Hstore. reflexivity.
Qed.

Lemma installer_installs_embedded_package_witness :
  let s' := snd (buildInstaller (Sample.nsis Sample.noOptions)
                   Sample.packager Sample.x64Only Sample.start) in
  let d :=
    Defines.set "UNINSTALLER_OUT_FILE"
      (Str "dist/App Setup 1.0.0.__uninstaller.exe") (defines s') in
  let rt := Sample.machine None [] EmptyString in
  Installer.installApplicationFiles d rt Sample.download Sample.fresh
  = (Sample.fresh,
     [Installer.ExtractEmbeddedAppPackage]
     ++ (if Installer.streq (Installer.installMode Sample.fresh) "all"
         then [Installer.SetShellVarContext "current"] else [])
     ++ [Installer.CopyFile (Installer.EXEPATH rt)
           (Installer.LOCALAPPDATA rt ++ "\"
            ++ updaterCacheDirName (appInfo Sample.packager)
            ++ "\installer.exe")]
     ++ (if Installer.streq (Installer.installMode Sample.fresh) "all"
         then [Installer.SetShellVarContext "all"] else [])
     ++ [Installer.FileOname (Installer.expand d "UNINSTALL_FILENAME")
           (Installer.expand d "UNINSTALLER_OUT_FILE")])%list.
Proof.
  cbv zeta.
  apply (installer_installs_embedded_package (Sample.nsis Sample.noOptions)
           Sample.packager Sample.x64Only Sample.start);
    [reflexivity | vm_compute; reflexivity].
Defined.

(** X22. The default name of the installer. The pattern that [finishBuild]
    asks for has no architecture in it, and neither has the pattern of any
    installer of a universal build: it is [${productName} Setup
    ${version}.${ext}], without [Setup] for the portable target. With it
    as the pattern of the artifact name, a universal build makes one
    installer, for all the registered architectures, however many there
    are. Only separate installers get the suffix of their architecture. *)
Theorem default_pattern_names_no_architecture
    (target : Target) (getArchSuffix : Arch -> option string -> string)
    (primaryArch : option Arch) (defaultArch : option string)
    (archs : ArchMap) :
  let pattern :=
    installerFilenamePattern target getArchSuffix primaryArch defaultArch in
  let plain :=
    if isPortable target then "${productName} ${version}.${ext}"
    else "${productName} Setup ${version}.${ext}" in
  (primaryArch = None \/ shouldBuildUniversalInstaller target = true ->
   pattern = plain
   /\ Js.includes pattern "${arch}" = false
   /\ builds pattern archs = [archs])
  /\ (forall arch,
        primaryArch = Some arch ->
        shouldBuildUniversalInstaller target = false ->
        Js.endsWith pattern
          ("${version}" ++ getArchSuffix arch defaultArch ++ ".${ext}")
        = true).
Proof.
  cbv zeta. unfold installerFilenamePattern. split.
  - intros Hplain.
    assert (Hsuffix :
              match primaryArch with
              | Some arch =>
                  if negb (shouldBuildUniversalInstaller target)
                  then getArchSuffix arch defaultArch
                  else EmptyString
              | None => EmptyString
              end = EmptyString).
    { destruct Hplain as [-> | ->]; [reflexivity|].
      now destruct primaryArch. }
    rewrite Hsuffix. unfold builds.
    destruct (isPortable target); repeat split.
  - intros arch -> ->. cbn [negb].
    destruct (isPortable target).
    + apply (endsWith_app "${productName} "), endsWith_refl.
    + apply (endsWith_app "${productName} "), (endsWith_app "Setup "),
        endsWith_refl.
Qed.

Lemma default_pattern_names_no_architecture_witness :
  let pattern :=
    installerFilenamePattern (Sample.nsis Sample.noOptions)
      (fun arch _ => "-" ++ Arch_name arch) None None in
  pattern = "${productName} Setup ${version}.${ext}"
  /\ Js.includes pattern "${arch}" = false
  /\ builds pattern Sample.x64AndIa32 = [Sample.x64AndIa32].
Proof.
  cbv zeta.
  apply (default_pattern_names_no_architecture
           (Sample.nsis Sample.noOptions)
           (fun arch _ => "-" ++ Arch_name arch) None None
           Sample.x64AndIa32).
  left. reflexivity.
Defined.

Lemma command_set_same k v c : Commands.get k (Commands.set k v c) = Some v.
Proof.
  induction c as [|[k' v'] c IH]; cbn.
  - now rewrite String.eqb_refl.
  - destruct (String.eqb k k') eqn:E; cbn; rewrite E; auto.
Qed.

Lemma command_set_other K k v c :
  String.eqb K k = false ->
  Commands.get K (Commands.set k v c) = Commands.get K c.
Proof.
  intros HK. induction c as [|[k' v'] c IH]; cbn.
  - now rewrite HK.
  - destruct (String.eqb k k') eqn:E; cbn.
    + apply String.eqb_eq in E. subst k'. now rewrite HK.
    + now rewrite IH.
Qed.

(** A write to the defines, to the trace, to the files or to another
    command keeps a command. *)
Ltac keeps_command :=
  unfold setDefine, deleteDefine, setCommand, emit, writeFile;
  apply preserves_modify; unfold commandIs;
  let s := fresh "s" in
  let H := fresh "H" in
  intros s H;
  repeat match goal with a : Arch |- _ => destruct a end;
  repeat match goal with r : DefinesRef |- _ => destruct r end;
  repeat match goal with r : CommandsRef |- _ => destruct r end;
  repeat match goal with
         | |- context [if ?b then _ else _] => destruct b
         end;
  cbn; try exact H;
  (rewrite command_set_other; [exact H | reflexivity]).

Section Compression.

Variable target : Target.
Variable packager : Packager.

Lemma configureDefines_keeps_command K v oneClick :
  preserves (commandIs K v)
    (configureDefines target packager oneClick TheDefines).
Proof.
  unfold configureDefines.
  repeat lazymatch goal with
         | |- preserves _ (bind _ _) =>
             apply preserves_bind; [walk keeps_command | intros ?]
         end.
  destruct oneClick; cbn [asyncTasks app forEach]; walk keeps_command.
Qed.

(** The compression commands in the table that [buildInstaller] computes:
    [off] is what [SetCompress] becomes for the compression [store], and
    [zlib] what [SetCompressor] becomes otherwise. *)
Lemma buildInstaller_compression K off zlib archs :
  In K ["SetCompress"; "SetCompressor"] ->
  off = (if String.eqb K "SetCompress" then Some (Scalar "off") else None) ->
  zlib = (if String.eqb K "SetCompressor" then Some (Scalar "zlib")
          else None) ->
  hoareOk (fun _ => True) (buildInstaller target packager archs)
    (fun _ =>
       commandIs K
         (if String.eqb (compression packager) "store" then off else zlib)).
Proof.
  intros HK -> ->.
  unfold buildInstaller, packArchTask, configureDefinesForAllTypeOfInstaller;
    cbv zeta.
  repeat lazymatch goal with
         | |- hoareOk _ (bind (modify (set_commands _)) _) _ => fail
         | |- hoareOk _ (bind _ _) _ =>
             eapply hoareOk_bind; [apply hoareOk_any | intros ?; cbv beta]
         end.
  eapply hoareOk_bind with (R := fun _ => commandIs K None).
  { intros ? ? ? _ E. injection E as _ <-.
    destruct HK as [<-|[<-|[]]]; reflexivity. }
  intros ?.
  repeat lazymatch goal with
         | |- hoareOk _ (bind (if String.eqb _ "store" then _ else _) _) _ =>
             fail
         | |- hoareOk _ (bind _ _) _ =>
             eapply hoareOk_bind;
             [ apply hoareOk_preserves;
               destruct HK as [<-|[<-|[]]];
               walk ltac:(first [ apply configureDefines_keeps_command
                                | keeps_command ])
             | intros ? ]
         end.
  eapply hoareOk_bind with
    (R := fun _ =>
            commandIs K
              (if String.eqb (compression packager) "store"
               then if String.eqb K "SetCompress"
                    then Some (Scalar "off") else None
               else if String.eqb K "SetCompressor"
                    then Some (Scalar "zlib") else None)).
  { destruct (String.eqb (compression packager) "store").
    - intros s0 ? s1 H E. injection E as _ <-. unfold commandIs in *.
      cbn [commands set_commands].
      destruct HK as [<-|[<-|[]]]; cbn [String.eqb Ascii.eqb Bool.eqb].
      + apply command_set_same.
      + rewrite command_set_other by reflexivity. exact H.
    - eapply hoareOk_bind with
        (R := fun _ =>
                commandIs K
                  (if String.eqb K "SetCompressor"
                   then Some (Scalar "zlib") else None)).
      + intros s0 ? s1 H E. injection E as _ <-. unfold commandIs in *.
        cbn [commands set_commands].
        destruct HK as [<-|[<-|[]]]; cbn [String.eqb Ascii.eqb Bool.eqb].
        * rewrite command_set_other by reflexivity. exact H.
        * apply command_set_same.
      + intros ?. apply hoareOk_preserves.
        destruct HK as [<-|[<-|[]]]; walk keeps_command. }
  intros ?. apply hoareOk_preserves.
  destruct HK as [<-|[<-|[]]]; walk keeps_command.
Qed.

End Compression.

(** X23. How the installer is compressed. In the table that
    [buildInstaller] computes exactly one of the commands [SetCompress]
    and [SetCompressor] is set: [SetCompress off] for the compression
    [store], and [SetCompressor zlib] for every other. The define
    [COMPRESS] is [auto] in the second case, unless the installer is a
    web installer, and is not defined in the first. *)
Theorem compression_commands
    (target : Target) (packager : Packager) (archs : ArchMap)
    (s s' : State) :
  buildInstaller target packager archs s = (Ok tt, s') ->
  let store := String.eqb (compression packager) "store" in
  Commands.get "SetCompress" (commands s')
  = (if store then Some (Scalar "off") else None)
  /\ Commands.get "SetCompressor" (commands s')
     = (if store then None else Some (Scalar "zlib"))
  /\ Defines.get "COMPRESS" (defines s')
     = (if store || isWebInstaller target then None else Some (Str "auto")).
Proof.
  intros Hrun store. subst store. split; [|split].
  - exact (buildInstaller_compression target packager "SetCompress" _ _ archs
             (or_introl eq_refl) eq_refl eq_refl s tt s' I Hrun).
  - exact (buildInstaller_compression target packager "SetCompressor" _ _
             archs (or_intror (or_introl eq_refl)) eq_refl eq_refl
             s tt s' I Hrun).
  - defined_by_buildInstaller "COMPRESS" Hrun ltac:(idtac).
    now destruct (String.eqb (compression packager) "store"),
      (isWebInstaller target), (isPortable target).
Qed.

Lemma compression_commands_witness :
  let s' := snd (buildInstaller (Sample.nsis Sample.noOptions)
                   Sample.packager Sample.x64Only Sample.start) in
  Commands.get "SetCompress" (commands s') = None
  /\ Commands.get "SetCompressor" (commands s') = Some (Scalar "zlib")
  /\ Defines.get "COMPRESS" (defines s') = Some (Str "auto").
Proof.
  cbv zeta.
  apply (compression_commands (Sample.nsis Sample.noOptions)
           Sample.packager Sample.x64Only Sample.start).
  vm_compute. reflexivity.
Defined.
